(** * MCPJungle: API handlers for tools and servers, and the metrics recorder

    A shallow embedding of
    - [internal/api/mcp_tools.go] and [internal/api/mcp_servers.go]
      (the gin handlers of the administrative surface), and
    - the [metrics] package file that declares [MCPMetrics], its [Record*]
      methods, [boundString] and [getErrorType],
    together with the parts of the Go standard library these files call.
    A second part embeds the functions around them: the set-up of metrics
    ([internal/metrics/otel.go], [NewMCPMetrics], [NewServer]), the
    handlers that list and deregister, the helpers of the OpenAPI document
    ([internal/docs/openapi.go]) and of the command line ([cmd/root.go],
    [cmd/version.go]).

    Go strings are byte strings: they are modelled by [string], whose
    characters are the 256 values of [ascii].  Go [int] values are modelled
    by [Z].  A Go map with string keys is a [gmap string _]. *)

From Stdlib Require Import ZArith Lia Ascii String.
From stdpp Require Import base option list strings gmap sorting.

Local Open Scope Z_scope.

(** ** Outcomes of Go code that may panic, and the state monad over them *)

Inductive outcome (A : Type) : Type :=
| Returned (a : A)
| Panicked.
Arguments Returned {A} a.
Arguments Panicked {A}.

Definition M (St A : Type) : Type := St -> outcome (A * St).

Definition ret {St A} (a : A) : M St A := fun st => Returned (a, st).

Definition bind {St A B} (m : M St A) (k : A -> M St B) : M St B :=
  fun st =>
    match m st with
    | Returned (a, st') => k a st'
    | Panicked => Panicked
    end.

Definition panic {St A} : M St A := fun _ => Panicked.

Definition get {St} : M St St := fun st => Returned (st, st).

Definition put {St} (st : St) : M St unit := fun _ => Returned (tt, st).

(** A computation that may panic but does not touch the state. *)
Definition lift {St A} (o : outcome A) : M St A :=
  fun st =>
    match o with
    | Returned a => Returned (a, st)
    | Panicked => Panicked
    end.

Definition when {St} (b : bool) (m : M St unit) : M St unit :=
  if b then m else ret tt.

Fixpoint forRange {St A} (l : list A) (body : A -> M St unit) : M St unit :=
  match l with
  | [] => ret tt
  | x :: l' => bind (body x) (fun _ => forRange l' body)
  end.

#[global] Instance M_ret {St} : MRet (M St) := fun A => @ret St A.
#[global] Instance M_bind {St} : MBind (M St) := fun A B k m => bind m k.

(** ** The Go standard library functions used by the sources *)

(** [unicode.ToLower] mapped over bytes outside ASCII
    ([strings.Map(unicode.ToLower, s)] on a run of bytes that are all
    [0x80] or more): the UTF-8 decoding of such a run and the Unicode
    tables are not part of this development, the function is an interface
    of the embedding. *)
Class UnicodeLower := unicodeToLower : string -> string.

Module GoStrings.

(** [len(s)] *)
Definition len (s : string) : Z := Z.of_nat (String.length s).

(** [strings.HasPrefix(s, prefix)] *)
Fixpoint HasPrefix (s prefix : string) {struct prefix} : bool :=
  match prefix, s with
  | EmptyString, _ => true
  | String _ _, EmptyString => false
  | String p prefix', String c s' =>
      if decide (c = p) then HasPrefix s' prefix' else false
  end.

(** [s[:n]] and [s[n:]] for [0 <= n <= len(s)], as total functions. *)
Fixpoint take (n : nat) (s : string) : string :=
  match n, s with
  | S n', String c s' => String c (take n' s')
  | _, _ => EmptyString
  end.

Fixpoint drop (n : nat) (s : string) : string :=
  match n, s with
  | S n', String _ s' => drop n' s'
  | _, _ => s
  end.

(** [strings.HasSuffix(s, suffix)]:
    [len(s) >= len(suffix) && s[len(s)-len(suffix):] == suffix] *)
Definition HasSuffix (s suffix : string) : bool :=
  (String.length suffix <=? String.length s)%nat &&
  bool_decide (drop (String.length s - String.length suffix) s = suffix).

(** [strings.Index(s, substr)]: the index of the first instance of
    [substr] in [s], or [-1]. *)
Fixpoint Index (s substr : string) : Z :=
  if HasPrefix s substr then 0
  else match s with
       | EmptyString => -1
       | String _ s' =>
           let i := Index s' substr in
           if i <? 0 then -1 else i + 1
       end.

(** [strings.Contains(s, substr)] is [Index(s, substr) >= 0]. *)
Definition Contains (s substr : string) : bool := 0 <=? Index s substr.

(** [strings.Cut(s, sep)]: if [i := Index(s, sep)] is not negative, it
    returns [s[:i], s[i+len(sep):], true]; otherwise [s], the empty string
    and [false]. *)
Definition Cut (s sep : string) : string * string * bool :=
  let i := Index s sep in
  if 0 <=? i
  then (take (Z.to_nat i) s, drop (Z.to_nat (i + len sep)) s, true)
  else (s, EmptyString, false).

(** The slice expression [s[:n]] of the language itself: it panics when
    [n] is out of range. *)
Definition slice_to (s : string) (n : Z) : outcome string :=
  if (0 <=? n) && (n <=? len s) then Returned (take (Z.to_nat n) s)
  else Panicked.

Definition isUpper (c : ascii) : bool :=
  let n := Z.of_N (N_of_ascii c) in (65 <=? n) && (n <=? 90).

Definition lowerByte (c : ascii) : ascii :=
  if isUpper c then ascii_of_N (N_of_ascii c + 32) else c.

Fixpoint isASCII (s : string) : bool :=
  match s with
  | EmptyString => true
  | String c s' => (Z.of_N (N_of_ascii c) <? 128) && isASCII s'
  end.

Fixpoint mapBytes (f : ascii -> ascii) (s : string) : string :=
  match s with
  | EmptyString => EmptyString
  | String c s' => String (f c) (mapBytes f s')
  end.

(** [Map(unicode.ToLower, run)] on the bytes outside ASCII read so far;
    there may be none. *)
Definition lowerRun `{UnicodeLower} (run : string) : string :=
  match run with
  | EmptyString => EmptyString
  | _ => unicodeToLower run
  end.

(** [strings.Map(unicode.ToLower, s)]: [Map] decodes [s] rune by rune and
    writes the mapping of each rune.  A byte below [0x80] is a rune of its
    own, which [unicode.ToLower] lowers as [lowerByte] does; it is no part
    of a longer sequence, and a sequence that it cuts short is decoded as
    one that the end of the string cuts short.  So [Map] lowers the bytes
    of ASCII where they stand, and every maximal run of other bytes apart
    from the rest: [run] holds the bytes of the run read so far. *)
Fixpoint mapToLower `{UnicodeLower} (run s : string) : string :=
  match s with
  | EmptyString => lowerRun run
  | String c s' =>
      if Z.of_N (N_of_ascii c) <? 128
      then lowerRun run +:+ String (lowerByte c) (mapToLower EmptyString s')
      else mapToLower (run +:+ String c EmptyString) s'
  end.

(** [strings.ToLower(s)]: byte-wise on an ASCII string, and
    [Map(unicode.ToLower, s)] otherwise. *)
Definition ToLower `{UnicodeLower} (s : string) : string :=
  if isASCII s then mapBytes lowerByte s else mapToLower EmptyString s.

End GoStrings.

(** The Go interface [error]: a type with a method [Error() string].  A
    value of interface type [error] is [None] (nil) or [Some e]. *)
Class error (E : Type) := Error : E -> string.

(** Errors that are known only by their message ([fmt.Errorf],
    [encoding/json]). *)
Record errorString := ErrorString { errorMessage : string }.

#[global] Instance errorString_error : error errorString := errorMessage.

(** ** Package [metrics] *)

Module metrics.
Import GoStrings.

Definition LabelMCPServerName : string := "mcp_server_name".
Definition LabelToolName : string := "tool_name".
Definition LabelStatus : string := "status".
Definition LabelErrorType : string := "error_type".
Definition LabelEventType : string := "event_type".
Definition LabelMCPMethod : string := "mcp_method".

Definition ErrorTypeTimeout : string := "timeout".
Definition ErrorTypeConnection : string := "connection".
Definition ErrorTypePermission : string := "permission".
Definition ErrorTypeValidation : string := "validation".
Definition ErrorTypeRegistration : string := "registration".
Definition ErrorTypeUnknown : string := "unknown".

Definition EventTypeRegistered : string := "registered".
Definition EventTypeDeregistered : string := "deregistered".

(** [type MetricStatus string] *)
Definition MetricStatus : Type := string.
Definition StatusSuccess : MetricStatus := "success".
Definition StatusError : MetricStatus := "error".

(** [boundString] ensures strings are capped at [maxLen] and not empty. *)
Definition boundString (s : string) (maxLen : Z) (fallback : string)
  : outcome string :=
  if decide (s = EmptyString) then Returned fallback
  else if len s >? maxLen then slice_to s maxLen
  else Returned s.

(** [getErrorType] normalizes error messages into a small set of
    categories. *)
Definition getErrorType `{UnicodeLower} `{error E} (err : option E) : string :=
  match err with
  | None => "none"
  | Some e =>
      let errStr := ToLower (Error e) in
      if Contains errStr "timeout" then ErrorTypeTimeout
      else if Contains errStr "connection" then ErrorTypeConnection
      else if Contains errStr "permission" then ErrorTypePermission
      else if Contains errStr "not found" then "not_found"
      else if Contains errStr "invalid" then "invalid"
      else if Contains errStr "cancelled" then "cancelled"
      else ErrorTypeUnknown
  end.

(** [attribute.KeyValue], built by [attribute.String] and
    [attribute.Bool]. *)
Inductive AttrValue : Type :=
| StringValue (s : string)
| BoolValue (b : bool).

Record KeyValue : Type := { Key : string; Value : AttrValue }.

Definition attribute_String (k v : string) : KeyValue :=
  {| Key := k; Value := StringValue v |}.
Definition attribute_Bool (k : string) (v : bool) : KeyValue :=
  {| Key := k; Value := BoolValue v |}.

(** [time.Time], in nanoseconds. *)
Definition Time : Type := Z.

(** What an instrument is given to record: an [int64], or the
    [float64] number [time.Since(started).Seconds()], which is kept as
    the instant it is measured from. *)
Inductive Number : Type :=
| Int64 (n : Z)
| SecondsSince (started : Time).

(** The OpenTelemetry SDK behind the instruments: the measurements it
    was given, oldest first.  An instrument is known by its name. *)
Record Measurement : Type :=
  { instrument : string; value : Number; attributes : list KeyValue }.

Definition SDK : Type := list Measurement.

Definition Instrument : Type := string.

(** [MCPMetrics] bundles the metric instruments.  Its fields have
    interface types: [None] is the nil interface. *)
Record MCPMetrics : Type :=
  { ToolInvocations : option Instrument;
    ToolLatency : option Instrument;
    ToolErrors : option Instrument;
    RequestsTotal : option Instrument;
    RequestLatency : option Instrument;
    RequestErrors : option Instrument;
    Sessions : option Instrument;
    ServerRegistrations : option Instrument;
    ServerDeregistrations : option Instrument;
    ServerTransport : option Instrument;
    ToolAvailability : option Instrument;
    ToolDiscovery : option Instrument;
    ErrorsByType : option Instrument }.

(** A method call on an instrument: [Add] of a counter and [Record] of
    a histogram hand one measurement to the SDK; on a nil interface the
    call panics. *)
Definition measure (i : option Instrument) (v : Number)
    (attrs : list KeyValue) : M SDK unit :=
  match i with
  | None => panic
  | Some name =>
      fun sdk =>
        Returned (tt, sdk ++ [{| instrument := name; value := v;
                                 attributes := attrs |}])
  end.

Definition Add (i : option Instrument) (incr : Z) (attrs : list KeyValue)
  : M SDK unit := measure i (Int64 incr) attrs.

Definition Record_ (i : option Instrument) (started : Time)
    (attrs : list KeyValue) : M SDK unit :=
  measure i (SecondsSince started) attrs.

Section Recording.
Context `{UnicodeLower} `{error E}.

(** [RecordTool] records a tool invocation, its latency, and errors
    if any. *)
Definition RecordTool (m : option MCPMetrics)
    (mcpServerName toolName : string) (status : MetricStatus)
    (started : Time) (err : option E) : M SDK unit :=
  match m with
  | None => ret tt
  | Some m =>
      server ← lift (boundString mcpServerName 64 "unknown");
      tool ← lift (boundString toolName 64 "unknown");
      let attrs := [attribute_String LabelMCPServerName server;
                    attribute_String LabelToolName tool;
                    attribute_String LabelStatus status] in
      let attrs :=
        match err with
        | Some _ =>
            attrs ++ [attribute_String LabelErrorType (getErrorType err)]
        | None => attrs
        end in
      Add (ToolInvocations m) 1 attrs;;
      Record_ (ToolLatency m) started attrs;;
      when (bool_decide (status = StatusError))
           (Add (ToolErrors m) 1 attrs)
  end.

(** [RecordRequest] records an MCP request, including latency and
    errors. *)
Definition RecordRequest (m : option MCPMetrics) (mcpMethod : string)
    (status : MetricStatus) (started : Time) (err : option E)
  : M SDK unit :=
  match m with
  | None => ret tt
  | Some m =>
      method ← lift (boundString mcpMethod 64 "unknown");
      let attrs := [attribute_String LabelMCPMethod method;
                    attribute_String LabelStatus status] in
      let attrs :=
        match err with
        | Some _ =>
            attrs ++ [attribute_String LabelErrorType (getErrorType err)]
        | None => attrs
        end in
      Add (RequestsTotal m) 1 attrs;;
      Record_ (RequestLatency m) started attrs;;
      when (bool_decide (status = StatusError))
           (Add (RequestErrors m) 1 attrs)
  end.
End Recording.

(** [RecordServerRegistration] records a server registration attempt. *)
Definition RecordServerRegistration (m : option MCPMetrics)
    (serverName : string) (success : bool) : M SDK unit :=
  match m with
  | None => ret tt
  | Some m =>
      server ← lift (boundString serverName 64 "unknown");
      let attrs := [attribute_String LabelMCPServerName server;
                    attribute_Bool "success" success] in
      Add (ServerRegistrations m) 1 attrs
  end.

(** [RecordServerDeregistration] records a server deregistration
    event. *)
Definition RecordServerDeregistration (m : option MCPMetrics)
    (serverName : string) : M SDK unit :=
  match m with
  | None => ret tt
  | Some m =>
      server ← lift (boundString serverName 64 "unknown");
      let attrs := [attribute_String LabelMCPServerName server] in
      Add (ServerDeregistrations m) 1 attrs
  end.

(** [RecordServerTransport] records a server transport lifecycle
    event. *)
Definition RecordServerTransport (m : option MCPMetrics)
    (serverName eventType : string) : M SDK unit :=
  match m with
  | None => ret tt
  | Some m =>
      server ← lift (boundString serverName 64 "unknown");
      let attrs := [attribute_String LabelMCPServerName server;
                    attribute_String LabelEventType eventType] in
      Add (ServerTransport m) 1 attrs
  end.

(** [RecordToolAvailability] records tool availability as an up/down
    counter (1=available, 0=unavailable). *)
Definition RecordToolAvailability (m : option MCPMetrics)
    (toolName : string) (available : bool) : M SDK unit :=
  match m with
  | None => ret tt
  | Some m =>
      tool ← lift (boundString toolName 64 "unknown");
      let attrs := [attribute_String LabelToolName tool] in
      let value := if available then 1 else 0 in
      Add (ToolAvailability m) value attrs
  end.

(** [RecordToolDiscovery] records a tool discovery attempt. *)
Definition RecordToolDiscovery (m : option MCPMetrics) (toolName : string)
  : M SDK unit :=
  match m with
  | None => ret tt
  | Some m =>
      tool ← lift (boundString toolName 64 "unknown");
      let attrs := [attribute_String LabelToolName tool] in
      Add (ToolDiscovery m) 1 attrs
  end.

(** [RecordEnhancedError] records an error occurrence by its
    categorized type. *)
Definition RecordEnhancedError (m : option MCPMetrics) (errorType : string)
  : M SDK unit :=
  match m with
  | None => ret tt
  | Some m =>
      let attrs := [attribute_String LabelErrorType errorType] in
      Add (ErrorsByType m) 1 attrs
  end.

End metrics.

(** ** Values shared by the packages *)

(** A Go function result [(value, error)] with a nil or a non-nil error. *)
Inductive result (R E : Type) : Type :=
| Ok (r : R)
| Err (e : E).
Arguments Ok {R E} r.
Arguments Err {R E} e.

(** A value of type [any] as [encoding/json] decodes it: nil, [bool],
    [float64] (its 64 bits), [string], [[]any] or [map[string]any]. *)
#[warnings="-register-all"]
Inductive any : Type :=
| AnyNil
| AnyBool (b : bool)
| AnyFloat64 (bits : Z)
| AnyString (s : string)
| AnySlice (l : list any)
| AnyMap (m : gmap string any).

(** Modelled from the spec: the types of the packages [model] and
    [pkg/types], which are not among the sources.  An UpstreamServer has a
    name, a description, a transport kind and the configuration of that
    kind; a Tool has its owning server, its local name, an opaque input
    schema and an enabled flag. *)
Inductive TransportType : Type :=
| TransportStdio
| TransportStreamableHTTP.

#[global] Instance TransportType_eq_dec : EqDecision TransportType.
Proof. solve_decision. Defined.

(** Modelled from the spec: the transport configuration of an
    UpstreamServer (section 3), a command with its arguments and
    environment, or a URL with an optional bearer token. *)
Inductive TransportConfig : Type :=
| StdioConfig (Command : string) (Args : list string) (Env : gmap string string)
| StreamableHTTPConfig (URL : string) (BearerToken : string).

(** Modelled from the spec: [model.McpServer], the UpstreamServer of
    section 3. *)
Record McpServer : Type :=
  { Name : string;
    Description : string;
    Transport : TransportType;
    Config : TransportConfig }.

(** Modelled from the spec: [model.Tool], the Tool of section 3. *)
Record Tool : Type :=
  { ToolServer : string;
    ToolName : string;
    InputSchema : any;
    Enabled : bool }.

(** [types.RegisterServerInput], by the fields the handler reads. *)
Record RegisterServerInput : Type :=
  { InputName : string;
    InputTransport : string;
    InputDescription : string;
    InputURL : string;
    InputBearerToken : string;
    InputCommand : string;
    InputArgs : list string;
    InputEnv : gmap string string }.

(** ** Package [api] *)

Module api.
Import GoStrings.

Definition serverToolNameSep : string := "::".

(** [splitServerToolName] splits the unique tool name into server name
    and tool name. *)
Definition splitServerToolName (name : string) : string * string * bool :=
  Cut name serverToolNameSep.

(** [net/http] status codes. *)
Definition StatusOK : Z := 200.
Definition StatusCreated : Z := 201.
Definition StatusBadRequest : Z := 400.
Definition StatusInternalServerError : Z := 500.

(** What a handler hands to [c.JSON]: the status code and the object
    that is serialised.  [ErrorBody msg] is [gin.H{"error": msg}],
    [EnabledBody l] is [gin.H{"enabled": l}] and [DisabledBody l] is
    [gin.H{"disabled": l}]. *)
Inductive Body (R : Type) : Type :=
| ErrorBody (msg : string)
| EnabledBody (tools : list string)
| DisabledBody (tools : list string)
| ToolBody (tool : Tool)
| ResultBody (resp : R)
| ServerBody (server : McpServer).
Arguments ErrorBody {R} msg.
Arguments EnabledBody {R} tools.
Arguments DisabledBody {R} tools.
Arguments ToolBody {R} tool.
Arguments ResultBody {R} resp.
Arguments ServerBody {R} server.

Record Response (R : Type) : Type :=
  { Status : Z; Payload : Body R }.
Arguments Status {R} r.
Arguments Payload {R} r.

(** The part of [*gin.Context] that the handlers read: what decoding
    the request body into the handler's variable (of type [B]) gives,
    and the query parameters. *)
Record Context (B : Type) : Type :=
  { RequestBody : result B errorString;
    QueryParams : gmap string string }.
Arguments RequestBody {B} c.
Arguments QueryParams {B} c.

(** [c.Query(key)]: the value of the parameter, or the empty string. *)
Definition Query {B} (c : Context B) (key : string) : string :=
  default EmptyString (QueryParams c !! key).

(** The methods of [*mcp.MCPService] that the handlers call, on a
    service state [S], with results [R] of a tool invocation and errors
    [E].  The package [internal/service/mcp] is not among the sources. *)
Class MCPService (S R E : Type) : Type :=
  { InvokeTool : string -> gmap string any -> S -> result R E * S;
    EnableTools : string -> S -> result (list string) E * S;
    DisableTools : string -> S -> result (list string) E * S;
    GetTool : string -> S -> result Tool E * S;
    RegisterMcpServer : McpServer -> S -> option E * S }.

(** The functions of [pkg/types] and [model] that [registerServerHandler]
    calls before it reaches the service. *)
Class ServerModel : Type :=
  { ValidateTransport : string -> result TransportType errorString;
    NewStreamableHTTPServer :
      string -> string -> string -> string -> result McpServer errorString;
    NewStdioServer :
      string -> string -> string -> list string -> gmap string string ->
      result McpServer errorString }.

(** The calls a handler makes on the service, in order. *)
Inductive ServiceCall : Type :=
| CallInvokeTool (name : string) (args : gmap string any)
| CallEnableTools (entity : string)
| CallDisableTools (entity : string)
| CallGetTool (name : string)
| CallRegisterMcpServer (server : McpServer).

(** What a handler acts on: the service behind [s.mcpService], the
    OpenTelemetry SDK behind [s.metrics], the wall clock, and the log of
    the service calls made so far. *)
Record World (S : Type) : Type :=
  { service : S;
    telemetry : metrics.SDK;
    clock : metrics.Time;
    calls : list ServiceCall }.
Arguments service {S} w.
Arguments telemetry {S} w.
Arguments clock {S} w.
Arguments calls {S} w.

(** The fields of [Server] that the handlers use besides the service. *)
Record Server : Type := { s_metrics : option metrics.MCPMetrics }.

Section Handlers.
Context {Svc R E : Type}.
Context `{UnicodeLower} `{error E} `{MCPService Svc R E} `{ServerModel}.

(** [time.Now()] *)
Definition timeNow : M (World Svc) metrics.Time :=
  fun w => Returned (clock w, w).

(** A method of [s.metrics], run on the SDK. *)
Definition record (m : M metrics.SDK unit) : M (World Svc) unit :=
  fun w =>
    match m (telemetry w) with
    | Returned (_, sdk) =>
        Returned (tt, {| service := service w; telemetry := sdk;
                         clock := clock w; calls := calls w |})
    | Panicked => Panicked
    end.

(** A method of [s.mcpService], run on the service. *)
Definition call {A} (what : ServiceCall) (op : Svc -> A * Svc)
  : M (World Svc) A :=
  fun w =>
    let '(a, svc) := op (service w) in
    Returned (a, {| service := svc; telemetry := telemetry w;
                    clock := clock w; calls := calls w ++ [what] |}).

(** [c.JSON(code, obj)] followed by [return]. *)
Definition JSON (code : Z) (obj : Body R) : M (World Svc) (Response R) :=
  ret {| Status := code; Payload := obj |}.

Definition notNil {A} (p : option A) : bool :=
  match p with Some _ => true | None => false end.

Definition noError : option errorString := None.

(** [invokeToolHandler] handles tool invocation requests. *)
Definition invokeToolHandler (s : Server)
    (c : Context (gmap string any)) : M (World Svc) (Response R) :=
  started ← timeNow;
  match RequestBody c with
  | Err err =>
      when (notNil (s_metrics s))
        (record (metrics.RecordRequest (s_metrics s) "call_tool"
                   metrics.StatusError started (Some err)));;
      JSON StatusBadRequest
        (ErrorBody ("failed to decode request body: " +:+ Error err))
  | Ok args =>
      match args !! "name" with
      | None =>
          when (notNil (s_metrics s))
            (record (metrics.RecordRequest (s_metrics s) "call_tool"
                       metrics.StatusError started noError));;
          JSON StatusBadRequest
            (ErrorBody "missing 'name' field in request body")
      | Some (AnyString name) =>
          (* remove name from args since it was an input for the api,
             not for the tool *)
          let args := delete "name" args in
          let '(serverName, toolName, _) := splitServerToolName name in
          r ← call (CallInvokeTool name args) (InvokeTool name args);
          match r with
          | Err err =>
              when (notNil (s_metrics s))
                (record (metrics.RecordRequest (s_metrics s) "call_tool"
                           metrics.StatusError started (Some err));;
                 record (metrics.RecordTool (s_metrics s) serverName
                           toolName metrics.StatusError started
                           (Some err)));;
              JSON StatusInternalServerError
                (ErrorBody ("failed to invoke tool: " +:+ Error err))
          | Ok resp =>
              when (notNil (s_metrics s))
                (record (metrics.RecordRequest (s_metrics s) "call_tool"
                           metrics.StatusSuccess started noError);;
                 record (metrics.RecordTool (s_metrics s) serverName
                           toolName metrics.StatusSuccess started
                           noError));;
              JSON StatusOK (ResultBody resp)
          end
      | Some _ =>
          when (notNil (s_metrics s))
            (record (metrics.RecordRequest (s_metrics s) "call_tool"
                       metrics.StatusError started noError));;
          JSON StatusBadRequest
            (ErrorBody "'name' field must be a string")
      end
  end.

(** [enableToolsHandler] handles tool enabling requests. *)
Definition enableToolsHandler (s : Server) (c : Context unit)
  : M (World Svc) (Response R) :=
  started ← timeNow;
  let entity := Query c "entity" in
  if decide (entity = EmptyString) then
    when (notNil (s_metrics s))
      (record (metrics.RecordRequest (s_metrics s) "enable_tools"
                 metrics.StatusError started noError));;
    JSON StatusBadRequest (ErrorBody "missing 'entity' query parameter")
  else
    r ← call (CallEnableTools entity) (EnableTools entity);
    match r with
    | Err err =>
        when (notNil (s_metrics s))
          (record (metrics.RecordRequest (s_metrics s) "enable_tools"
                     metrics.StatusError started (Some err));;
           record (metrics.RecordEnhancedError (s_metrics s)
                     metrics.ErrorTypeValidation));;
        JSON StatusInternalServerError
          (ErrorBody ("failed to enable tool(s): " +:+ Error err))
    | Ok enabledTools =>
        (* Record tool availability changes *)
        when (notNil (s_metrics s))
          (record (metrics.RecordRequest (s_metrics s) "enable_tools"
                     metrics.StatusSuccess started noError);;
           forRange enabledTools (fun toolName =>
             record (metrics.RecordToolAvailability (s_metrics s)
                       toolName true)));;
        JSON StatusOK (EnabledBody enabledTools)
    end.

(** [disableToolsHandler] handles tool disabling requests. *)
Definition disableToolsHandler (s : Server) (c : Context unit)
  : M (World Svc) (Response R) :=
  started ← timeNow;
  let entity := Query c "entity" in
  if decide (entity = EmptyString) then
    when (notNil (s_metrics s))
      (record (metrics.RecordRequest (s_metrics s) "disable_tools"
                 metrics.StatusError started noError));;
    JSON StatusBadRequest (ErrorBody "missing 'entity' query parameter")
  else
    r ← call (CallDisableTools entity) (DisableTools entity);
    match r with
    | Err err =>
        when (notNil (s_metrics s))
          (record (metrics.RecordRequest (s_metrics s) "disable_tools"
                     metrics.StatusError started (Some err));;
           record (metrics.RecordEnhancedError (s_metrics s)
                     metrics.ErrorTypeValidation));;
        JSON StatusInternalServerError
          (ErrorBody ("failed to disable tool(s): " +:+ Error err))
    | Ok disabledTools =>
        (* Record tool availability changes *)
        when (notNil (s_metrics s))
          (record (metrics.RecordRequest (s_metrics s) "disable_tools"
                     metrics.StatusSuccess started noError);;
           forRange disabledTools (fun toolName =>
             record (metrics.RecordToolAvailability (s_metrics s)
                       toolName false)));;
        JSON StatusOK (DisabledBody disabledTools)
    end.

(** [getToolHandler] handles individual tool retrieval requests. *)
Definition getToolHandler (s : Server) (c : Context unit)
  : M (World Svc) (Response R) :=
  started ← timeNow;
  let toolName := Query c "name" in
  if decide (toolName = EmptyString) then
    when (notNil (s_metrics s))
      (record (metrics.RecordRequest (s_metrics s) "get_tool"
                 metrics.StatusError started noError));;
    JSON StatusBadRequest (ErrorBody "missing 'name' query parameter")
  else
    r ← call (CallGetTool toolName) (GetTool toolName);
    match r with
    | Err err =>
        when (notNil (s_metrics s))
          (record (metrics.RecordRequest (s_metrics s) "get_tool"
                     metrics.StatusError started (Some err)));;
        JSON StatusInternalServerError (ErrorBody (Error err))
    | Ok tool =>
        when (notNil (s_metrics s))
          (record (metrics.RecordRequest (s_metrics s) "get_tool"
                     metrics.StatusSuccess started noError));;
        JSON StatusOK (ToolBody tool)
    end.

(** The validation failures of [registerServerHandler] all end the
    same way. *)
Definition badRequest (s : Server) (msg : string)
  : M (World Svc) (Response R) :=
  when (notNil (s_metrics s))
    (record (metrics.RecordEnhancedError (s_metrics s)
               metrics.ErrorTypeValidation));;
  JSON StatusBadRequest (ErrorBody msg).

(** The server that [registerServerHandler] builds from its input,
    or the message of the validation error it answers with. *)
Definition newServer (input : RegisterServerInput)
  : result McpServer string :=
  match ValidateTransport (InputTransport input) with
  | Err err => Err (Error err)
  | Ok transport =>
      if decide (transport = TransportStreamableHTTP) then
        match NewStreamableHTTPServer (InputName input)
                (InputDescription input) (InputURL input)
                (InputBearerToken input) with
        | Err err =>
            Err ("Error creating streamable http server: " +:+ Error err)
        | Ok server => Ok server
        end
      else
        match NewStdioServer (InputName input) (InputDescription input)
                (InputCommand input) (InputArgs input)
                (InputEnv input) with
        | Err err => Err ("Error creating stdio server: " +:+ Error err)
        | Ok server => Ok server
        end
  end.

Definition registerServerHandler (s : Server)
    (c : Context RegisterServerInput) : M (World Svc) (Response R) :=
  match RequestBody c with
  | Err err => badRequest s (Error err)
  | Ok input =>
      match newServer input with
      | Err msg => badRequest s msg
      | Ok server =>
          r ← call (CallRegisterMcpServer server)
                (RegisterMcpServer server);
          match r with
          | Some err =>
              when (notNil (s_metrics s))
                (record (metrics.RecordEnhancedError (s_metrics s)
                           metrics.ErrorTypeRegistration));;
              JSON StatusInternalServerError (ErrorBody (Error err))
          | None =>
              (* Record successful server registration with transport
                 type *)
              when (notNil (s_metrics s))
                (record (metrics.RecordServerRegistration (s_metrics s)
                           (Name server) true);;
                 record (metrics.RecordServerTransport (s_metrics s)
                           (Name server) metrics.EventTypeRegistered));;
              JSON StatusCreated (ServerBody server)
          end
      end
  end.

End Handlers.
End api.

(** ** Package [internal/service/mcp] *)

Module mcp.
Import GoStrings.

(** Modelled from the spec: the error taxonomy of section 7.  The
    package [internal/service/mcp] is not among the sources, and the
    spec fixes the kind of each failure but not its message: [detail] is
    free text. *)
Inductive ErrorKind : Type :=
| Validation
| NotFound
| Disabled
| Connection
| Timeout
| Permission
| ToolError.

#[global] Instance ErrorKind_eq_dec : EqDecision ErrorKind.
Proof. solve_decision. Defined.

(** Modelled from the spec: an error of the service, which is not among
    the sources, is classified by its kind (section 7). *)
Record ServiceError : Type := { kind : ErrorKind; detail : string }.

(** Modelled from the spec: the message of an error of the service names
    its kind; the spec leaves the text open. *)
Definition kindText (k : ErrorKind) : string :=
  match k with
  | Validation => "invalid input"
  | NotFound => "not found"
  | Disabled => "tool is disabled"
  | Connection => "connection failed"
  | Timeout => "timeout"
  | Permission => "permission denied"
  | ToolError => "tool error"
  end.

(** Modelled from the spec: the method [Error()] of an error of the
    service, its kind followed by the detail. *)
#[global] Instance ServiceError_error : error ServiceError :=
  fun e => kindText (kind e) +:+ ": " +:+ detail e.

(** Modelled from the spec: the Transport Client of section 4.1, which
    presents one capability surface, "list tools" and "invoke tool by
    local name with arguments", whatever the transport kind.  Its
    failures are classified at the client boundary. *)
Record ToolListing : Type := { ListedName : string; ListedSchema : any }.

(** Modelled from the spec: the two capabilities of a Transport Client
    (section 4.1), by what the upstream answers. *)
Record TransportClient : Type :=
  { ListTools : result (list ToolListing) ServiceError;
    CallTool : string -> gmap string any -> result any ServiceError }.

(** Modelled from the spec: what the Transport Clients record of their
    use, as the mock client of section 8 does. *)
Inductive UpstreamCall : Type :=
| ListToolsOf (server : string)
| CallToolOf (server tool : string) (args : gmap string any).

(** Modelled from the spec: the state the service owns (sections 2
    and 3).  [servers] is the Server Registry, [catalog] the Tool
    Catalog keyed by qualified tool name, [surface] the tool set that
    the Proxy Surface advertises, [connect] gives the Transport Client
    of an upstream server and [upstream] is the record of the calls made
    on the Transport Clients, oldest first. *)
Record Registry : Type :=
  { servers : gmap string McpServer;
    catalog : gmap string Tool;
    surface : gset string;
    connect : McpServer -> TransportClient;
    upstream : list UpstreamCall }.

(** Modelled from the spec: a qualified name is formed as
    [<serverName><separator><localToolName>] (section 3). *)
Definition qualifiedName (server tool : string) : string :=
  server +:+ api.serverToolNameSep +:+ tool.

(** Modelled from the spec: a failure of the given kind (section 7). *)
Definition failure {A} (k : ErrorKind) (what : string)
  : result A ServiceError :=
  Err {| kind := k; detail := what |}.

(** Modelled from the spec: the Proxy Surface Synchronizer of section
    4.5 makes the advertised tool set equal to the enabled tools of the
    Catalog. *)
Definition enabledTools (cat : gmap string Tool) : gset string :=
  dom (filter (fun qt => Enabled qt.2 = true) cat).

(** Modelled from the spec: the reconciliation that every mutation of
    the Catalog triggers (section 4.5). *)
Definition synchronize (reg : Registry) : Registry :=
  {| servers := servers reg; catalog := catalog reg;
     surface := enabledTools (catalog reg);
     connect := connect reg; upstream := upstream reg |}.

(** Modelled from the spec: a call on a Transport Client is recorded. *)
Definition called (what : UpstreamCall) (reg : Registry) : Registry :=
  {| servers := servers reg; catalog := catalog reg;
     surface := surface reg; connect := connect reg;
     upstream := upstream reg ++ [what] |}.

(** Modelled from the spec: [Invoke(qualifiedName, args)] of section
    4.4, steps 1 to 4.  A missing separator is reported as a validation
    error; a tool whose owning server is not registered, which the
    invariant of the Catalog excludes, as not found. *)
Definition Invoke (name : string) (args : gmap string any)
    (reg : Registry) : result any ServiceError * Registry :=
  let '(_, localName, found) := api.splitServerToolName name in
  if negb found then (failure Validation name, reg)
  else
    match catalog reg !! name with
    | None => (failure NotFound name, reg)
    | Some tool =>
        if negb (Enabled tool) then (failure Disabled name, reg)
        else
          match servers reg !! ToolServer tool with
          | None => (failure NotFound (ToolServer tool), reg)
          | Some server =>
              (CallTool (connect reg server) localName args,
               called (CallToolOf (Name server) localName args) reg)
          end
    end.

(** Modelled from the spec: the invariant of an UpstreamServer (section
    3): a non-empty name, and the transport configuration of the
    declared kind, complete. *)
Definition completeDefinition (def : McpServer) : bool :=
  negb (bool_decide (Name def = EmptyString)) &&
  match Transport def, Config def with
  | TransportStdio, StdioConfig command _ _ =>
      negb (bool_decide (command = EmptyString))
  | TransportStreamableHTTP, StreamableHTTPConfig url _ =>
      negb (bool_decide (url = EmptyString))
  | _, _ => false
  end.

(** Modelled from the spec: discovery lists the tools of the upstream
    server; a local name that contains the separator, or that occurs
    twice in the listing, is a validation failure (sections 3 and
    4.3). *)
Definition discover (client : TransportClient)
  : result (list ToolListing) ServiceError :=
  match ListTools client with
  | Err e => Err e
  | Ok listing =>
      if existsb (fun l => Contains (ListedName l) api.serverToolNameSep)
                 listing
      then failure Validation "tool name contains the separator"
      else if bool_decide (NoDup (ListedName <$> listing))
      then Ok listing
      else failure Validation "duplicate tool name"
  end.

(** Modelled from the spec: a discovered tool is owned by the server and
    enabled by default (sections 3 and 4.2). *)
Definition discovered (server : string) (l : ToolListing) : Tool :=
  {| ToolServer := server; ToolName := ListedName l;
     InputSchema := ListedSchema l; Enabled := true |}.

(** Modelled from the spec: the Catalog is populated with the discovered
    tools under their qualified names (section 4.2). *)
Definition populate (server : string) (listing : list ToolListing)
    (cat : gmap string Tool) : gmap string Tool :=
  foldr (fun l cat =>
           <[qualifiedName server (ListedName l) := discovered server l]>
             cat)
        cat listing.

(** Modelled from the spec: [Register(def)] of section 4.2. *)
Definition Register (def : McpServer) (reg : Registry)
  : option ServiceError * Registry :=
  if negb (completeDefinition def)
  then (Some {| kind := Validation; detail := Name def |}, reg)
  else
    match servers reg !! Name def with
    | Some _ => (Some {| kind := Validation; detail := Name def |}, reg)
    | None =>
        let reg := called (ListToolsOf (Name def)) reg in
        match discover (connect reg def) with
        | Err e => (Some e, reg)
        | Ok listing =>
            (None,
             synchronize
               {| servers := <[Name def := def]> (servers reg);
                  catalog := populate (Name def) listing (catalog reg);
                  surface := surface reg; connect := connect reg;
                  upstream := upstream reg |})
        end
    end.

(** Modelled from the spec: the resolution of an entity reference
    (section 3): a known server name denotes all the tools of that
    server, otherwise the reference is a qualified tool name. *)
Definition resolve (entity : string) (reg : Registry) : list string :=
  match servers reg !! entity with
  | Some _ =>
      (map_to_list
         (filter (fun qt => ToolServer qt.2 = entity) (catalog reg))).*1
  | None =>
      match catalog reg !! entity with
      | Some _ => [entity]
      | None => []
      end
  end.

(** Modelled from the spec: the enabled flag of a tool is set (section
    4.3). *)
Definition withEnabled (enabled : bool) (t : Tool) : Tool :=
  {| ToolServer := ToolServer t; ToolName := ToolName t;
     InputSchema := InputSchema t; Enabled := enabled |}.

(** Modelled from the spec: [SetEnabled(entityRef, enabled)] of section
    4.3. *)
Definition SetEnabled (entity : string) (enabled : bool) (reg : Registry)
  : result (list string) ServiceError * Registry :=
  match resolve entity reg with
  | [] => (failure Validation entity, reg)
  | names =>
      (Ok names,
       synchronize
         {| servers := servers reg;
            catalog := foldr (alter (withEnabled enabled)) (catalog reg)
                             names;
            surface := surface reg; connect := connect reg;
            upstream := upstream reg |})
  end.

(** Modelled from the spec: [Get(qualifiedName)] of section 4.3. *)
Definition Get (name : string) (reg : Registry)
  : result Tool ServiceError * Registry :=
  match catalog reg !! name with
  | Some tool => (Ok tool, reg)
  | None => (failure NotFound name, reg)
  end.

(** Modelled from the spec: the methods of [*mcp.MCPService] that the
    handlers of package [api] call, by the operations of sections 4.2 to
    4.4. *)
#[global] Instance service : api.MCPService Registry any ServiceError :=
  {| api.InvokeTool := Invoke;
     api.EnableTools := fun entity => SetEnabled entity true;
     api.DisableTools := fun entity => SetEnabled entity false;
     api.GetTool := Get;
     api.RegisterMcpServer := Register |}.

(** Modelled from the spec: a validation failure of the constructors. *)
Definition invalid {A} (what : string) : result A errorString :=
  Err (ErrorString what).

(** Modelled from the spec: the constructors of package [model] and the
    transport check of [pkg/types], by the invariant of section 3: the
    transport kind is one of the two, the name is not empty and the
    configuration of the kind is present. *)
#[global] Instance serverModel : api.ServerModel :=
  {| api.ValidateTransport := fun t =>
       if decide (t = "subprocess") then Ok TransportStdio
       else if decide (t = "streaming-http") then Ok TransportStreamableHTTP
       else invalid "unsupported transport";
     api.NewStreamableHTTPServer := fun name description url token =>
       let def := {| Name := name; Description := description;
                     Transport := TransportStreamableHTTP;
                     Config := StreamableHTTPConfig url token |} in
       if completeDefinition def then Ok def
       else invalid "invalid server definition";
     api.NewStdioServer := fun name description command args env =>
       let def := {| Name := name; Description := description;
                     Transport := TransportStdio;
                     Config := StdioConfig command args env |} in
       if completeDefinition def then Ok def
       else invalid "invalid server definition" |}.

(** Modelled from the spec: the invariant of the Catalog (section 3):
    every key is the qualified name of its tool, and every tool is owned
    by a registered server. *)
Definition wellFormed (reg : Registry) : Prop :=
  map_Forall
    (fun name tool =>
       name = qualifiedName (ToolServer tool) (ToolName tool) /\
       is_Some (servers reg !! ToolServer tool))
    (catalog reg).

End mcp.

(** * Vocabulary of the statements *)

Module Spec.
Import GoStrings metrics.

(** Every instrument of the bundle is present, as [NewMCPMetrics]
    leaves them when it returns without error. *)
Definition instrumented (m : MCPMetrics) : bool :=
  api.notNil (ToolInvocations m) && api.notNil (ToolLatency m) &&
  api.notNil (ToolErrors m) && api.notNil (RequestsTotal m) &&
  api.notNil (RequestLatency m) && api.notNil (RequestErrors m) &&
  api.notNil (Sessions m) && api.notNil (ServerRegistrations m) &&
  api.notNil (ServerDeregistrations m) && api.notNil (ServerTransport m) &&
  api.notNil (ToolAvailability m) && api.notNil (ToolDiscovery m) &&
  api.notNil (ErrorsByType m).

(** The metrics of a server are either not configured, or
    instrumented. *)
Definition configured (s : api.Server) : bool :=
  match api.s_metrics s with
  | None => true
  | Some m => instrumented m
  end.

(** A server-name or tool-name label holds a non-empty string of at
    most 64 bytes. *)
Definition boundedLabel (kv : KeyValue) : Prop :=
  Key kv = LabelMCPServerName \/ Key kv = LabelToolName ->
  exists v, Value kv = StringValue v /\ v <> EmptyString /\ len v <= 64.

(** A recording method returns, and the measurements it hands to the
    SDK satisfy [P]. *)
Definition records (P : list Measurement -> Prop) (run : M SDK unit)
  : Prop :=
  forall sdk, exists new, run sdk = Returned (tt, sdk ++ new) /\ P new.

(** Every name label of the measurements is bounded. *)
Definition boundedNames (new : list Measurement) : Prop :=
  Forall (fun m => Forall boundedLabel (attributes m)) new.

(** A recording method that does nothing. *)
Definition noOp (run : M SDK unit) : Prop :=
  forall sdk, run sdk = Returned (tt, sdk).

(** The measurement carries the error type [t]. *)
Definition hasErrorType (t : string) (m : Measurement) : Prop :=
  attribute_String LabelErrorType t ∈ attributes m.

(** The measurements carry the type of the error [err], if there is
    one. *)
Definition typedErrors `{UnicodeLower} `{error E} (err : option E)
    (new : list Measurement) : Prop :=
  Forall (fun m => err <> None -> hasErrorType (getErrorType err) m) new.

(** The measurement that [RecordEnhancedError] hands to the SDK. *)
Definition errorOfType (bundle : option MCPMetrics) (t : string)
    (m : Measurement) : Prop :=
  exists b name, bundle = Some b /\ ErrorsByType b = Some name /\
    m = {| instrument := name; value := Int64 1;
           attributes := [attribute_String LabelErrorType t] |}.

(** The world after the SDK was handed the measurements [new]. *)
Definition withTelemetry {Svc} (w : api.World Svc) (new : list Measurement)
  : api.World Svc :=
  {| api.service := api.service w;
     api.telemetry := api.telemetry w ++ new;
     api.clock := api.clock w;
     api.calls := api.calls w |}.

(** A step of a handler that only records, measurements that satisfy
    [P]. *)
Definition emits {Svc} (P : list Measurement -> Prop)
    (run : M (api.World Svc) unit) : Prop :=
  forall w, exists new, run w = Returned (tt, withTelemetry w new) /\ P new.

(** The handler returns: it answers [resp], leaves the service in the
    state [svc], has made the service calls [made] and has handed the
    SDK measurements that satisfy [P]; the SDK is handed nothing at all
    exactly when the server has no metrics. *)
Definition responds {Svc R} (s : api.Server)
    (run : M (api.World Svc) (api.Response R)) (w : api.World Svc)
    (resp : api.Response R) (svc : Svc) (made : list api.ServiceCall)
    (P : list Measurement -> Prop) : Prop :=
  exists new,
    run w = Returned (resp,
                      {| api.service := svc;
                         api.telemetry := api.telemetry w ++ new;
                         api.clock := api.clock w;
                         api.calls := api.calls w ++ made |}) /\
    (new = [] <-> api.s_metrics s = None) /\ P new.

Definition anything : list Measurement -> Prop := fun _ => True.

(** With metrics, an error of type [t] was counted. *)
Definition countsError (s : api.Server) (t : string)
    (new : list Measurement) : Prop :=
  api.s_metrics s <> None -> Exists (errorOfType (api.s_metrics s) t) new.

(** The kinds of the taxonomy of section 7 of the spec, as labels, in
    either spelling. *)
Definition taxonomyLabels : list string :=
  ["validation"; "not-found"; "not_found"; "disabled"; "connection";
   "timeout"; "permission"; "tool-error"; "tool_error"].

(** The labels that [getErrorType] returns. *)
Definition errorTypeLabels : list string :=
  ["none"; "timeout"; "connection"; "permission"; "not_found"; "invalid";
   "cancelled"; "unknown"].

(** An instance to evaluate [ToLower] with; on ASCII strings every
    instance gives the same result. *)
Definition asciiLower : UnicodeLower := fun s => s.

(** A bundle with every instrument present, named as [NewMCPMetrics]
    names them. *)
Definition sampleMetrics : MCPMetrics :=
  {| ToolInvocations := Some "mcpjungle_tool_invocations_total";
     ToolLatency := Some "mcpjungle_tool_latency_seconds";
     ToolErrors := Some "mcpjungle_tool_errors_total";
     RequestsTotal := Some "mcpjungle_client_requests_total";
     RequestLatency := Some "mcpjungle_request_duration_seconds";
     RequestErrors := Some "mcpjungle_request_errors_total";
     Sessions := Some "mcpjungle_connected_sessions";
     ServerRegistrations := Some "mcpjungle_server_registrations_total";
     ServerDeregistrations := Some "mcpjungle_server_deregistrations_total";
     ServerTransport := Some "mcpjungle_server_transport_total";
     ToolAvailability := Some "mcpjungle_tool_availability";
     ToolDiscovery := Some "mcpjungle_tool_discovery_total";
     ErrorsByType := Some "mcpjungle_errors_by_type_total" |}.

(** *** Sample data, to evaluate the definitions on *)

Definition sampleServer : api.Server :=
  {| api.s_metrics := Some sampleMetrics |}.

(** An upstream with one tool, [add], and an upstream that cannot be
    reached. *)
Definition calcClient : mcp.TransportClient :=
  {| mcp.ListTools :=
       Ok [{| mcp.ListedName := "add"; mcp.ListedSchema := AnyNil |}];
     mcp.CallTool := fun _ args => Ok (AnyMap args) |}.

Definition deadClient : mcp.TransportClient :=
  {| mcp.ListTools := mcp.failure mcp.Connection "upstream unreachable";
     mcp.CallTool := fun _ _ =>
       mcp.failure mcp.Connection "upstream unreachable" |}.

Definition sampleConnect (def : McpServer) : mcp.TransportClient :=
  if decide (Name def = "calc") then calcClient else deadClient.

Definition calc : McpServer :=
  {| Name := "calc"; Description := "calculator";
     Transport := TransportStdio;
     Config := StdioConfig "calc-tool" [] ∅ |}.

Definition emptyRegistry : mcp.Registry :=
  {| mcp.servers := ∅; mcp.catalog := ∅; mcp.surface := ∅;
     mcp.connect := sampleConnect; mcp.upstream := [] |}.

(** The registry after [calc] was registered, and after its tool was
    disabled. *)
Definition calcRegistry : mcp.Registry := (mcp.Register calc emptyRegistry).2.

Definition calcOffRegistry : mcp.Registry :=
  (mcp.SetEnabled "calc::add" false calcRegistry).2.

Definition worldOf {Svc} (svc : Svc) : api.World Svc :=
  {| api.service := svc; api.telemetry := []; api.clock := 0;
     api.calls := [] |}.

(** Requests. *)
Definition invokeRequest (args : gmap string any)
  : api.Context (gmap string any) :=
  {| api.RequestBody := Ok args; api.QueryParams := ∅ |}.

Definition queryRequest (key value : string) : api.Context unit :=
  {| api.RequestBody := Ok tt; api.QueryParams := {[key := value]} |}.

Definition registerRequest (name : string)
  : api.Context RegisterServerInput :=
  {| api.RequestBody :=
       Ok {| InputName := name; InputTransport := "subprocess";
             InputDescription := "a tool server"; InputURL := EmptyString;
             InputBearerToken := EmptyString; InputCommand := "run-tool";
             InputArgs := []; InputEnv := ∅ |};
     api.QueryParams := ∅ |}.

End Spec.

(** * The command line, the OpenAPI document and the set-up of metrics *)

(** ** More of the Go standard library *)

(** [unicode.ToTitle] mapped over the word starts of a string that holds
    a byte outside ASCII ([strings.Title]): an interface of the
    embedding, as [UnicodeLower] is. *)
Class UnicodeTitle := unicodeTitle : string -> string.

(** [sort.Slice(x, less)]: the slice it leaves in place of [x].  The
    algorithm is not part of this development; what the package
    documents about it is the hypothesis of the statements that need
    it. *)
Class SortSlice :=
  sortSlice : forall A : Type, (A -> A -> bool) -> list A -> list A.
Arguments sortSlice {_ A} less x.

Module GoStringsMore.
Import GoStrings.

Definition isDigit (c : ascii) : bool :=
  let n := Z.of_N (N_of_ascii c) in (48 <=? n) && (n <=? 57).

Definition isLower (c : ascii) : bool :=
  let n := Z.of_N (N_of_ascii c) in (97 <=? n) && (n <=? 122).

(** The comparison [s < t] of two strings: byte by byte. *)
Definition lt (s t : string) : bool := String.ltb s t.

(** [strings.TrimPrefix(s, prefix)] *)
Definition TrimPrefix (s prefix : string) : string :=
  if HasPrefix s prefix then drop (String.length prefix) s else s.

(** [strings.LastIndex(s, substr)]: the index of the last instance of
    [substr] in [s], or [-1]. *)
Fixpoint LastIndex (s substr : string) : Z :=
  match s with
  | EmptyString => if HasPrefix s substr then 0 else -1
  | String _ s' =>
      let i := LastIndex s' substr in
      if 0 <=? i then i + 1
      else if HasPrefix s substr then 0 else -1
  end.

(** The slice expression [s[n:]] of the language itself: it panics
    when [n] is out of range. *)
Definition slice_from (s : string) (n : Z) : outcome string :=
  if (0 <=? n) && (n <=? len s) then Returned (drop (Z.to_nat n) s)
  else Panicked.

(** [strings.Trim(s, cutset)] for a [cutset] of one ASCII byte [c], as
    the sources call it: [trimLeftByte(trimRightByte(s, c), c)]. *)
Fixpoint trimLeftByte (s : string) (c : ascii) : string :=
  match s with
  | EmptyString => EmptyString
  | String b s' => if decide (b = c) then trimLeftByte s' c else s
  end.

Fixpoint trimRightByte (s : string) (c : ascii) : string :=
  match s with
  | EmptyString => EmptyString
  | String b s' =>
      match trimRightByte s' c with
      | EmptyString =>
          if decide (b = c) then EmptyString else String b EmptyString
      | t => String b t
      end
  end.

Definition Trim (s : string) (c : ascii) : string :=
  trimLeftByte (trimRightByte s c) c.

(** [strings.Split(s, sep)] for a [sep] that is not empty, as the
    sources call it: [s] is cut at each instance of [sep], from the
    left.  There are at most [len(s)] of them. *)
Fixpoint genSplit (n : nat) (s sep : string) : list string :=
  match n with
  | O => [s]
  | S n' =>
      match Cut s sep with
      | (before, after, true) => before :: genSplit n' after sep
      | (_, _, false) => [s]
      end
  end.

Definition Split (s sep : string) : list string :=
  genSplit (String.length s) s sep.

(** [strings.Title(s)]: on an ASCII string, the letter that follows a
    separator (a byte that is no letter, digit or underscore) or starts
    the string is mapped to upper case; [Map] with [unicode.ToTitle]
    otherwise. *)
Definition isSeparator (c : ascii) : bool :=
  negb (isDigit c || isLower c || isUpper c || bool_decide (c = "_"%char)).

Definition upperByte (c : ascii) : ascii :=
  if isLower c then ascii_of_N (N_of_ascii c - 32) else c.

Fixpoint titleBytes (prev : ascii) (s : string) : string :=
  match s with
  | EmptyString => EmptyString
  | String c s' =>
      String (if isSeparator prev then upperByte c else c) (titleBytes c s')
  end.

Definition Title `{UnicodeTitle} (s : string) : string :=
  if isASCII s then titleBytes " "%char s else unicodeTitle s.

End GoStringsMore.

Module strconv.
Import GoStringsMore.

(** The width of [int]: 64 bits, as on the platforms the releases are
    built for. *)
Definition intSize : Z := 64.

Fixpoint digits (n : Z) (s : string) : option Z :=
  match s with
  | EmptyString => Some n
  | String ch s' =>
      if isDigit ch then digits (n * 10 + (Z.of_N (N_of_ascii ch) - 48)) s'
      else None
  end.

(** [strconv.Atoi(s)]: the value of a decimal integer with an optional
    sign, or [None] when it returns an error (no digits, a byte that is
    no digit, or a value out of the range of [int]). *)
Definition Atoi (s : string) : option Z :=
  let '(neg, s') :=
    match s with
    | String "-"%char s' => (true, s')
    | String "+"%char s' => (false, s')
    | _ => (false, s)
    end in
  if decide (s' = EmptyString) then None
  else
    n ← digits 0 s';
    let n := if neg : bool then - n else n in
    if (- 2 ^ (intSize - 1) <=? n) && (n <=? 2 ^ (intSize - 1) - 1)
    then Some n else None.

End strconv.

(** ** Package [cmd] *)

Module cmd.
Import GoStrings GoStringsMore.

(** [*cobra.Command], by what the functions below read of it:
    [IsAvailableCommand] and [IsAdditionalHelpTopicCommand] are the
    results of the methods of these names. *)
Record Command : Type :=
  { Name : string;
    Short : string;
    Annotations : option (gmap string string);
    IsAvailableCommand : bool;
    IsAdditionalHelpTopicCommand : bool }.

Definition subCommandGroupBasic : string := "basic".
Definition subCommandGroupAdvanced : string := "advanced".

(** [unorderedCommand] is a special value used to indicate that a
    command does not have any order specified. *)
Definition unorderedCommand : Z := -1.

(** [getOrderValue] returns the order specified for the given command
    within its group, or -1 (unordered). *)
Definition getOrderValue (cmd : Command) : Z :=
  match Annotations cmd with
  | None => unorderedCommand
  | Some annotations =>
      match annotations !! "order" with
      | None => unorderedCommand
      | Some orderStr =>
          match strconv.Atoi orderStr with
          | None => unorderedCommand
          | Some order => order
          end
      end
  end.

(** The function [less] that [sortCommandsByOrder] hands to
    [sort.Slice], on the commands at the two indices. *)
Definition less (i j : Command) : bool :=
  let orderI := getOrderValue i in
  let orderJ := getOrderValue j in
  (* Handle unordered commands (-1) - they go to the end *)
  if bool_decide (orderI = unorderedCommand) &&
     bool_decide (orderJ = unorderedCommand)
  then lt (Name i) (Name j)
  else if bool_decide (orderI = unorderedCommand) then false
  else if bool_decide (orderJ = unorderedCommand) then true
  else orderI <? orderJ.

(** [sortCommandsByOrder] sorts sub-commands by their order. *)
Definition sortCommandsByOrder `{SortSlice} (commands : list Command)
  : list Command :=
  sortSlice less commands.

(** The loop of [groupCommands] over the sub-commands. *)
Fixpoint collect (commands : list Command)
    (groups : gmap string (list Command))
  : result (gmap string (list Command)) errorString :=
  match commands with
  | [] => Ok groups
  | subCmd :: commands' =>
      (* skip non-functional commands *)
      if negb (IsAvailableCommand subCmd) ||
         IsAdditionalHelpTopicCommand subCmd
      then collect commands' groups
      else
        match Annotations subCmd with
        | None =>
            Err (ErrorString
                   ("subcommand '" +:+ Name subCmd +:+
                    "' has no annotations, cannot determine group"))
        | Some annotations =>
            let group := default EmptyString (annotations !! "group") in
            if bool_decide (group <> subCommandGroupBasic) &&
               bool_decide (group <> subCommandGroupAdvanced)
            then
              Err (ErrorString
                     ("unknown group '" +:+ group +:+
                      "' for subcommand '" +:+ Name subCmd +:+ "'"))
            else
              collect commands'
                (<[group := default [] (groups !! group) ++ [subCmd]]>
                   groups)
        end
  end.

(** [groupCommands] organizes sub-commands by their group annotation. *)
Definition groupCommands `{SortSlice} (commands : list Command)
  : result (gmap string (list Command)) errorString :=
  match
    collect commands
      (<[subCommandGroupBasic := []]>
         (<[subCommandGroupAdvanced := []]> ∅))
  with
  | Err err => Err err
  | Ok groups =>
      (* sort each group by order annotation *)
      Ok (sortCommandsByOrder <$> groups)
  end.

(** [debug.BuildInfo], by the field that [GetVersion] reads:
    [info.Main.Version]. *)
Record BuildInfo : Type := { MainVersion : string }.

(** [normalizeVersion] ensures a consistent version format: a version
    that starts with a digit gets the prefix [v]. *)
Definition normalizeVersion (v : string) : string :=
  match v with
  | EmptyString => v
  | String v0 _ => if isDigit v0 then "v" +:+ v else v
  end.

(** [GetVersion], from the variable [Version] set at build time and
    what [debug.ReadBuildInfo()] returns. *)
Definition GetVersion (Version : string) (buildInfo : option BuildInfo)
  : string :=
  if bool_decide (Version <> EmptyString) && bool_decide (Version <> "dev")
  then normalizeVersion Version
  else
    match buildInfo with
    | Some info =>
        if bool_decide (MainVersion info <> EmptyString) &&
           bool_decide (MainVersion info <> "(devel)")
        then normalizeVersion (MainVersion info)
        else "dev"
    | None => "dev"
    end.

End cmd.
(** ** Package [docs] *)

Module docs.
Import GoStrings GoStringsMore.

(** The bytes that [\w] matches: [[0-9A-Za-z_]]. *)
Definition isWord (c : ascii) : bool :=
  isDigit c || isLower c || isUpper c || bool_decide (c = "_"%char).

(** A match of [paramRe], the regular expression [(:\w+|\*\w+)], starts
    at a byte [c] that is followed by [src]: [c] is a colon or a star,
    and a word byte follows. *)
Definition startsParam (c : ascii) (src : string) : bool :=
  (bool_decide (c = ":"%char) || bool_decide (c = "*"%char)) &&
  match src with
  | String d _ => isWord d
  | EmptyString => false
  end.

(** [paramRe.ReplaceAllStringFunc(src, repl)]: the matches are found
    from the left, each as long as it can be, and replaced by what
    [repl] makes of them.  [m] is the match that the bytes before [src]
    have begun, if any. *)
Fixpoint ReplaceAllStringFunc (repl : string -> string) (m : option string)
    (src : string) : string :=
  match src with
  | EmptyString =>
      match m with
      | Some m => repl m
      | None => EmptyString
      end
  | String c src' =>
      let unmatched :=
        if startsParam c src'
        then ReplaceAllStringFunc repl (Some (String c EmptyString)) src'
        else String c (ReplaceAllStringFunc repl None src') in
      match m with
      | Some m =>
          if isWord c
          then ReplaceAllStringFunc repl (Some (m +:+ String c EmptyString))
                 src'
          else repl m +:+ unmatched
      | None => unmatched
      end
  end.

(** [ginPathToOpenAPIPath] converts a Gin path to an OpenAPI path. *)
Definition ginPathToOpenAPIPath (p : string) : string :=
  (* Convert ":param" or "*param" to "{param}" *)
  ReplaceAllStringFunc
    (fun m =>
       let name := TrimPrefix m ":" in
       let name := TrimPrefix name "*" in
       "{" +:+ name +:+ "}")
    None p.

(** [gin.RouteInfo] *)
Record RouteInfo : Type :=
  { Method : string; Path : string; Handler : string }.

(** [deriveSummary] derives a summary from a Gin route. *)
Definition deriveSummary `{UnicodeLower} `{UnicodeTitle} (rt : RouteInfo)
  : outcome string :=
  (* Use the last part of handler as a human-friendly summary *)
  let h := Handler rt in
  let idx := LastIndex h "." in
  match
    if (0 <=? idx) && (idx + 1 <? len h) then slice_from h (idx + 1)
    else Returned h
  with
  | Returned h => Returned (Title (ToLower (Method rt)) +:+ " " +:+ h)
  | Panicked => Panicked
  end.

(** [deriveTags] derives tags from a path; [[]] is the nil slice. *)
Definition deriveTags (path : string) : list string :=
  (* Tag by first path segment after "/api/v*" if present, otherwise
     first segment *)
  let segs := Split (Trim path "/"%char) "/" in
  match segs with
  | [] => []
  | seg0 :: seg1 :: seg2 :: _ =>
      if bool_decide (seg0 = "api") && HasPrefix seg1 "v" then [seg2]
      else [seg0]
  | seg0 :: _ => [seg0]
  end.

End docs.

(** ** Package [metrics]: the configuration and the instruments *)

Module otel.
Import GoStrings metrics.

Definition serviceName : string := "mcpjungle".

(** [Config] holds otel configuration options. *)
Record Config : Type :=
  { Enabled : bool;
    ServerMode : string;
    MetricsPath : string }.

(** [DefaultConfig] returns a default otel configuration. *)
Definition DefaultConfig : Config :=
  {| Enabled := false;
     ServerMode := "development";
     MetricsPath := "/metrics" |}.

(** [os.Getenv(key)] in the environment [env]: the value of the
    variable, or the empty string. *)
Definition Getenv (env : gmap string string) (key : string) : string :=
  default EmptyString (env !! key).

(** [LoadConfigFromEnv] loads otel configuration from environment
    variables. *)
Definition LoadConfigFromEnv (env : gmap string string) : Config :=
  let config := DefaultConfig in
  (* Load server mode first *)
  let serverMode := Getenv env "SERVER_MODE" in
  let config :=
    if bool_decide (serverMode <> EmptyString) then
      {| Enabled :=
           (* Automatically enable OTEL for production mode *)
           if bool_decide (serverMode = "production") then true
           else Enabled config;
         ServerMode := serverMode;
         MetricsPath := MetricsPath config |}
    else config in
  (* Check if otel is explicitly enabled/disabled *)
  let enabled := Getenv env "OTEL_ENABLED" in
  let config :=
    if bool_decide (enabled <> EmptyString) then
      if bool_decide (enabled = "true") || bool_decide (enabled = "1") then
        {| Enabled := true; ServerMode := ServerMode config;
           MetricsPath := MetricsPath config |}
      else if bool_decide (enabled = "false") || bool_decide (enabled = "0")
      then
        {| Enabled := false; ServerMode := ServerMode config;
           MetricsPath := MetricsPath config |}
      else config
    else config in
  (* Load metrics configuration *)
  let metricsPath := Getenv env "METRICS_PATH" in
  if bool_decide (metricsPath <> EmptyString) then
    {| Enabled := Enabled config; ServerMode := ServerMode config;
       MetricsPath := metricsPath |}
  else config.

(** [metric.Meter], by the three methods that [NewMCPMetrics] calls: the
    name of the instrument gives the instrument (an interface value) or
    an error.  The options (description, unit, bucket boundaries) are
    left out. *)
Record Meter : Type :=
  { Int64Counter : string -> result (option Instrument) errorString;
    Float64Histogram : string -> result (option Instrument) errorString;
    Int64UpDownCounter : string -> result (option Instrument) errorString }.

(** [*sdkmetric.MeterProvider], by its methods [Meter] and [Shutdown]. *)
Record MeterProvider : Type :=
  { ProviderMeter : string -> Meter;
    ProviderShutdown : option errorString }.

(** What [InitOTel] asks of the OpenTelemetry SDK and of the Prometheus
    client: [sdkresource.New] (given the service name and the
    deployment environment), [prometheus.New] and
    [sdkmetric.NewMeterProvider]; [promhttp.Handler()] is [Handler]. *)
Class OTel : Type :=
  { Resource : Type;
    Exporter : Type;
    Handler : Type;
    resourceNew : string -> string -> result Resource errorString;
    prometheusNew : result Exporter errorString;
    NewMeterProvider : Exporter -> Resource -> MeterProvider;
    promhttpHandler : Handler }.

(** [Providers] holds the Otel provider and HTTP handler for metrics.
    Its fields are pointers and interface values: [None] is nil. *)
Record Providers `{OTel} : Type :=
  { p_Config : option Config;
    p_MeterProvider : option MeterProvider;
    p_Meter : option Meter;
    p_Handler : option Handler }.

(** [fmt.Errorf(format + ": %w", err)] *)
Definition wrap `{error E} (message : string) (err : E) : errorString :=
  ErrorString (message +:+ ": " +:+ Error err).

(** [InitOTel] initializes Otel with the provided configuration; it
    panics on a nil [config].  That it also sets the global meter
    provider ([otel.SetMeterProvider]) is not modelled: nothing here
    reads it. *)
Definition InitOTel `{OTel} (config : option Config)
  : outcome (result Providers errorString) :=
  match config with
  | None => Panicked
  | Some cfg =>
      (* If otel is disabled, return empty providers *)
      if negb (Enabled cfg) then
        Returned (Ok {| p_Config := config; p_MeterProvider := None;
                        p_Meter := None; p_Handler := None |})
      else
        match resourceNew serviceName (ServerMode cfg) with
        | Err err => Returned (Err (wrap "failed to create resource" err))
        | Ok res =>
            match prometheusNew with
            | Err err =>
                Returned
                  (Err (wrap "failed to create Prometheus exporter" err))
            | Ok exporter =>
                let meterProvider := NewMeterProvider exporter res in
                let meter := ProviderMeter meterProvider serviceName in
                let handler := promhttpHandler in
                Returned (Ok {| p_Config := config;
                                p_MeterProvider := Some meterProvider;
                                p_Meter := Some meter;
                                p_Handler := Some handler |})
            end
        end
  end.

(** [IsEnabled] returns true if otel is enabled. *)
Definition IsEnabled `{OTel} (p : Providers) : bool :=
  match p_Config p with
  | Some cfg => Enabled cfg
  | None => false
  end.

(** [Shutdown] gracefully shuts down the providers. *)
Definition Shutdown `{OTel} (p : option Providers) : option errorString :=
  match p with
  | None => None
  | Some p =>
      match p_MeterProvider p with
      | Some meterProvider =>
          match ProviderShutdown meterProvider with
          | Some err => Some (wrap "failed to shutdown meter provider" err)
          | None => None
          end
      | None => None
      end
  end.

(** An instrument is created, or the constructor returns the error
    with the message in front. *)
Definition created {A} (r : result (option Instrument) errorString)
    (message : string)
    (k : option Instrument -> result A errorString) : result A errorString :=
  match r with
  | Err err => Err (wrap message err)
  | Ok i => k i
  end.

(** [NewMCPMetrics] initializes all metric instruments required by
    MCPJungle.  It returns a bundle ready for use, or an error if any
    instrument could not be created. *)
Definition NewMCPMetrics (meter : option Meter)
  : result MCPMetrics errorString :=
  match meter with
  | None => Err (ErrorString "meter cannot be nil")
  | Some meter =>
      created (Int64Counter meter "mcpjungle_tool_invocations_total")
        "failed to create tool invocations counter" (fun toolInv =>
      created (Float64Histogram meter "mcpjungle_tool_latency_seconds")
        "failed to create tool latency histogram" (fun toolLat =>
      created (Int64Counter meter "mcpjungle_tool_errors_total")
        "failed to create tool errors counter" (fun toolErrors =>
      created (Int64Counter meter "mcpjungle_client_requests_total")
        "failed to create requests counter" (fun reqTotal =>
      created (Float64Histogram meter "mcpjungle_request_duration_seconds")
        "failed to create request latency histogram" (fun reqLat =>
      created (Int64Counter meter "mcpjungle_request_errors_total")
        "failed to create request errors counter" (fun reqErrors =>
      created (Int64UpDownCounter meter "mcpjungle_connected_sessions")
        "failed to create sessions counter" (fun sessions =>
      created (Int64Counter meter "mcpjungle_server_registrations_total")
        "failed to create server registrations counter" (fun serverReg =>
      created (Int64Counter meter "mcpjungle_server_deregistrations_total")
        "failed to create server deregistrations counter"
        (fun serverDereg =>
      created (Int64Counter meter "mcpjungle_server_transport_total")
        "failed to create server transport counter" (fun serverTransport =>
      created (Int64UpDownCounter meter "mcpjungle_tool_availability")
        "failed to create tool availability counter"
        (fun toolAvailability =>
      created (Int64Counter meter "mcpjungle_tool_discovery_total")
        "failed to create tool discovery counter" (fun toolDiscovery =>
      created (Int64Counter meter "mcpjungle_errors_by_type_total")
        "failed to create enhanced error counter" (fun errorsByType =>
      Ok {| ToolInvocations := toolInv;
            ToolLatency := toolLat;
            ToolErrors := toolErrors;
            RequestsTotal := reqTotal;
            RequestLatency := reqLat;
            RequestErrors := reqErrors;
            Sessions := sessions;
            ServerRegistrations := serverReg;
            ServerDeregistrations := serverDereg;
            ServerTransport := serverTransport;
            ToolAvailability := toolAvailability;
            ToolDiscovery := toolDiscovery;
            ErrorsByType := errorsByType |})))))))))))))
  end.

End otel.
(** ** Package [api]: the constructor of the server, and the handlers
    that list and deregister *)

(** [types.McpServer], the view of a registered server that
    [listServersHandler] answers with. *)
Module types.
Record McpServer : Type :=
  { Name : string;
    Transport : string;
    Description : string;
    URL : string;
    Command : string;
    Args : list string;
    Env : gmap string string }.
End types.

Module apiRest.
Import GoStrings.

(** [ServerOptions], by the field that the metrics of the server are
    built from. *)
Record ServerOptions `{otel.OTel} : Type :=
  { OtelProviders : option otel.Providers }.

(** The web framework gin, by what [setupRouter] does with it.  [GET]
    registers a route on the engine ([r.GET(path, handlers...)]); gin
    panics on a route that it refuses.  [apiRoutes] stands for the
    routes that [setupRouter] registers after [/metrics]: [/init],
    [/mcp] and the groups under [V0PathPrefix]; their handlers and
    middlewares are methods of the server, most of them not among the
    sources. *)
Class Gin `{otel.OTel} : Type :=
  { Engine : Type;
    HandlerFunc : Type;
    (** [gin.SetMode(gin.ReleaseMode)] and [gin.Default()] *)
    Default : Engine;
    (** the handler of [/health], which answers 200 *)
    healthHandler : HandlerFunc;
    (** [gin.WrapH(h)] *)
    WrapH : option otel.Handler -> HandlerFunc;
    GET : string -> list HandlerFunc -> Engine -> outcome Engine;
    apiRoutes : api.Server -> Engine -> outcome Engine }.

(** [setupRouter] sets up the Gin router with the MCP proxy server and
    API endpoints.  The field [otelProviders] of the server, which
    [api.Server] does not hold, is an argument of its own.  The one
    [return] statement of [setupRouter] returns no error. *)
Definition setupRouter `{Gin} (otelProviders : option otel.Providers)
    (s : api.Server) : outcome (result Engine errorString) :=
  let r := Default in
  match GET "/health" [healthHandler] r with
  | Panicked => Panicked
  | Returned r =>
      (* Add metrics endpoint if otel is enabled *)
      let withMetrics :=
        match otelProviders with
        | Some p =>
            if otel.IsEnabled p
            then GET "/metrics" [WrapH (otel.p_Handler p)] r
            else Returned r
        | None => Returned r
        end in
      match withMetrics with
      | Panicked => Panicked
      | Returned r =>
          match apiRoutes s r with
          | Panicked => Panicked
          | Returned r => Returned (Ok r)
          end
      end
  end.

(** [NewServer] initializes a new server; it panics on nil options.
    The router that [setupRouter] returns is kept in the field [router]
    of the server, which [api.Server] does not hold. *)
Definition NewServer `{Gin} (opts : option ServerOptions)
  : outcome (result api.Server errorString) :=
  match opts with
  | None => Panicked
  | Some opts =>
      (* Set up the router after the server is fully initialized *)
      let routed (s : api.Server) :=
        match setupRouter (OtelProviders opts) s with
        | Panicked => Panicked
        | Returned (Err err) => Returned (Err err)
        | Returned (Ok r) => Returned (Ok s)
        end in
      (* Initialize metrics if OTel providers are available *)
      match OtelProviders opts ≫= otel.p_Meter with
      | Some meter =>
          match otel.NewMCPMetrics (Some meter) with
          | Err err =>
              Returned (Err (otel.wrap "failed to create MCP metrics" err))
          | Ok mcpMetrics => routed {| api.s_metrics := Some mcpMetrics |}
          end
      | None => routed {| api.s_metrics := None |}
      end
  end.

Definition StatusNoContent : Z := 204.

(** What a handler hands to [c.JSON]: [ErrorBody msg] is
    [gin.H{"error": msg}]. *)
Inductive Body : Type :=
| ErrorBody (msg : string)
| ToolsBody (tools : list Tool)
| ServersBody (servers : list types.McpServer).

(** The status code and the object that is serialised; after
    [c.Status(code)] there is no object. *)
Record Response : Type :=
  { Status : Z; Payload : option Body }.

(** The part of [*gin.Context] that the handlers read: the query
    parameters and the parameters of the path. *)
Record Context : Type :=
  { QueryParams : gmap string string;
    Params : gmap string string }.

(** [c.Query(key)] and [c.Param(key)]: the value of the parameter, or
    the empty string. *)
Definition Query (c : Context) (key : string) : string :=
  default EmptyString (QueryParams c !! key).

Definition Param (c : Context) (key : string) : string :=
  default EmptyString (Params c !! key).

(** The methods of [*mcp.MCPService] that these handlers call, on a
    service state [S] with errors [E]. *)
Class MCPService (S E : Type) : Type :=
  { ListTools : S -> result (list Tool) E * S;
    ListToolsByServer : string -> S -> result (list Tool) E * S;
    DeregisterMcpServer : string -> S -> option E * S;
    ListMcpServers : S -> result (list McpServer) E * S }.

(** [types.StreamableHTTPConfig] and [types.StdioConfig], as the
    methods of [model.McpServer] return them. *)
Record StreamableHTTPConfig : Type :=
  { ConfigURL : string; ConfigBearerToken : string }.

Record StdioConfig : Type :=
  { ConfigCommand : string;
    ConfigArgs : list string;
    ConfigEnv : gmap string string }.

(** The methods of [model.McpServer] that [listServersHandler] calls,
    and the conversion [string(record.Transport)]. *)
Class ServerRecord : Type :=
  { transportString : TransportType -> string;
    GetStreamableHTTPConfig :
      McpServer -> result StreamableHTTPConfig errorString;
    GetStdioConfig : McpServer -> result StdioConfig errorString }.

(** The calls a handler makes on the service, in order. *)
Inductive ServiceCall : Type :=
| CallListTools
| CallListToolsByServer (server : string)
| CallDeregisterMcpServer (name : string)
| CallListMcpServers.

(** What a handler acts on: the service behind [s.mcpService], the
    OpenTelemetry SDK behind [s.metrics], the wall clock, and the log of
    the service calls made so far. *)
Record World (S : Type) : Type :=
  { service : S;
    telemetry : metrics.SDK;
    clock : metrics.Time;
    calls : list ServiceCall }.
Arguments service {S} w.
Arguments telemetry {S} w.
Arguments clock {S} w.
Arguments calls {S} w.

Section Handlers.
Context {Svc E : Type}.
Context `{UnicodeLower} `{error E} `{MCPService Svc E} `{ServerRecord}.

(** [time.Now()] *)
Definition timeNow : M (World Svc) metrics.Time :=
  fun w => Returned (clock w, w).

(** A method of [s.metrics], run on the SDK. *)
Definition record (m : M metrics.SDK unit) : M (World Svc) unit :=
  fun w =>
    match m (telemetry w) with
    | Returned (_, sdk) =>
        Returned (tt, {| service := service w; telemetry := sdk;
                         clock := clock w; calls := calls w |})
    | Panicked => Panicked
    end.

(** A method of [s.mcpService], run on the service. *)
Definition call {A} (what : ServiceCall) (op : Svc -> A * Svc)
  : M (World Svc) A :=
  fun w =>
    let '(a, svc) := op (service w) in
    Returned (a, {| service := svc; telemetry := telemetry w;
                    clock := clock w; calls := calls w ++ [what] |}).

(** [c.JSON(code, obj)] followed by [return]. *)
Definition JSON (code : Z) (obj : Body) : M (World Svc) Response :=
  ret {| Status := code; Payload := Some obj |}.

(** [listToolsHandler] handles tool listing requests. *)
Definition listToolsHandler (s : api.Server) (c : Context)
  : M (World Svc) Response :=
  started ← timeNow;
  let server := Query c "server" in
  r ← (if decide (server = EmptyString) then
         (* no server specified, list all tools *)
         call CallListTools ListTools
       else
         (* server specified, list tools for that server *)
         call (CallListToolsByServer server) (ListToolsByServer server));
  match r with
  | Err err =>
      when (api.notNil (api.s_metrics s))
        (record (metrics.RecordRequest (api.s_metrics s) "list_tools"
                   metrics.StatusError started (Some err)));;
      JSON api.StatusInternalServerError (ErrorBody (Error err))
  | Ok tools =>
      when (api.notNil (api.s_metrics s))
        (record (metrics.RecordRequest (api.s_metrics s) "list_tools"
                   metrics.StatusSuccess started api.noError));;
      JSON api.StatusOK (ToolsBody tools)
  end.

Definition deregisterServerHandler (s : api.Server) (c : Context)
  : M (World Svc) Response :=
  let name := Param c "name" in
  r ← call (CallDeregisterMcpServer name) (DeregisterMcpServer name);
  match r with
  | Some err =>
      (* Record error metric *)
      when (api.notNil (api.s_metrics s))
        (record (metrics.RecordEnhancedError (api.s_metrics s)
                   metrics.ErrorTypeRegistration));;
      JSON api.StatusInternalServerError (ErrorBody (Error err))
  | None =>
      (* Record successful server deregistration *)
      when (api.notNil (api.s_metrics s))
        (record (metrics.RecordServerDeregistration (api.s_metrics s)
                   name);;
         record (metrics.RecordServerTransport (api.s_metrics s) name
                   metrics.EventTypeDeregistered));;
      ret {| Status := StatusNoContent; Payload := None |}
  end.

(** The body of the loop of [listServersHandler]: the view of one
    record, or the message of the error it answers with. *)
Definition view (record : McpServer) : result types.McpServer string :=
  let server :=
    {| types.Name := Name record;
       types.Transport := transportString (Transport record);
       types.Description := Description record;
       types.URL := EmptyString;
       types.Command := EmptyString;
       types.Args := [];
       types.Env := ∅ |} in
  if decide (Transport record = TransportStreamableHTTP) then
    match GetStreamableHTTPConfig record with
    | Err err =>
        Err ("Error getting streamable HTTP config for server " +:+
             Name record +:+ ": " +:+ Error err)
    | Ok conf =>
        Ok {| types.Name := types.Name server;
              types.Transport := types.Transport server;
              types.Description := types.Description server;
              types.URL := ConfigURL conf;
              types.Command := types.Command server;
              types.Args := types.Args server;
              types.Env := types.Env server |}
    end
  else
    match GetStdioConfig record with
    | Err err =>
        Err ("Error getting stdio config for server " +:+
             Name record +:+ ": " +:+ Error err)
    | Ok conf =>
        Ok {| types.Name := types.Name server;
              types.Transport := types.Transport server;
              types.Description := types.Description server;
              types.URL := types.URL server;
              types.Command := ConfigCommand conf;
              types.Args := ConfigArgs conf;
              types.Env := ConfigEnv conf |}
    end.

(** The loop of [listServersHandler] over the records: it stops at the
    first error. *)
Fixpoint views (records : list McpServer)
  : result (list types.McpServer) string :=
  match records with
  | [] => Ok []
  | record :: records' =>
      match view record with
      | Err msg => Err msg
      | Ok server =>
          match views records' with
          | Err msg => Err msg
          | Ok servers => Ok (server :: servers)
          end
      end
  end.

Definition listServersHandler (s : api.Server) (c : Context)
  : M (World Svc) Response :=
  r ← call CallListMcpServers ListMcpServers;
  match r with
  | Err err => JSON api.StatusInternalServerError (ErrorBody (Error err))
  | Ok records =>
      match views records with
      | Err msg => JSON api.StatusInternalServerError (ErrorBody msg)
      | Ok servers => JSON api.StatusOK (ServersBody servers)
      end
  end.

End Handlers.
End apiRest.
(** ** Vocabulary of the statements on these packages *)

Module Terms.
Import GoStrings GoStringsMore.

(** The meter keeps to what the OpenTelemetry API documents: an
    instrument that is returned without an error is not nil. *)
Definition honest (meter : otel.Meter) : Prop :=
  forall name,
    otel.Int64Counter meter name <> Ok None /\
    otel.Float64Histogram meter name <> Ok None /\
    otel.Int64UpDownCounter meter name <> Ok None.

(** The OpenTelemetry SDK hands out meters that keep to it. *)
Definition honestSDK `{otel.OTel} : Prop :=
  forall exporter res name,
    honest (otel.ProviderMeter (otel.NewMeterProvider exporter res) name).

(** The instruments that [NewMCPMetrics] asks the meter for. *)
Definition counters : list string :=
  ["mcpjungle_tool_invocations_total"; "mcpjungle_tool_errors_total";
   "mcpjungle_client_requests_total"; "mcpjungle_request_errors_total";
   "mcpjungle_server_registrations_total";
   "mcpjungle_server_deregistrations_total";
   "mcpjungle_server_transport_total"; "mcpjungle_tool_discovery_total";
   "mcpjungle_errors_by_type_total"].

Definition histograms : list string :=
  ["mcpjungle_tool_latency_seconds"; "mcpjungle_request_duration_seconds"].

Definition upDownCounters : list string :=
  ["mcpjungle_connected_sessions"; "mcpjungle_tool_availability"].

Definition requested (meter : otel.Meter)
  : list (result (option metrics.Instrument) errorString) :=
  (otel.Int64Counter meter <$> counters) ++
  (otel.Float64Histogram meter <$> histograms) ++
  (otel.Int64UpDownCounter meter <$> upDownCounters).

Definition isOk {R E} (r : result R E) : bool :=
  match r with Ok _ => true | Err _ => false end.

(** What package [sort] asks of a function [less]: a transitive
    ordering.  [less] holds of no element and itself; if it holds of
    [a], [b] and of [b], [c] it holds of [a], [c]; and if it holds of
    neither, it does not hold of [a], [c]. *)
Definition transitiveOrdering {A} (less : A -> A -> bool) : Prop :=
  (forall a, less a a = false) /\
  (forall a b c, less a b = true -> less b c = true -> less a c = true) /\
  (forall a b c, less a b = false -> less b c = false -> less a c = false).

(** What package [sort] documents of [sort.Slice] for such a [less]:
    the slice holds the same elements, and no element must sort before
    the one in front of it. *)
Definition sortsSlices `{SortSlice} : Prop :=
  forall (A : Type) (less : A -> A -> bool) (x : list A),
    transitiveOrdering less ->
    sortSlice less x ≡ₚ x /\
    Sorted (fun a b => less b a = false) (sortSlice less x).

(** A sub-command that [groupCommands] does not skip. *)
Definition functional (c : cmd.Command) : bool :=
  cmd.IsAvailableCommand c && negb (cmd.IsAdditionalHelpTopicCommand c).

(** The group that the annotations of a sub-command name, the empty
    string when they name none. *)
Definition groupOf (c : cmd.Command) : string :=
  match cmd.Annotations c with
  | Some annotations => default EmptyString (annotations !! "group")
  | None => EmptyString
  end.

Definition knownGroup (g : string) : bool :=
  bool_decide (g = cmd.subCommandGroupBasic) ||
  bool_decide (g = cmd.subCommandGroupAdvanced).

(** The functional sub-commands of the group [g]. *)
Definition inGroup (g : string) (c : cmd.Command) : bool :=
  functional c && bool_decide (groupOf c = g).

(** A functional sub-command that [groupCommands] cannot place. *)
Definition misplaced (c : cmd.Command) : bool :=
  functional c &&
  (bool_decide (cmd.Annotations c = None) || negb (knownGroup (groupOf c))).

(** The two messages of [groupCommands] about a sub-command. *)
Definition complaint (c : cmd.Command) : string :=
  match cmd.Annotations c with
  | None =>
      "subcommand '" +:+ cmd.Name c +:+
      "' has no annotations, cannot determine group"
  | Some _ =>
      "unknown group '" +:+ groupOf c +:+ "' for subcommand '" +:+
      cmd.Name c +:+ "'"
  end.

(** The byte [c] occurs in [s]. *)
Fixpoint hasByte (c : ascii) (s : string) : bool :=
  match s with
  | EmptyString => false
  | String d s' => bool_decide (d = c) || hasByte c s'
  end.

(** [strings.Split(s, sep)] for a separator of the one byte [c], by
    recursion on [s]. *)
Fixpoint splitByte (c : ascii) (s : string) : list string :=
  match s with
  | EmptyString => [EmptyString]
  | String d s' =>
      if decide (d = c) then EmptyString :: splitByte c s'
      else
        match splitByte c s' with
        | seg :: segs => String d seg :: segs
        | [] => []
        end
  end.

(** Every byte of [s] is a word byte; [s] starts with one. *)
Fixpoint allWord (s : string) : bool :=
  match s with
  | EmptyString => true
  | String c s' => docs.isWord c && allWord s'
  end.

Definition headWord (s : string) : bool :=
  match s with
  | EmptyString => false
  | String c _ => docs.isWord c
  end.

(** The word bytes that [s] starts with, and what follows them. *)
Fixpoint wordsOf (s : string) : string :=
  match s with
  | EmptyString => EmptyString
  | String c s' => if docs.isWord c then String c (wordsOf s') else EmptyString
  end.

Fixpoint afterWords (s : string) : string :=
  match s with
  | EmptyString => EmptyString
  | String c s' => if docs.isWord c then afterWords s' else s
  end.

(** [s] holds a path parameter of Gin: a colon or a star that a word
    byte follows. *)
Fixpoint hasParam (s : string) : bool :=
  match s with
  | EmptyString => false
  | String c s' => docs.startsParam c s' || hasParam s'
  end.

(** What the function that [ginPathToOpenAPIPath] hands to
    [ReplaceAllStringFunc] makes of a match. *)
Definition braces (m : string) : string :=
  let name := TrimPrefix m ":" in
  let name := TrimPrefix name "*" in
  "{" +:+ name +:+ "}".

(** Every byte of [s] is an ASCII letter. *)
Fixpoint allLetters (s : string) : bool :=
  match s with
  | EmptyString => true
  | String c s' => (isLower c || isUpper c) && allLetters s'
  end.

(** A word in title case: the first letter in upper case, the others
    in lower case. *)
Definition capitalised (s : string) : string :=
  match s with
  | EmptyString => EmptyString
  | String c s' => String (upperByte (lowerByte c)) (mapBytes lowerByte s')
  end.

(** The sum of the increments that the measurements hand to their
    counters. *)
Fixpoint increments (new : list metrics.Measurement) : Z :=
  match new with
  | [] => 0
  | ms :: new' =>
      match metrics.value ms with
      | metrics.Int64 n => n + increments new'
      | metrics.SecondsSince _ => increments new'
      end
  end.

(** What [RecordRequest] and [RecordTool] hand to the SDK: a count and
    a latency, and an error count when the status is [error], all with
    the attributes [attrs]. *)
Definition outcomeRecorded (total latency errors : string)
    (status : metrics.MetricStatus) (started : metrics.Time)
    (attrs : list metrics.KeyValue) : list metrics.Measurement :=
  [{| metrics.instrument := total; metrics.value := metrics.Int64 1;
      metrics.attributes := attrs |};
   {| metrics.instrument := latency;
      metrics.value := metrics.SecondsSince started;
      metrics.attributes := attrs |}] ++
  (if bool_decide (status = metrics.StatusError)
   then [{| metrics.instrument := errors; metrics.value := metrics.Int64 1;
            metrics.attributes := attrs |}]
   else []).

(** The attribute [error_type] of an error. *)
Definition errorAttribute `{UnicodeLower} `{error E} (err : option E)
  : list metrics.KeyValue :=
  match err with
  | Some _ =>
      [metrics.attribute_String metrics.LabelErrorType
         (metrics.getErrorType err)]
  | None => []
  end.

(** A handler of [apiRest] returns: it answers [resp], leaves the
    service in the state [svc], has made the service calls [made] and
    has handed the SDK the measurements [new]. *)
Definition answers {Svc} (run : M (apiRest.World Svc) apiRest.Response)
    (w : apiRest.World Svc) (resp : apiRest.Response) (svc : Svc)
    (made : list apiRest.ServiceCall) (new : list metrics.Measurement)
  : Prop :=
  run w = Returned (resp,
                    {| apiRest.service := svc;
                       apiRest.telemetry := apiRest.telemetry w ++ new;
                       apiRest.clock := apiRest.clock w;
                       apiRest.calls := apiRest.calls w ++ made |}).

(** The methods of [model.McpServer], with every bearer token that they
    return replaced by what [f] makes of it. *)
Definition withTokens (f : string -> string) (model : apiRest.ServerRecord)
  : apiRest.ServerRecord :=
  {| apiRest.transportString := @apiRest.transportString model;
     apiRest.GetStreamableHTTPConfig := fun record =>
       match @apiRest.GetStreamableHTTPConfig model record with
       | Ok conf =>
           Ok {| apiRest.ConfigURL := apiRest.ConfigURL conf;
                 apiRest.ConfigBearerToken :=
                   f (apiRest.ConfigBearerToken conf) |}
       | Err err => Err err
       end;
     apiRest.GetStdioConfig := @apiRest.GetStdioConfig model |}.

(** *** Sample data, to evaluate the definitions on *)

(** A meter that creates every instrument, and one that creates no
    histogram. *)
Definition sampleMeter : otel.Meter :=
  {| otel.Int64Counter := fun name => Ok (Some name);
     otel.Float64Histogram := fun name => Ok (Some name);
     otel.Int64UpDownCounter := fun name => Ok (Some name) |}.

Definition sampleOTel : otel.OTel :=
  {| otel.Resource := unit;
     otel.Exporter := unit;
     otel.Handler := unit;
     otel.resourceNew := fun _ _ => Ok tt;
     otel.prometheusNew := Ok tt;
     otel.NewMeterProvider := fun _ _ =>
       {| otel.ProviderMeter := fun _ => sampleMeter;
          otel.ProviderShutdown := None |};
     otel.promhttpHandler := tt |}.

(** An engine that keeps the paths of its routes, latest first, and
    refuses none. *)
Definition sampleGin : @apiRest.Gin sampleOTel :=
  {| apiRest.Engine := list string;
     apiRest.HandlerFunc := unit;
     apiRest.Default := [];
     apiRest.healthHandler := tt;
     apiRest.WrapH := fun _ => tt;
     apiRest.GET := fun path _ r => Returned (path :: r);
     apiRest.apiRoutes := fun _ r => Returned ("/api/v0" :: r) |}.

(** [sort.Slice] by a merge sort. *)
Definition mergeSort : SortSlice :=
  fun A less x =>
    @merge_sort A (fun a b => less b a = false)
      (fun a b => decide (less b a = false)) x.

(** Sub-commands: [name] in the group [group], at the place [order]
    when it is given. *)
Definition command (name group : string) (order : option string)
  : cmd.Command :=
  {| cmd.Name := name; cmd.Short := EmptyString;
     cmd.Annotations :=
       Some (match order with
             | Some o => <["order" := o]> {["group" := group]}
             | None => {["group" := group]}
             end);
     cmd.IsAvailableCommand := true;
     cmd.IsAdditionalHelpTopicCommand := false |}.

Definition sampleCommands : list cmd.Command :=
  [command "version" "basic" (Some "7"); command "start" "basic" (Some "1");
   command "update" "advanced" None; command "login" "advanced" None].

(** An instance to evaluate [Title] with; on ASCII strings every
    instance gives the same result. *)
Definition asciiTitle : UnicodeTitle := fun s => s.

(** Modelled from the spec: the methods of [model.McpServer], by the two
    kinds of configuration of section 3. *)
Definition sampleRecord : apiRest.ServerRecord :=
  {| apiRest.transportString := fun t =>
       match t with
       | TransportStdio => "subprocess"
       | TransportStreamableHTTP => "streaming-http"
       end;
     apiRest.GetStreamableHTTPConfig := fun record =>
       match Config record with
       | StreamableHTTPConfig url token =>
           Ok {| apiRest.ConfigURL := url;
                 apiRest.ConfigBearerToken := token |}
       | StdioConfig _ _ _ => mcp.invalid "no streamable HTTP configuration"
       end;
     apiRest.GetStdioConfig := fun record =>
       match Config record with
       | StdioConfig command args env =>
           Ok {| apiRest.ConfigCommand := command;
                 apiRest.ConfigArgs := args;
                 apiRest.ConfigEnv := env |}
       | StreamableHTTPConfig _ _ => mcp.invalid "no stdio configuration"
       end |}.

(** A service that keeps a list of servers without tools. *)
Definition sampleService : apiRest.MCPService (list McpServer) errorString :=
  {| apiRest.ListTools := fun svc => (Ok [], svc);
     apiRest.ListToolsByServer := fun server svc =>
       (if bool_decide (server ∈ Name <$> svc) then Ok []
        else mcp.invalid "server not found", svc);
     apiRest.DeregisterMcpServer := fun name svc =>
       if bool_decide (name ∈ Name <$> svc)
       then (None, List.filter (fun r => negb (String.eqb (Name r) name)) svc)
       else (Some (ErrorString "server not found"), svc);
     apiRest.ListMcpServers := fun svc => (Ok svc, svc) |}.

Definition remote : McpServer :=
  {| Name := "remote"; Description := "a remote server";
     Transport := TransportStreamableHTTP;
     Config := StreamableHTTPConfig "https://example.test/mcp" "secret" |}.

Definition restWorld {Svc} (svc : Svc) : apiRest.World Svc :=
  {| apiRest.service := svc; apiRest.telemetry := []; apiRest.clock := 0;
     apiRest.calls := [] |}.

Definition restRequest (query params : gmap string string)
  : apiRest.Context :=
  {| apiRest.QueryParams := query; apiRest.Params := params |}.

End Terms.

(** * Properties *)

(** ** Strings *)

Section StringFacts.
Import GoStrings.

Lemma append_cons (c : ascii) (s t : string) :
  String c s +:+ t = String c (s +:+ t).
Proof. reflexivity. Qed.

Lemma append_empty_l (t : string) : EmptyString +:+ t = t.
Proof. reflexivity. Qed.

Lemma len_nonneg (s : string) : 0 <= len s.
Proof. unfold len. lia. Qed.

Lemma len_cons (c : ascii) (s : string) : len (String c s) = len s + 1.
Proof. unfold len. cbn [String.length]. lia. Qed.

Lemma length_append (s t : string) :
  String.length (s +:+ t) = (String.length s + String.length t)%nat.
Proof.
  induction s as [|c s IH]; [reflexivity|].
  rewrite append_cons. cbn [String.length]. now rewrite IH.
Qed.

Lemma take_append (s t : string) : take (String.length s) (s +:+ t) = s.
Proof.
  induction s as [|c s IH]; [now destruct t|].
  rewrite append_cons. cbn [String.length take]. now rewrite IH.
Qed.

Lemma drop_append (s t : string) : drop (String.length s) (s +:+ t) = t.
Proof.
  induction s as [|c s IH]; [now destruct t|].
  rewrite append_cons. cbn [String.length drop]. exact IH.
Qed.

Lemma take_drop (n : nat) (s : string) : take n s +:+ drop n s = s.
Proof.
  revert s. induction n as [|n IH]; intros [|c s]; try reflexivity.
  cbn [take drop]. rewrite append_cons. now rewrite IH.
Qed.

Lemma length_take (n : nat) (s : string) :
  String.length (take n s) = Nat.min n (String.length s).
Proof.
  revert s. induction n as [|n IH]; intros [|c s]; try reflexivity.
  cbn [take String.length]. now rewrite IH.
Qed.

Lemma append_assoc (s t u : string) : (s +:+ t) +:+ u = s +:+ t +:+ u.
Proof.
  induction s as [|c s IH]; [reflexivity|].
  rewrite !append_cons. now rewrite IH.
Qed.

(** [HasPrefix] is what its name says. *)
Lemma HasPrefix_spec (s p : string) :
  HasPrefix s p = true <-> exists t, s = p +:+ t.
Proof.
  revert s. induction p as [|a p IH]; intros s.
  - split; [intros _; now exists s | intros _; now destruct s].
  - destruct s as [|c s]; cbn [HasPrefix].
    + split; [discriminate|]. intros [t Ht]. discriminate.
    + destruct (decide (c = a)) as [->|Hne].
      * rewrite IH. split; intros [t Ht]; exists t.
        -- now rewrite append_cons, <- Ht.
        -- rewrite append_cons in Ht. now inversion Ht.
      * split; [discriminate|]. intros [t Ht].
        rewrite append_cons in Ht. inversion Ht. contradiction.
Qed.

(** [HasSuffix] is what its name says. *)
Lemma HasSuffix_spec (s p : string) :
  HasSuffix s p = true <-> exists t, s = t +:+ p.
Proof.
  unfold HasSuffix. rewrite andb_true_iff, Nat.leb_le, bool_decide_eq_true.
  split.
  - intros [_ Hd]. exists (take (String.length s - String.length p) s).
    remember (String.length s - String.length p)%nat as n.
    rewrite <- Hd. symmetry. apply take_drop.
  - intros [t ->]. rewrite length_append. split; [lia|].
    replace (String.length t + String.length p - String.length p)%nat
      with (String.length t) by lia.
    apply drop_append.
Qed.

Lemma Index_unfold (s sep : string) :
  Index s sep =
    if HasPrefix s sep then 0
    else match s with
         | EmptyString => -1
         | String _ s' =>
             let i := Index s' sep in if i <? 0 then -1 else i + 1
         end.
Proof. destruct s; reflexivity. Qed.

Lemma Index_range (s sep : string) :
  Index s sep = -1 \/ 0 <= Index s sep <= len s.
Proof.
  induction s as [|c s IH]; rewrite Index_unfold.
  - destruct (HasPrefix _ _); [right; unfold len; cbn; lia | now left].
  - pose proof (len_nonneg (String c s)).
    destruct (HasPrefix _ _); [right; lia|].
    cbv zeta. rewrite len_cons.
    destruct (Z.ltb_spec (Index s sep) 0); [now left | right; lia].
Qed.

(** The index that [Index] returns is an instance of the separator. *)
Lemma Index_found (s sep : string) :
  0 <= Index s sep ->
  s = take (Z.to_nat (Index s sep)) s +:+ sep
      +:+ drop (Z.to_nat (Index s sep + len sep)) s.
Proof.
  induction s as [|c s IH]; rewrite Index_unfold.
  - destruct (HasPrefix EmptyString sep) eqn:Hp; [|lia]. intros _.
    apply HasPrefix_spec in Hp as [t Ht].
    destruct sep; [reflexivity | discriminate].
  - destruct (HasPrefix (String c s) sep) eqn:Hp.
    + intros _. apply HasPrefix_spec in Hp as [t Ht].
      change (Z.to_nat 0) with 0%nat. cbn [take]. rewrite append_empty_l.
      unfold len. rewrite Z.add_0_l, Nat2Z.id.
      rewrite Ht at 2. now rewrite drop_append.
    + cbv zeta. destruct (Z.ltb_spec (Index s sep) 0) as [|Hge]; [lia|].
      intros _. specialize (IH Hge).
      pose proof (len_nonneg sep).
      replace (Z.to_nat (Index s sep + 1)) with (S (Z.to_nat (Index s sep)))
        by lia.
      replace (Z.to_nat (Index s sep + 1 + len sep))
        with (S (Z.to_nat (Index s sep + len sep))) by lia.
      cbn [take drop]. rewrite append_cons. now rewrite <- IH.
Qed.

(** [Contains] is what its name says. *)
Lemma Contains_spec (s sep : string) :
  Contains s sep = true <-> exists a b, s = a +:+ sep +:+ b.
Proof.
  unfold Contains. rewrite Z.leb_le. split.
  - intros Hi. eexists _, _. exact (Index_found s sep Hi).
  - intros (a & b & ->). induction a as [|c a IH].
    + rewrite append_empty_l, Index_unfold.
      replace (HasPrefix (sep +:+ b) sep) with true; [lia|].
      symmetry. apply HasPrefix_spec. now exists b.
    + rewrite append_cons, Index_unfold.
      destruct (HasPrefix _ _); [lia|]. cbv zeta.
      destruct (Z.ltb_spec (Index (a +:+ sep +:+ b) sep) 0); lia.
Qed.

Lemma Contains_cons_false (c : ascii) (s sep : string) :
  Contains (String c s) sep = false ->
  HasPrefix (String c s) sep = false /\ Contains s sep = false.
Proof.
  unfold Contains. rewrite Index_unfold.
  destruct (HasPrefix (String c s) sep); [discriminate|]. cbv zeta.
  destruct (Z.ltb_spec (Index s sep) 0) as [Hlt|Hge].
  - intros _. split; [reflexivity|]. apply Z.leb_gt. exact Hlt.
  - intros Hc. apply Z.leb_gt in Hc. lia.
Qed.

Lemma HasSuffix_cons_false (c d p : ascii) (s : string) :
  HasSuffix (String c (String d s)) (String p EmptyString) = false ->
  HasSuffix (String d s) (String p EmptyString) = false.
Proof.
  intros Hs. destruct (HasSuffix (String d s) _) eqn:Hd; [|reflexivity].
  apply HasSuffix_spec in Hd as [t Ht].
  assert (HasSuffix (String c (String d s)) (String p EmptyString) = true)
    as Hc; [|congruence].
  apply HasSuffix_spec. exists (String c t). now rewrite append_cons, <- Ht.
Qed.

(** In [s ++ "::" ++ l] the first instance of the separator is the one
    written, when [s] neither holds one nor ends in a colon. *)
Lemma Index_qualified (s l : string) :
  Contains s "::" = false ->
  HasSuffix s ":" = false ->
  Index (s +:+ "::" +:+ l) "::" = len s.
Proof.
  induction s as [|c s IH]; intros Hc Hs; [vm_compute; reflexivity|].
  apply Contains_cons_false in Hc as [Hp Hc].
  rewrite append_cons, Index_unfold.
  assert (HasPrefix (String c (s +:+ "::" +:+ l)) "::" = false) as ->.
  { destruct s as [|d s].
    - rewrite append_empty_l. cbn [String.append]. cbn [HasPrefix].
      destruct (decide (c = ":"%char)) as [->|]; [discriminate Hs|reflexivity].
    - rewrite append_cons. exact Hp. }
  cbv zeta. rewrite IH; [| exact Hc |].
  - rewrite len_cons. pose proof (len_nonneg s).
    destruct (Z.ltb_spec (len s) 0); lia.
  - destruct s as [|d s]; [reflexivity|].
    exact (HasSuffix_cons_false _ _ _ _ Hs).
Qed.

End StringFacts.

(** ** [splitServerToolName] *)

Section SplitFacts.
Import GoStrings.

Lemma splitServerToolName_found (s l : string) :
  Contains s "::" = false ->
  HasSuffix s ":" = false ->
  api.splitServerToolName (s +:+ "::" +:+ l) = (s, l, true).
Proof.
  intros Hc Hs. unfold api.splitServerToolName, api.serverToolNameSep, Cut.
  rewrite (Index_qualified s l Hc Hs).
  pose proof (len_nonneg s) as Hl.
  destruct (Z.leb_spec 0 (len s)); [|lia].
  unfold len. rewrite Nat2Z.id.
  replace (Z.to_nat (Z.of_nat (String.length s)
                     + Z.of_nat (String.length "::")))
    with (String.length s + String.length "::")%nat by lia.
  rewrite take_append.
  rewrite <- length_append, <- append_assoc, drop_append. reflexivity.
Qed.

Lemma splitServerToolName_absent (n : string) :
  Contains n "::" = false ->
  api.splitServerToolName n = (n, EmptyString, false).
Proof.
  unfold api.splitServerToolName, api.serverToolNameSep, Cut, Contains.
  now intros ->.
Qed.

Lemma splitServerToolName_qualified_found (s l : string) :
  (api.splitServerToolName (mcp.qualifiedName s l)).2 = true.
Proof.
  unfold api.splitServerToolName, api.serverToolNameSep, Cut.
  assert (Contains (mcp.qualifiedName s l) "::" = true) as Hc.
  { apply Contains_spec. now exists s, l. }
  unfold Contains in Hc. now rewrite Hc.
Qed.

Lemma Invoke_unqualified (n : string) (args : gmap string any)
    (reg : mcp.Registry) :
  Contains n "::" = false ->
  mcp.Invoke n args reg = (mcp.failure mcp.Validation n, reg).
Proof.
  intros Hc. unfold mcp.Invoke.
  now rewrite (splitServerToolName_absent n Hc).
Qed.

End SplitFacts.

(** C3 (as amended).  Splitting a qualified tool name on the separator
    ["::"] inverts its construction: for every server name [s] that neither
    contains ["::"] nor ends in a colon, and every local name [l],
    [splitServerToolName] of [s ++ "::" ++ l] returns [(s, l, true)]; and
    for every string [n] that does not contain ["::"] it returns the string
    itself, an empty local name and [found = false], which [Invoke] reports
    as a validation error without changing the registry. *)
Theorem splitServerToolName_inverts_qualifiedName
    (s l n : string) (args : gmap string any) (reg : mcp.Registry)
    (Hsep : GoStrings.Contains s "::" = false)
    (Hcolon : GoStrings.HasSuffix s ":" = false)
    (Hn : GoStrings.Contains n "::" = false) :
  api.splitServerToolName (mcp.qualifiedName s l) = (s, l, true) /\
  api.splitServerToolName n = (n, EmptyString, false) /\
  exists e, mcp.Invoke n args reg = (Err e, reg) /\
            mcp.kind e = mcp.Validation.
Proof.
  split; [exact (splitServerToolName_found s l Hsep Hcolon)|].
  split; [exact (splitServerToolName_absent n Hn)|].
  eexists. split; [exact (Invoke_unqualified n args reg Hn)|reflexivity].
Qed.

Lemma splitServerToolName_inverts_qualifiedName_witness :
  api.splitServerToolName (mcp.qualifiedName "calc" "add")
    = ("calc", "add", true) /\
  api.splitServerToolName "calcadd" = ("calcadd", EmptyString, false) /\
  exists e,
    mcp.Invoke "calcadd" ∅ Spec.calcRegistry = (Err e, Spec.calcRegistry) /\
    mcp.kind e = mcp.Validation.
Proof.
  apply (splitServerToolName_inverts_qualifiedName "calc" "add" "calcadd");
    reflexivity.
Defined.

(** C3 (as stated) fails: the server name ["a:"] does not contain ["::"],
    yet the qualified name built from it and the local name ["b"] is
    ["a:::b"], whose first separator starts inside the server name. *)
Lemma splitServerToolName_trailing_colon :
  GoStrings.Contains "a:" "::" = false /\
  api.splitServerToolName ("a:" +:+ "::" +:+ "b") = ("a", ":b", true) /\
  api.splitServerToolName ("a:" +:+ "::" +:+ "b") <> ("a:", "b", true).
Proof. repeat split. discriminate. Qed.

(** ** The metrics recorder *)

Section MetricsFacts.
Import GoStrings metrics Spec.

Lemma take_nonempty (n : nat) (s : string) :
  (0 < n)%nat -> s <> EmptyString -> take n s <> EmptyString.
Proof. destruct n; [lia|]. destruct s; [congruence|discriminate]. Qed.

Lemma len_take_le (n : nat) (s : string) : len (take n s) <= Z.of_nat n.
Proof. unfold len. rewrite length_take. lia. Qed.

(** [boundString] at the bound and fallback that every label uses. *)
Lemma boundString_64 (s : string) :
  exists r,
    boundString s 64 "unknown" = Returned r /\
    r <> EmptyString /\ len r <= 64 /\
    (s = EmptyString -> r = "unknown") /\
    (64 < len s -> r = take 64 s) /\
    (s <> EmptyString -> len s <= 64 -> r = s).
Proof.
  unfold boundString. destruct (decide (s = EmptyString)) as [->|Hne].
  - exists "unknown". repeat split; try discriminate; done.
  - rewrite Z.gtb_ltb. destruct (Z.ltb_spec 64 (len s)) as [Hlt|Hge].
    + exists (take 64 s). unfold slice_to.
      destruct (Z.leb_spec 64 (len s)); [|lia]. cbn [Z.leb andb Z.compare].
      repeat split; try done; try lia.
      * apply take_nonempty; [lia|done].
      * apply (len_take_le 64).
    + exists s. repeat split; try done; lia.
Qed.

Lemma boundedLabel_name (k v : string) :
  v <> EmptyString -> len v <= 64 -> boundedLabel (attribute_String k v).
Proof. intros Hv Hl _. now exists v. Qed.

Lemma boundedLabel_other (kv : KeyValue) :
  Key kv <> LabelMCPServerName -> Key kv <> LabelToolName ->
  boundedLabel kv.
Proof. intros H1 H2 [?|?]; contradiction. Qed.

End MetricsFacts.

Create HintDb labels.
#[local] Hint Resolve boundedLabel_name : labels.
#[local] Hint Extern 1 (Spec.boundedLabel _) =>
  apply boundedLabel_other; discriminate : labels.
#[local] Hint Constructors Forall : labels.

(** Case analysis on a bundle whose instruments are all present. *)
Ltac instruments m H :=
  destruct m as [i1 i2 i3 i4 i5 i6 i7 i8 i9 i10 i11 i12 i13];
  unfold Spec.instrumented in H; cbn in H;
  destruct i1; [|discriminate H]; destruct i2; [|discriminate H];
  destruct i3; [|discriminate H]; destruct i4; [|discriminate H];
  destruct i5; [|discriminate H]; destruct i6; [|discriminate H];
  destruct i7; [|discriminate H]; destruct i8; [|discriminate H];
  destruct i9; [|discriminate H]; destruct i10; [|discriminate H];
  destruct i11; [|discriminate H]; destruct i12; [|discriminate H];
  destruct i13; [|discriminate H]; clear H.

(** Runs the monadic code of a recording method on the SDK. *)
Ltac run_recorder :=
  unfold mbind, M_bind, mret, M_ret, bind, lift, ret, when, metrics.Add,
    metrics.Record_, metrics.measure; cbn.

(** Closes a goal on the name labels of the measurements recorded. *)
Ltac bounded_labels :=
  cbn [app];
  repeat (constructor;
          [cbn [metrics.attributes];
           repeat (constructor; [auto with labels|]); constructor|]);
  constructor.

Section RecorderFacts.
Import GoStrings metrics Spec.
Context `{UnicodeLower} `{error E}.

Lemma RecordTool_bounded (m : MCPMetrics) (server tool : string)
    (status : MetricStatus) (started : Time) (err : option E) :
  instrumented m = true ->
  records boundedNames (RecordTool (Some m) server tool status started err).
Proof.
  intros Hm sdk. instruments m Hm.
  destruct (boundString_64 server) as (sv & Hsv & Hsv0 & Hsv64 & _).
  destruct (boundString_64 tool) as (tv & Htv & Htv0 & Htv64 & _).
  unfold RecordTool. run_recorder. rewrite Hsv. run_recorder.
  rewrite Htv. run_recorder.
  destruct (bool_decide (status = StatusError)); run_recorder;
    rewrite <- ?app_assoc; eexists; (split; [reflexivity|]);
    destruct err; bounded_labels.
Qed.

Lemma RecordServerRegistration_bounded (m : MCPMetrics) (server : string)
    (success : bool) :
  instrumented m = true ->
  records boundedNames (RecordServerRegistration (Some m) server success).
Proof.
  intros Hm sdk. instruments m Hm.
  destruct (boundString_64 server) as (sv & Hsv & Hsv0 & Hsv64 & _).
  unfold RecordServerRegistration. run_recorder. rewrite Hsv. run_recorder.
  eexists; (split; [reflexivity|]); bounded_labels.
Qed.

Lemma RecordServerDeregistration_bounded (m : MCPMetrics)
    (server : string) :
  instrumented m = true ->
  records boundedNames (RecordServerDeregistration (Some m) server).
Proof.
  intros Hm sdk. instruments m Hm.
  destruct (boundString_64 server) as (sv & Hsv & Hsv0 & Hsv64 & _).
  unfold RecordServerDeregistration. run_recorder. rewrite Hsv.
  run_recorder. eexists; (split; [reflexivity|]); bounded_labels.
Qed.

Lemma RecordServerTransport_bounded (m : MCPMetrics)
    (server event : string) :
  instrumented m = true ->
  records boundedNames (RecordServerTransport (Some m) server event).
Proof.
  intros Hm sdk. instruments m Hm.
  destruct (boundString_64 server) as (sv & Hsv & Hsv0 & Hsv64 & _).
  unfold RecordServerTransport. run_recorder. rewrite Hsv. run_recorder.
  eexists; (split; [reflexivity|]); bounded_labels.
Qed.

Lemma RecordToolAvailability_bounded (m : MCPMetrics) (tool : string)
    (available : bool) :
  instrumented m = true ->
  records boundedNames (RecordToolAvailability (Some m) tool available).
Proof.
  intros Hm sdk. instruments m Hm.
  destruct (boundString_64 tool) as (tv & Htv & Htv0 & Htv64 & _).
  unfold RecordToolAvailability. run_recorder. rewrite Htv. run_recorder.
  eexists; (split; [reflexivity|]); bounded_labels.
Qed.

Lemma RecordToolDiscovery_bounded (m : MCPMetrics) (tool : string) :
  instrumented m = true ->
  records boundedNames (RecordToolDiscovery (Some m) tool).
Proof.
  intros Hm sdk. instruments m Hm.
  destruct (boundString_64 tool) as (tv & Htv & Htv0 & Htv64 & _).
  unfold RecordToolDiscovery. run_recorder. rewrite Htv. run_recorder.
  eexists; (split; [reflexivity|]); bounded_labels.
Qed.

End RecorderFacts.

(** [boundString] on a string of 70 bytes, and with a bound that the
    callers never pass: the slice expression panics on a negative bound. *)
Example boundString_truncates :
  metrics.boundString
    "aaaaaaaaaaaaaaaaaaaaaaaaaaaaaaaaaaaaaaaaaaaaaaaaaaaaaaaaaaaaaaaaaaaaaa" 64
    "unknown"
  = Returned "aaaaaaaaaaaaaaaaaaaaaaaaaaaaaaaaaaaaaaaaaaaaaaaaaaaaaaaaaaaaaaaa".
Proof. reflexivity. Qed.

Example boundString_negative_bound :
  metrics.boundString "calc" (-1) "unknown" = Panicked.
Proof. reflexivity. Qed.

(** C9.  For every input string [s], [boundString(s, 64, "unknown")]
    returns a non-empty string of byte length at most 64: the fallback
    ["unknown"] when [s] is empty, the first 64 bytes of [s] when [s] is
    longer than 64 bytes, and [s] itself otherwise; hence every server-name
    and tool-name label that a recording method hands to the SDK is
    non-empty and at most 64 bytes. *)
Theorem boundString_bounds_name_labels `{UnicodeLower} `{error E}
    (s : string) (m : metrics.MCPMetrics) (server tool event : string)
    (status : metrics.MetricStatus) (started : metrics.Time)
    (err : option E) (flag : bool)
    (Hm : Spec.instrumented m = true) :
  (exists r,
     metrics.boundString s 64 "unknown" = Returned r /\
     r <> EmptyString /\ GoStrings.len r <= 64 /\
     (s = EmptyString -> r = "unknown") /\
     (64 < GoStrings.len s -> r = GoStrings.take 64 s) /\
     (s <> EmptyString -> GoStrings.len s <= 64 -> r = s)) /\
  Spec.records Spec.boundedNames
    (metrics.RecordTool (Some m) server tool status started err) /\
  Spec.records Spec.boundedNames
    (metrics.RecordServerRegistration (Some m) server flag) /\
  Spec.records Spec.boundedNames
    (metrics.RecordServerDeregistration (Some m) server) /\
  Spec.records Spec.boundedNames
    (metrics.RecordServerTransport (Some m) server event) /\
  Spec.records Spec.boundedNames
    (metrics.RecordToolAvailability (Some m) tool flag) /\
  Spec.records Spec.boundedNames (metrics.RecordToolDiscovery (Some m) tool).
Proof.
  split; [apply boundString_64|].
  split; [now apply RecordTool_bounded|].
  split; [now apply RecordServerRegistration_bounded|].
  split; [now apply RecordServerDeregistration_bounded|].
  split; [now apply RecordServerTransport_bounded|].
  split; [now apply RecordToolAvailability_bounded|].
  now apply RecordToolDiscovery_bounded.
Qed.

Lemma boundString_bounds_name_labels_witness :
  (exists r,
     metrics.boundString "calc" 64 "unknown" = Returned r /\
     r <> EmptyString /\ GoStrings.len r <= 64 /\
     ("calc" = EmptyString -> r = "unknown") /\
     (64 < GoStrings.len "calc" -> r = GoStrings.take 64 "calc") /\
     ("calc" <> EmptyString -> GoStrings.len "calc" <= 64 -> r = "calc")) /\
  Spec.records Spec.boundedNames
    (@metrics.RecordTool Spec.asciiLower errorString _
       (Some Spec.sampleMetrics) "calc" "add" metrics.StatusError 0
       (Some (ErrorString "timeout"))) /\
  Spec.records Spec.boundedNames
    (metrics.RecordServerRegistration (Some Spec.sampleMetrics) "calc" true) /\
  Spec.records Spec.boundedNames
    (metrics.RecordServerDeregistration (Some Spec.sampleMetrics) "calc") /\
  Spec.records Spec.boundedNames
    (metrics.RecordServerTransport (Some Spec.sampleMetrics) "calc"
       "registered") /\
  Spec.records Spec.boundedNames
    (metrics.RecordToolAvailability (Some Spec.sampleMetrics) "add" true) /\
  Spec.records Spec.boundedNames
    (metrics.RecordToolDiscovery (Some Spec.sampleMetrics) "add").
Proof.
  apply (@boundString_bounds_name_labels Spec.asciiLower errorString _
           "calc" Spec.sampleMetrics "calc" "add" "registered"
           metrics.StatusError 0 (Some (ErrorString "timeout")) true).
  reflexivity.
Defined.

(** C10.  Every recording method of [MCPMetrics] is a no-op when the
    receiver is nil: it returns without a panic and hands nothing to the
    SDK. *)
Theorem recording_on_nil_receiver_is_noop `{UnicodeLower} `{error E}
    (server tool method event errorType : string)
    (status : metrics.MetricStatus) (started : metrics.Time)
    (err : option E) (flag : bool) :
  Spec.noOp (metrics.RecordTool None server tool status started err) /\
  Spec.noOp (metrics.RecordRequest None method status started err) /\
  Spec.noOp (metrics.RecordServerRegistration None server flag) /\
  Spec.noOp (metrics.RecordServerDeregistration None server) /\
  Spec.noOp (metrics.RecordServerTransport None server event) /\
  Spec.noOp (metrics.RecordToolAvailability None tool flag) /\
  Spec.noOp (metrics.RecordToolDiscovery None tool) /\
  Spec.noOp (metrics.RecordEnhancedError None errorType).
Proof. repeat split. Qed.

(** The nil check is what keeps the methods from failing: on a bundle
    without the instrument the call panics. *)
Lemma RecordEnhancedError_nil_instrument (m : metrics.MCPMetrics)
    (errorType : string) (sdk : metrics.SDK) :
  metrics.ErrorsByType m = None ->
  metrics.RecordEnhancedError (Some m) errorType sdk = Panicked.
Proof. intros Hm. unfold metrics.RecordEnhancedError. now rewrite Hm. Qed.

(** ** [getErrorType] *)

Section ErrorTypeFacts.
Import GoStrings metrics Spec.
Context `{UnicodeLower} `{error E}.

Lemma mapBytes_append (f : ascii -> ascii) (a b : string) :
  mapBytes f (a +:+ b) = mapBytes f a +:+ mapBytes f b.
Proof.
  induction a as [|c a IH]; [reflexivity|].
  rewrite append_cons. cbn [mapBytes]. now rewrite IH, append_cons.
Qed.

Lemma lowerByte_below_128 (c : ascii) :
  (Z.of_N (N_of_ascii (lowerByte c)) <? 128)
  = (Z.of_N (N_of_ascii c) <? 128).
Proof. destruct c as [[] [] [] [] [] [] [] []]; reflexivity. Qed.

Lemma isASCII_mapBytes_lowerByte (w : string) :
  isASCII (mapBytes lowerByte w) = isASCII w.
Proof.
  induction w as [|c w IH]; [reflexivity|].
  cbn [mapBytes isASCII]. now rewrite lowerByte_below_128, IH.
Qed.

(** [Map] lowers a stretch of ASCII byte by byte. *)
Lemma mapToLower_ascii (w b : string) :
  isASCII w = true ->
  mapToLower EmptyString (w +:+ b)
  = mapBytes lowerByte w +:+ mapToLower EmptyString b.
Proof.
  induction w as [|c w IH]; [reflexivity|].
  cbn [isASCII]. intros [Hc Hw]%andb_true_iff.
  rewrite append_cons. cbn [mapToLower mapBytes]. rewrite Hc.
  cbn [lowerRun]. rewrite append_empty_l, append_cons. now rewrite IH.
Qed.

(** What [Map] writes before a byte of ASCII does not depend on what
    follows the byte, and what it writes after it does not depend on
    what precedes it. *)
Lemma mapToLower_cut (a run : string) :
  exists pre, forall c rest,
    (Z.of_N (N_of_ascii c) <? 128) = true ->
    mapToLower run (a +:+ String c rest)
    = pre +:+ String (lowerByte c) (mapToLower EmptyString rest).
Proof.
  revert run. induction a as [|d a IH]; intros run.
  - exists (lowerRun run). intros c rest Hc.
    rewrite append_empty_l. cbn [mapToLower]. now rewrite Hc.
  - destruct (Z.of_N (N_of_ascii d) <? 128) eqn:Hd.
    + destruct (IH EmptyString) as [pre Hpre].
      exists (lowerRun run +:+ String (lowerByte d) pre).
      intros c rest Hc. rewrite append_cons. cbn [mapToLower].
      rewrite Hd, (Hpre c rest Hc), append_assoc. now rewrite append_cons.
    + destruct (IH (run +:+ String d EmptyString)) as [pre Hpre].
      exists pre. intros c rest Hc. rewrite append_cons.
      cbn [mapToLower]. rewrite Hd. now apply Hpre.
Qed.

(** The match ignores case: a word of ASCII is found in whatever case
    the message has it, whatever else the message holds. *)
Lemma Contains_ToLower (msg a w b word : string) :
  msg = a +:+ w +:+ b ->
  isASCII word = true ->
  mapBytes lowerByte w = word ->
  Contains (ToLower msg) word = true.
Proof.
  intros -> Hword <-. rewrite isASCII_mapBytes_lowerByte in Hword.
  unfold ToLower. destruct (isASCII (a +:+ w +:+ b)).
  { rewrite !mapBytes_append. apply Contains_spec. eauto. }
  destruct w as [|c w].
  { apply Contains_spec. exists EmptyString. eexists. reflexivity. }
  cbn [isASCII] in Hword. apply andb_true_iff in Hword as [Hc Hw].
  destruct (mapToLower_cut a EmptyString) as [pre Hpre].
  rewrite append_cons, (Hpre c _ Hc), (mapToLower_ascii w b Hw).
  apply Contains_spec. exists pre, (mapToLower EmptyString b).
  cbn [mapBytes]. now rewrite append_cons.
Qed.

Lemma getErrorType_in_labels (err : option E) :
  getErrorType err ∈ errorTypeLabels.
Proof.
  unfold getErrorType, errorTypeLabels. destruct err as [e|].
  - repeat (destruct (Contains _ _); [set_solver|]). set_solver.
  - set_solver.
Qed.

Lemma getErrorType_not_none (e : E) : getErrorType (Some e) <> "none".
Proof.
  unfold getErrorType.
  repeat (destruct (Contains _ _); [discriminate|]). discriminate.
Qed.

End ErrorTypeFacts.

(** C7 (as amended).  The error classifier maps every error to exactly one
    label of [none], [timeout], [connection], [permission], [not_found],
    [invalid], [cancelled], [unknown]: a nil error is classified [none] and
    no other error is; an error whose lower-cased message contains
    ["timeout"] is classified [timeout], otherwise ["connection"] gives
    [connection], otherwise ["permission"] gives [permission], otherwise
    ["not found"] gives [not_found], otherwise ["invalid"] gives [invalid],
    otherwise ["cancelled"] gives [cancelled], and every other error is
    classified [unknown]; the earlier word takes precedence when several
    occur.  The match ignores case: a word of ASCII, as these six are,
    is found in whatever case the message has it, also in a message that
    holds bytes outside ASCII. *)
Theorem getErrorType_first_matching_label `{UnicodeLower} `{error E}
    (e : E) :
  let has := GoStrings.Contains (GoStrings.ToLower (Error e)) in
  metrics.getErrorType (@None E) = "none" /\
  metrics.getErrorType (Some e) ∈ Spec.errorTypeLabels /\
  metrics.getErrorType (Some e) <> "none" /\
  (has "timeout" = true -> metrics.getErrorType (Some e) = "timeout") /\
  (has "timeout" = false -> has "connection" = true ->
   metrics.getErrorType (Some e) = "connection") /\
  (has "timeout" = false -> has "connection" = false ->
   has "permission" = true ->
   metrics.getErrorType (Some e) = "permission") /\
  (has "timeout" = false -> has "connection" = false ->
   has "permission" = false -> has "not found" = true ->
   metrics.getErrorType (Some e) = "not_found") /\
  (has "timeout" = false -> has "connection" = false ->
   has "permission" = false -> has "not found" = false ->
   has "invalid" = true ->
   metrics.getErrorType (Some e) = "invalid") /\
  (has "timeout" = false -> has "connection" = false ->
   has "permission" = false -> has "not found" = false ->
   has "invalid" = false -> has "cancelled" = true ->
   metrics.getErrorType (Some e) = "cancelled") /\
  (has "timeout" = false -> has "connection" = false ->
   has "permission" = false -> has "not found" = false ->
   has "invalid" = false -> has "cancelled" = false ->
   metrics.getErrorType (Some e) = "unknown") /\
  (forall a w b word,
     Error e = a +:+ w +:+ b ->
     GoStrings.isASCII word = true ->
     GoStrings.mapBytes GoStrings.lowerByte w = word ->
     has word = true).
Proof.
  intros has.
  split; [reflexivity|].
  split; [apply getErrorType_in_labels|].
  split; [apply getErrorType_not_none|].
  subst has. unfold metrics.getErrorType.
  repeat split; intros; repeat
    match goal with
    | Hc : GoStrings.Contains _ _ = _ |- _ => rewrite Hc; clear Hc
    end; try reflexivity.
  eapply Contains_ToLower; eassumption.
Qed.

Lemma getErrorType_first_matching_label_witness :
  GoStrings.isASCII "Connection TIMEOUT é" = false /\
  GoStrings.Contains
    (GoStrings.ToLower (H := Spec.asciiLower) "Connection TIMEOUT é")
    "timeout" = true /\
  @metrics.getErrorType Spec.asciiLower errorString _
    (Some (ErrorString "Connection TIMEOUT é")) = "timeout".
Proof.
  pose proof (@getErrorType_first_matching_label Spec.asciiLower
                errorString _ (ErrorString "Connection TIMEOUT é"))
    as (_ & _ & _ & Htimeout & _ & _ & _ & _ & _ & _ & Hcase).
  assert (GoStrings.Contains
            (GoStrings.ToLower (H := Spec.asciiLower) "Connection TIMEOUT é")
            "timeout" = true) as Hhas.
  { apply (Hcase "Connection " "TIMEOUT" " é"); reflexivity. }
  split; [reflexivity|]. split; [exact Hhas|exact (Htimeout Hhas)].
Defined.

(** C7 (as stated) fails: the error ["boom"] is classified [unknown] and an
    error that says ["invalid"] is classified [invalid]; neither label is
    a kind of the taxonomy of the spec. *)
Lemma getErrorType_outside_taxonomy :
  @metrics.getErrorType Spec.asciiLower errorString _
    (Some (ErrorString "boom")) = "unknown" /\
  @metrics.getErrorType Spec.asciiLower errorString _
    (Some (ErrorString "invalid input")) = "invalid" /\
  ("unknown" ∉ Spec.taxonomyLabels) /\
  ("invalid" ∉ Spec.taxonomyLabels).
Proof.
  split; [reflexivity|]. split; [reflexivity|].
  split; intros Hin%list_elem_of_In; cbn in Hin; intuition discriminate.
Qed.

(** ** Handlers: the steps that only record *)

Section WorldFacts.
Import api metrics Spec.
Context {Svc : Type}.

Lemma withTelemetry_nil (w : World Svc) : withTelemetry w [] = w.
Proof. destruct w. unfold withTelemetry. cbn. now rewrite app_nil_r. Qed.

Lemma withTelemetry_app (w : World Svc) (a b : list Measurement) :
  withTelemetry (withTelemetry w a) b = withTelemetry w (a ++ b).
Proof. unfold withTelemetry. cbn. now rewrite app_assoc. Qed.

Lemma emits_record (P : list Measurement -> Prop) (r : M SDK unit) :
  records P r -> emits P (record (Svc := Svc) r).
Proof.
  intros Hr w. destruct (Hr (telemetry w)) as (new & Hrun & HP).
  exists new. split; [|exact HP]. unfold record. now rewrite Hrun.
Qed.

Lemma emits_seq (P Q : list Measurement -> Prop)
    (a b : M (World Svc) unit) :
  emits P a -> emits Q b ->
  emits (fun new => exists n1 n2, new = n1 ++ n2 /\ P n1 /\ Q n2) (a;; b).
Proof.
  intros Ha Hb w. destruct (Ha w) as (n1 & Hrun1 & HP).
  destruct (Hb (withTelemetry w n1)) as (n2 & Hrun2 & HQ).
  exists (n1 ++ n2). split; [|now exists n1, n2].
  unfold mbind, M_bind, bind. now rewrite Hrun1, Hrun2, withTelemetry_app.
Qed.

Lemma emits_weaken (P Q : list Measurement -> Prop)
    (run : M (World Svc) unit) :
  (forall new, P new -> Q new) -> emits P run -> emits Q run.
Proof.
  intros HPQ Hrun w. destruct (Hrun w) as (new & ? & ?). exists new. auto.
Qed.

Lemma emits_forRange {A} (l : list A) (body : A -> M (World Svc) unit) :
  (forall x, emits anything (body x)) -> emits anything (forRange l body).
Proof.
  intros Hbody. induction l as [|x l IH]; intros w.
  - exists []. now rewrite withTelemetry_nil.
  - destruct (Hbody x w) as (n1 & Hrun1 & _).
    destruct (IH (withTelemetry w n1)) as (n2 & Hrun2 & _).
    exists (n1 ++ n2). split; [|exact I]. cbn [forRange]. unfold bind.
    now rewrite Hrun1, Hrun2, withTelemetry_app.
Qed.

(** The guarded block [if s.metrics != nil { ... }]. *)
Lemma emits_guarded (s : Server) (P : list Measurement -> Prop)
    (step : M (World Svc) unit) :
  (s_metrics s = None -> P []) ->
  (s_metrics s <> None -> emits (fun new => new <> [] /\ P new) step) ->
  emits (fun new => (new = [] <-> s_metrics s = None) /\ P new)
        (when (notNil (s_metrics s)) step).
Proof.
  intros Hnil Hstep w. destruct (s_metrics s) as [m|] eqn:Hm; cbn [notNil when].
  - destruct (Hstep ltac:(discriminate) w) as (new & Hrun & Hne & HP).
    exists new. repeat split; try done.
  - exists []. rewrite withTelemetry_nil. repeat split; auto.
Qed.

(** A guarded block followed by [c.JSON] and [return]. *)
Lemma responds_JSON {R} (s : Server) (P : list Measurement -> Prop)
    (step : M (World Svc) unit) (code : Z) (obj : Body R) (w : World Svc) :
  emits (fun new => (new = [] <-> s_metrics s = None) /\ P new) step ->
  responds s (step;; JSON code obj) w {| Status := code; Payload := obj |}
           (service w) [] P.
Proof.
  intros Hstep. destruct (Hstep w) as (new & Hrun & Hnil & HP).
  exists new. split; [|now split].
  unfold mbind, M_bind, bind, JSON, ret. rewrite Hrun.
  unfold withTelemetry. now rewrite app_nil_r.
Qed.

(** A service call, then what the handler does with its result. *)
Lemma responds_call {R A} (s : Server) (P : list Measurement -> Prop)
    (what : ServiceCall) (op : Svc -> A * Svc)
    (rest : A -> M (World Svc) (Response R)) (w : World Svc)
    (resp : Response R) (a : A) (svc : Svc) :
  op (service w) = (a, svc) ->
  (forall w', responds s (rest a) w' resp (service w') [] P) ->
  responds s (r ← call what op; rest r) w resp svc [what] P.
Proof.
  intros Hop Hrest.
  destruct (Hrest {| service := svc; telemetry := telemetry w;
                     clock := clock w; calls := calls w ++ [what] |})
    as (new & Hrun & Hnil & HP).
  exists new. split; [|now split].
  unfold mbind, M_bind, bind, call. rewrite Hop, Hrun. cbn.
  now rewrite app_nil_r.
Qed.

(** [started := time.Now()] *)
Lemma responds_timeNow {R} (s : Server) (P : list Measurement -> Prop)
    (rest : Time -> M (World Svc) (Response R)) (w : World Svc)
    (resp : Response R) (svc : Svc) (made : list ServiceCall) :
  responds s (rest (clock w)) w resp svc made P ->
  responds s (started ← timeNow; rest started) w resp svc made P.
Proof. intros (new & Hrun & HP). exists new. split; [exact Hrun|exact HP]. Qed.

Lemma responds_weaken {R} (s : Server) (P Q : list Measurement -> Prop)
    (run : M (World Svc) (Response R)) (w : World Svc)
    (resp : Response R) (svc : Svc) (made : list ServiceCall) :
  (forall new, P new -> Q new) ->
  responds s run w resp svc made P -> responds s run w resp svc made Q.
Proof. intros HPQ (new & Hrun & Hnil & HP). exists new. auto. Qed.

End WorldFacts.

(** ** What the recording methods hand to the SDK *)

(** Closes the goals on the measurements of an error that was recorded
    with its type. *)
Ltac typed_error :=
  cbn [app]; split; [discriminate|]; unfold Spec.typedErrors;
  repeat (constructor;
          [intros Herr; unfold Spec.hasErrorType; cbn [metrics.attributes];
           first [contradiction | set_solver]|]);
  constructor.

Section RecorderRuns.
Import GoStrings metrics Spec.
Context `{UnicodeLower} `{error E}.

Lemma RecordRequest_records (m : MCPMetrics) (method : string)
    (status : MetricStatus) (started : Time) (err : option E) :
  instrumented m = true ->
  records (fun new => new <> [] /\ typedErrors err new)
          (RecordRequest (Some m) method status started err).
Proof.
  intros Hm sdk. instruments m Hm.
  destruct (boundString_64 method) as (mv & Hmv & _).
  unfold RecordRequest. run_recorder. rewrite Hmv. run_recorder.
  destruct (bool_decide (status = StatusError)); run_recorder;
    rewrite <- ?app_assoc; eexists; (split; [reflexivity|]);
    destruct err; typed_error.
Qed.

Lemma RecordTool_records (m : MCPMetrics) (server tool : string)
    (status : MetricStatus) (started : Time) (err : option E) :
  instrumented m = true ->
  records (fun new => new <> [] /\ typedErrors err new)
          (RecordTool (Some m) server tool status started err).
Proof.
  intros Hm sdk. instruments m Hm.
  destruct (boundString_64 server) as (sv & Hsv & _).
  destruct (boundString_64 tool) as (tv & Htv & _).
  unfold RecordTool. run_recorder. rewrite Hsv. run_recorder.
  rewrite Htv. run_recorder.
  destruct (bool_decide (status = StatusError)); run_recorder;
    rewrite <- ?app_assoc; eexists; (split; [reflexivity|]);
    destruct err; typed_error.
Qed.

End RecorderRuns.

Section RecorderRunsPlain.
Import GoStrings metrics Spec.

Lemma RecordEnhancedError_records (m : MCPMetrics) (errorType : string) :
  instrumented m = true ->
  records (fun new => exists ms, new = [ms] /\
                                 errorOfType (Some m) errorType ms)
          (RecordEnhancedError (Some m) errorType).
Proof.
  intros Hm sdk. destruct (ErrorsByType m) as [name|] eqn:Hi.
  - unfold RecordEnhancedError, Add. rewrite Hi.
    eexists. split; [reflexivity|]. eexists. split; [reflexivity|].
    now exists m, name.
  - instruments m Hm. discriminate Hi.
Qed.

Lemma RecordToolAvailability_records (m : MCPMetrics) (tool : string)
    (available : bool) :
  instrumented m = true ->
  records (fun new => new <> [])
          (RecordToolAvailability (Some m) tool available).
Proof.
  intros Hm sdk. instruments m Hm.
  destruct (boundString_64 tool) as (tv & Htv & _).
  unfold RecordToolAvailability. run_recorder. rewrite Htv. run_recorder.
  eexists. split; [reflexivity|discriminate].
Qed.

Lemma RecordServerRegistration_records (m : MCPMetrics) (server : string)
    (success : bool) :
  instrumented m = true ->
  records (fun new => new <> [])
          (RecordServerRegistration (Some m) server success).
Proof.
  intros Hm sdk. instruments m Hm.
  destruct (boundString_64 server) as (sv & Hsv & _).
  unfold RecordServerRegistration. run_recorder. rewrite Hsv. run_recorder.
  eexists. split; [reflexivity|discriminate].
Qed.

Lemma RecordServerTransport_records (m : MCPMetrics)
    (server event : string) :
  instrumented m = true ->
  records (fun new => new <> [])
          (RecordServerTransport (Some m) server event).
Proof.
  intros Hm sdk. instruments m Hm.
  destruct (boundString_64 server) as (sv & Hsv & _).
  unfold RecordServerTransport. run_recorder. rewrite Hsv. run_recorder.
  eexists. split; [reflexivity|discriminate].
Qed.

End RecorderRunsPlain.

(** ** Handlers: the blocks [if s.metrics != nil { ... }] *)

Section Blocks.
Import api metrics Spec.
Context {Svc : Type} `{UnicodeLower} `{error E}.

Lemma configured_instrumented (s : Server) (m : MCPMetrics) :
  configured s = true -> s_metrics s = Some m -> instrumented m = true.
Proof. unfold configured. intros Hs Hm. now rewrite Hm in Hs. Qed.

Lemma typedErrors_app (err : option E) (a b : list Measurement) :
  typedErrors err a -> typedErrors err b -> typedErrors err (a ++ b).
Proof. unfold typedErrors. intros. now apply Forall_app. Qed.

Lemma block_request (s : Server) (method : string) (status : MetricStatus)
    (started : Time) (err : option E) :
  configured s = true ->
  emits (Svc := Svc)
    (fun new => (new = [] <-> s_metrics s = None) /\ typedErrors err new)
    (when (notNil (s_metrics s))
       (record (RecordRequest (s_metrics s) method status started err))).
Proof.
  intros Hs. apply emits_guarded; [constructor|]. intros Hne.
  destruct (s_metrics s) as [m|] eqn:Hm; [|done].
  apply emits_record, RecordRequest_records.
  exact (configured_instrumented s m Hs Hm).
Qed.

Lemma block_request_tool (s : Server) (method server tool : string)
    (status : MetricStatus) (started : Time) (err : option E) :
  configured s = true ->
  emits (Svc := Svc)
    (fun new => (new = [] <-> s_metrics s = None) /\ typedErrors err new)
    (when (notNil (s_metrics s))
       (record (RecordRequest (s_metrics s) method status started err);;
        record (RecordTool (s_metrics s) server tool status started err))).
Proof.
  intros Hs. apply emits_guarded; [constructor|]. intros Hne.
  destruct (s_metrics s) as [m|] eqn:Hm; [|done].
  pose proof (configured_instrumented s m Hs Hm) as Hi.
  eapply emits_weaken;
    [|apply emits_seq; apply emits_record;
      [apply RecordRequest_records|apply RecordTool_records]; exact Hi].
  intros new (n1 & n2 & -> & [Hne1 Ht1] & [_ Ht2]). split.
  - destruct n1; [done|discriminate].
  - now apply typedErrors_app.
Qed.

Lemma block_request_error (s : Server) (method errorType : string)
    (status : MetricStatus) (started : Time) (err : option E) :
  configured s = true ->
  emits (Svc := Svc)
    (fun new => (new = [] <-> s_metrics s = None) /\
                countsError s errorType new)
    (when (notNil (s_metrics s))
       (record (RecordRequest (s_metrics s) method status started err);;
        record (RecordEnhancedError (s_metrics s) errorType))).
Proof.
  intros Hs. apply emits_guarded; [intros Hm Hne; contradiction|].
  intros Hne. unfold countsError.
  destruct (s_metrics s) as [m|] eqn:Hm; [|done].
  pose proof (configured_instrumented s m Hs Hm) as Hi.
  eapply emits_weaken;
    [|apply emits_seq; apply emits_record;
      [apply (RecordRequest_records (E := E))
      |apply RecordEnhancedError_records]; exact Hi].
  intros new (n1 & n2 & -> & [Hne1 _] & (ms & -> & Hms)). split.
  - destruct n1; [done|discriminate].
  - intros _. apply Exists_app. right. now constructor.
Qed.

Lemma block_error (s : Server) (errorType : string) :
  configured s = true ->
  emits (Svc := Svc)
    (fun new => (new = [] <-> s_metrics s = None) /\
                countsError s errorType new)
    (when (notNil (s_metrics s))
       (record (RecordEnhancedError (s_metrics s) errorType))).
Proof.
  intros Hs. apply emits_guarded; [intros Hm Hne; contradiction|].
  intros Hne. unfold countsError.
  destruct (s_metrics s) as [m|] eqn:Hm; [|done].
  pose proof (configured_instrumented s m Hs Hm) as Hi.
  eapply emits_weaken;
    [|apply emits_record, RecordEnhancedError_records; exact Hi].
  intros new (ms & -> & Hms). split; [discriminate|].
  intros _. now constructor.
Qed.

Lemma block_request_availability (s : Server) (method : string)
    (status : MetricStatus) (started : Time) (err : option E)
    (tools : list string) (available : bool) :
  configured s = true ->
  emits (Svc := Svc)
    (fun new => (new = [] <-> s_metrics s = None) /\ anything new)
    (when (notNil (s_metrics s))
       (record (RecordRequest (s_metrics s) method status started err);;
        forRange tools (fun toolName =>
          record (RecordToolAvailability (s_metrics s) toolName
                    available)))).
Proof.
  intros Hs. apply emits_guarded; [constructor|]. intros Hne.
  destruct (s_metrics s) as [m|] eqn:Hm; [|done].
  pose proof (configured_instrumented s m Hs Hm) as Hi.
  eapply emits_weaken;
    [|apply emits_seq;
      [apply emits_record, (RecordRequest_records (E := E)); exact Hi
      |apply emits_forRange; intros tool; eapply emits_weaken;
       [|apply emits_record, RecordToolAvailability_records; exact Hi];
       done]].
  intros new (n1 & n2 & -> & [Hne1 _] & _). split; [|exact I].
  destruct n1; [done|discriminate].
Qed.

Lemma block_registered (s : Server) (server event : string)
    (success : bool) :
  configured s = true ->
  emits (Svc := Svc)
    (fun new => (new = [] <-> s_metrics s = None) /\ anything new)
    (when (notNil (s_metrics s))
       (record (RecordServerRegistration (s_metrics s) server success);;
        record (RecordServerTransport (s_metrics s) server event))).
Proof.
  intros Hs. apply emits_guarded; [constructor|]. intros Hne.
  destruct (s_metrics s) as [m|] eqn:Hm; [|done].
  pose proof (configured_instrumented s m Hs Hm) as Hi.
  eapply emits_weaken;
    [|apply emits_seq; apply emits_record;
      [apply RecordServerRegistration_records
      |apply RecordServerTransport_records]; exact Hi].
  intros new (n1 & n2 & -> & Hne1 & _). split; [|exact I].
  destruct n1; [done|discriminate].
Qed.

End Blocks.

(** ** Handlers: what each one answers *)

(** Answers with [c.JSON] after a guarded block. *)
Ltac answer :=
  eapply responds_weaken;
  [|apply responds_JSON;
    first [apply block_request | apply block_request_tool
          | apply block_request_error | apply block_error
          | apply block_request_availability | apply block_registered];
    assumption];
  first [intros ? ?; exact I | intros ? ?; assumption].

Section HandlerFacts.
Import api metrics Spec.
Context {Svc R E : Type}.
Context `{UnicodeLower} `{error E} `{MCPService Svc R E} `{ServerModel}.

Lemma invokeToolHandler_undecodable (s : Server)
    (c : Context (gmap string any)) (w : World Svc) (err : errorString) :
  configured s = true ->
  RequestBody c = Err err ->
  responds s (invokeToolHandler s c) w
    {| Status := StatusBadRequest;
       Payload := ErrorBody ("failed to decode request body: "
                             +:+ Error err) |}
    (service w) [] anything.
Proof.
  intros Hs Hbody. unfold invokeToolHandler. apply responds_timeNow.
  cbv beta. rewrite Hbody. answer.
Qed.

Lemma invokeToolHandler_unnamed (s : Server)
    (c : Context (gmap string any)) (w : World Svc)
    (args : gmap string any) :
  configured s = true ->
  RequestBody c = Ok args ->
  args !! "name" = None ->
  responds s (invokeToolHandler s c) w
    {| Status := StatusBadRequest;
       Payload := ErrorBody "missing 'name' field in request body" |}
    (service w) [] anything.
Proof.
  intros Hs Hbody Hname. unfold invokeToolHandler. apply responds_timeNow.
  cbv beta. rewrite Hbody, Hname. answer.
Qed.

Lemma invokeToolHandler_misnamed (s : Server)
    (c : Context (gmap string any)) (w : World Svc)
    (args : gmap string any) (rawName : any) :
  configured s = true ->
  RequestBody c = Ok args ->
  args !! "name" = Some rawName ->
  (forall name, rawName <> AnyString name) ->
  responds s (invokeToolHandler s c) w
    {| Status := StatusBadRequest;
       Payload := ErrorBody "'name' field must be a string" |}
    (service w) [] anything.
Proof.
  intros Hs Hbody Hname Hraw. unfold invokeToolHandler.
  apply responds_timeNow. cbv beta. rewrite Hbody, Hname.
  destruct rawName as [|b|bits|name|l|m];
    try answer.
  now destruct (Hraw name).
Qed.

Lemma invokeToolHandler_invoked (s : Server)
    (c : Context (gmap string any)) (w : World Svc)
    (args : gmap string any) (name : string) :
  configured s = true ->
  RequestBody c = Ok args ->
  args !! "name" = Some (AnyString name) ->
  match InvokeTool name (delete "name" args) (service w) with
  | (Ok resp, svc) =>
      responds s (invokeToolHandler s c) w
        {| Status := StatusOK; Payload := ResultBody resp |}
        svc [CallInvokeTool name (delete "name" args)] anything
  | (Err err, svc) =>
      responds s (invokeToolHandler s c) w
        {| Status := StatusInternalServerError;
           Payload := ErrorBody ("failed to invoke tool: " +:+ Error err) |}
        svc [CallInvokeTool name (delete "name" args)]
        (typedErrors (Some err))
  end.
Proof.
  intros Hs Hbody Hname.
  destruct (InvokeTool name (delete "name" args) (service w))
    as [[resp|err] svc] eqn:Hop;
    unfold invokeToolHandler; apply responds_timeNow; cbv beta zeta;
    rewrite Hbody, Hname; destruct (splitServerToolName name) as [[sn tn] ?];
    eapply responds_call; try exact Hop; intros w'.
  - answer.
  - answer.
Qed.

Lemma enableToolsHandler_unnamed (s : Server) (c : Context unit)
    (w : World Svc) :
  configured s = true ->
  Query c "entity" = EmptyString ->
  responds s (enableToolsHandler s c) w
    {| Status := StatusBadRequest;
       Payload := ErrorBody "missing 'entity' query parameter" |}
    (service w) [] anything.
Proof.
  intros Hs Hq. unfold enableToolsHandler. apply responds_timeNow.
  cbv beta zeta. rewrite Hq. rewrite decide_True by reflexivity.
  answer.
Qed.

Lemma enableToolsHandler_named (s : Server) (c : Context unit)
    (w : World Svc) :
  configured s = true ->
  Query c "entity" <> EmptyString ->
  match EnableTools (Query c "entity") (service w) with
  | (Ok tools, svc) =>
      responds s (enableToolsHandler s c) w
        {| Status := StatusOK; Payload := EnabledBody tools |}
        svc [CallEnableTools (Query c "entity")] anything
  | (Err err, svc) =>
      responds s (enableToolsHandler s c) w
        {| Status := StatusInternalServerError;
           Payload := ErrorBody ("failed to enable tool(s): "
                                 +:+ Error err) |}
        svc [CallEnableTools (Query c "entity")]
        (countsError s ErrorTypeValidation)
  end.
Proof.
  intros Hs Hq.
  destruct (EnableTools (Query c "entity") (service w))
    as [[tools|err] svc] eqn:Hop;
    unfold enableToolsHandler; apply responds_timeNow; cbv beta zeta;
    rewrite decide_False by exact Hq;
    eapply responds_call; try exact Hop; intros w'.
  - answer.
  - answer.
Qed.

Lemma disableToolsHandler_unnamed (s : Server) (c : Context unit)
    (w : World Svc) :
  configured s = true ->
  Query c "entity" = EmptyString ->
  responds s (disableToolsHandler s c) w
    {| Status := StatusBadRequest;
       Payload := ErrorBody "missing 'entity' query parameter" |}
    (service w) [] anything.
Proof.
  intros Hs Hq. unfold disableToolsHandler. apply responds_timeNow.
  cbv beta zeta. rewrite Hq. rewrite decide_True by reflexivity.
  answer.
Qed.

Lemma disableToolsHandler_named (s : Server) (c : Context unit)
    (w : World Svc) :
  configured s = true ->
  Query c "entity" <> EmptyString ->
  match DisableTools (Query c "entity") (service w) with
  | (Ok tools, svc) =>
      responds s (disableToolsHandler s c) w
        {| Status := StatusOK; Payload := DisabledBody tools |}
        svc [CallDisableTools (Query c "entity")] anything
  | (Err err, svc) =>
      responds s (disableToolsHandler s c) w
        {| Status := StatusInternalServerError;
           Payload := ErrorBody ("failed to disable tool(s): "
                                 +:+ Error err) |}
        svc [CallDisableTools (Query c "entity")]
        (countsError s ErrorTypeValidation)
  end.
Proof.
  intros Hs Hq.
  destruct (DisableTools (Query c "entity") (service w))
    as [[tools|err] svc] eqn:Hop;
    unfold disableToolsHandler; apply responds_timeNow; cbv beta zeta;
    rewrite decide_False by exact Hq;
    eapply responds_call; try exact Hop; intros w'.
  - answer.
  - answer.
Qed.

Lemma getToolHandler_unnamed (s : Server) (c : Context unit)
    (w : World Svc) :
  configured s = true ->
  Query c "name" = EmptyString ->
  responds s (getToolHandler s c) w
    {| Status := StatusBadRequest;
       Payload := ErrorBody "missing 'name' query parameter" |}
    (service w) [] anything.
Proof.
  intros Hs Hq. unfold getToolHandler. apply responds_timeNow.
  cbv beta zeta. rewrite Hq. rewrite decide_True by reflexivity.
  answer.
Qed.

Lemma getToolHandler_named (s : Server) (c : Context unit)
    (w : World Svc) :
  configured s = true ->
  Query c "name" <> EmptyString ->
  match GetTool (Query c "name") (service w) with
  | (Ok tool, svc) =>
      responds s (getToolHandler s c) w
        {| Status := StatusOK; Payload := ToolBody tool |}
        svc [CallGetTool (Query c "name")] anything
  | (Err err, svc) =>
      responds s (getToolHandler s c) w
        {| Status := StatusInternalServerError;
           Payload := ErrorBody (Error err) |}
        svc [CallGetTool (Query c "name")] (typedErrors (Some err))
  end.
Proof.
  intros Hs Hq.
  destruct (GetTool (Query c "name") (service w))
    as [[tool|err] svc] eqn:Hop;
    unfold getToolHandler; apply responds_timeNow; cbv beta zeta;
    rewrite decide_False by exact Hq;
    eapply responds_call; try exact Hop; intros w'.
  - answer.
  - answer.
Qed.

Lemma registerServerHandler_built (s : Server)
    (c : Context RegisterServerInput) (w : World Svc)
    (input : RegisterServerInput) (server : McpServer) :
  configured s = true ->
  RequestBody c = Ok input ->
  newServer input = Ok server ->
  match RegisterMcpServer server (service w) with
  | (None, svc) =>
      responds s (registerServerHandler s c) w
        {| Status := StatusCreated; Payload := ServerBody server |}
        svc [CallRegisterMcpServer server] anything
  | (Some err, svc) =>
      responds s (registerServerHandler s c) w
        {| Status := StatusInternalServerError;
           Payload := ErrorBody (Error err) |}
        svc [CallRegisterMcpServer server]
        (countsError s ErrorTypeRegistration)
  end.
Proof.
  intros Hs Hbody Hnew.
  destruct (RegisterMcpServer server (service w)) as [[err|] svc] eqn:Hop;
    unfold registerServerHandler; rewrite Hbody, Hnew;
    eapply responds_call; try exact Hop; intros w'.
  - answer.
  - answer.
Qed.

End HandlerFacts.

(** * The handlers of [mcp_tools.go] *)

(** C4 (as amended).  When the JSON body of an invoke-tool request fails
    to decode, lacks a ["name"] field, or holds a ["name"] that is not a
    string, the invoke handler answers with a validation error (HTTP 400)
    and does not call [InvokeTool]; otherwise it calls [InvokeTool] once,
    and answers with the upstream result payload (HTTP 200) on success and
    otherwise with HTTP 500 and the message of the error of the service
    after ["failed to invoke tool: "].  The answer gives the error no
    class; the label that [getErrorType] derives from the message is
    recorded with the metrics, when there are any. *)
Theorem invokeToolHandler_validates_then_invokes
    {Svc R E : Type} `{UnicodeLower} `{error E} `{api.MCPService Svc R E}
    (s : api.Server) (c : api.Context (gmap string any)) (w : api.World Svc)
    (Hs : Spec.configured s = true) :
  (forall err, api.RequestBody c = Err err ->
     Spec.responds s (api.invokeToolHandler s c) w
       {| api.Status := 400;
          api.Payload := api.ErrorBody ("failed to decode request body: "
                                        +:+ Error err) |}
       (api.service w) [] Spec.anything) /\
  (forall args, api.RequestBody c = Ok args -> args !! "name" = None ->
     Spec.responds s (api.invokeToolHandler s c) w
       {| api.Status := 400;
          api.Payload := api.ErrorBody "missing 'name' field in request body" |}
       (api.service w) [] Spec.anything) /\
  (forall args rawName,
     api.RequestBody c = Ok args -> args !! "name" = Some rawName ->
     (forall name, rawName <> AnyString name) ->
     Spec.responds s (api.invokeToolHandler s c) w
       {| api.Status := 400;
          api.Payload := api.ErrorBody "'name' field must be a string" |}
       (api.service w) [] Spec.anything) /\
  (forall args name,
     api.RequestBody c = Ok args ->
     args !! "name" = Some (AnyString name) ->
     match api.InvokeTool name (delete "name" args) (api.service w) with
     | (Ok resp, svc) =>
         Spec.responds s (api.invokeToolHandler s c) w
           {| api.Status := 200; api.Payload := api.ResultBody resp |}
           svc [api.CallInvokeTool name (delete "name" args)] Spec.anything
     | (Err err, svc) =>
         Spec.responds s (api.invokeToolHandler s c) w
           {| api.Status := 500;
              api.Payload := api.ErrorBody ("failed to invoke tool: "
                                            +:+ Error err) |}
           svc [api.CallInvokeTool name (delete "name" args)]
           (Spec.typedErrors (Some err))
     end).
Proof.
  split; [intros err; now apply invokeToolHandler_undecodable|].
  split; [intros args; now apply invokeToolHandler_unnamed|].
  split; [intros args rawName; now apply invokeToolHandler_misnamed|].
  intros args name. now apply invokeToolHandler_invoked.
Qed.

Lemma invokeToolHandler_validates_then_invokes_witness :
  Spec.responds Spec.sampleServer
    (@api.invokeToolHandler _ _ _ Spec.asciiLower _ _ Spec.sampleServer
       (Spec.invokeRequest {["a" := AnyFloat64 2]}))
    (Spec.worldOf Spec.calcRegistry)
    {| api.Status := 400;
       api.Payload := api.ErrorBody "missing 'name' field in request body" |}
    Spec.calcRegistry [] Spec.anything.
Proof.
  refine (proj1 (proj2 (@invokeToolHandler_validates_then_invokes
                          _ _ _ Spec.asciiLower _ mcp.service
                          Spec.sampleServer
                          (Spec.invokeRequest {["a" := AnyFloat64 2]})
                          (Spec.worldOf Spec.calcRegistry) _))
            {["a" := AnyFloat64 2]} _ _); reflexivity.
Defined.

(** C4 (as stated) fails: the answer to a failed invocation is not
    classified.  The service refuses a disabled tool and a tool that it
    does not find with errors of these two kinds; the handler answers
    both with HTTP 500 and the message of the error, and on a server
    without metrics nothing else is recorded.  On a server with metrics
    the error of the disabled tool is recorded with the error type
    [unknown], which is no kind of the taxonomy. *)
Lemma invokeToolHandler_error_is_not_classified :
  let answer (s : api.Server) (name : string) :=
    match @api.invokeToolHandler _ _ _ Spec.asciiLower _ mcp.service s
            (Spec.invokeRequest {["name" := AnyString name]})
            (Spec.worldOf Spec.calcOffRegistry)
    with
    | Returned (resp, w) => Some (resp, api.telemetry w)
    | Panicked => None
    end in
  (mcp.Invoke "calc::add" ∅ Spec.calcOffRegistry).1
  = Err {| mcp.kind := mcp.Disabled; mcp.detail := "calc::add" |} /\
  (mcp.Invoke "calc::sub" ∅ Spec.calcOffRegistry).1
  = Err {| mcp.kind := mcp.NotFound; mcp.detail := "calc::sub" |} /\
  answer {| api.s_metrics := None |} "calc::add"
  = Some ({| api.Status := 500;
             api.Payload :=
               api.ErrorBody
                 "failed to invoke tool: tool is disabled: calc::add" |},
          []) /\
  answer {| api.s_metrics := None |} "calc::sub"
  = Some ({| api.Status := 500;
             api.Payload :=
               api.ErrorBody "failed to invoke tool: not found: calc::sub" |},
          []) /\
  (exists new,
     answer Spec.sampleServer "calc::add"
     = Some ({| api.Status := 500;
                api.Payload :=
                  api.ErrorBody
                    "failed to invoke tool: tool is disabled: calc::add" |},
             new) /\
     new <> [] /\ Forall (Spec.hasErrorType "unknown") new) /\
  "unknown" ∉ Spec.taxonomyLabels.
Proof.
  intros answer.
  split; [reflexivity|]. split; [reflexivity|].
  split; [reflexivity|]. split; [reflexivity|].
  split.
  - eexists. split; [vm_compute; reflexivity|]. split; [discriminate|].
    repeat (apply Forall_cons; split;
            [unfold Spec.hasErrorType; apply list_elem_of_In; cbn;
             auto 10|]).
    constructor.
  - intros Hin%list_elem_of_In. cbn in Hin. intuition discriminate.
Qed.

(** C8.  For every invoke-tool request that reaches the service, the
    ["name"] key is deleted from the decoded argument map before the map is
    passed to [InvokeTool], and every other key/value pair of the request
    body is passed on unchanged. *)
Theorem invokeToolHandler_forwards_args_without_name
    {Svc R E : Type} `{UnicodeLower} `{error E} `{api.MCPService Svc R E}
    (s : api.Server) (c : api.Context (gmap string any)) (w : api.World Svc)
    (args : gmap string any) (name : string)
    (Hs : Spec.configured s = true)
    (Hbody : api.RequestBody c = Ok args)
    (Hname : args !! "name" = Some (AnyString name)) :
  exists forwarded resp w',
    api.invokeToolHandler s c w = Returned (resp, w') /\
    api.calls w' = api.calls w ++ [api.CallInvokeTool name forwarded] /\
    api.service w' = (api.InvokeTool name forwarded (api.service w)).2 /\
    forwarded !! "name" = None /\
    (forall k, k <> "name" -> forwarded !! k = args !! k).
Proof.
  exists (delete "name" args).
  pose proof (invokeToolHandler_invoked s c w args name Hs Hbody Hname) as Hrun.
  destruct (api.InvokeTool name (delete "name" args) (api.service w))
    as [[resp|err] svc]; destruct Hrun as (new & Hrun & _);
    eexists _, _; (split; [exact Hrun|]); cbn [api.calls api.service snd];
    repeat split; try apply lookup_delete_eq;
    intros k Hk; now apply lookup_delete_ne.
Qed.

Lemma invokeToolHandler_forwards_args_without_name_witness :
  exists forwarded resp w',
    @api.invokeToolHandler _ _ _ Spec.asciiLower _ _ Spec.sampleServer
      (Spec.invokeRequest
         {["name" := AnyString "calc::add"; "a" := AnyFloat64 2]})
      (Spec.worldOf Spec.calcRegistry) = Returned (resp, w') /\
    api.calls w' = [api.CallInvokeTool "calc::add" forwarded] /\
    api.service w' =
      (mcp.Invoke "calc::add" forwarded Spec.calcRegistry).2 /\
    forwarded !! "name" = None /\
    (forall k, k <> "name" ->
       forwarded !! k =
       ({["name" := AnyString "calc::add"; "a" := AnyFloat64 2]}
          : gmap string any) !! k).
Proof.
  apply (@invokeToolHandler_forwards_args_without_name
           _ _ _ Spec.asciiLower _ mcp.service Spec.sampleServer
           (Spec.invokeRequest
              {["name" := AnyString "calc::add"; "a" := AnyFloat64 2]})
           (Spec.worldOf Spec.calcRegistry)); reflexivity.
Defined.

(** * The service, as the spec describes it *)

Section ServiceFacts.
Import mcp.

Lemma wellFormed_lookup (reg : Registry) (name : string) (tool : Tool) :
  wellFormed reg -> catalog reg !! name = Some tool ->
  name = qualifiedName (ToolServer tool) (ToolName tool) /\
  is_Some (servers reg !! ToolServer tool).
Proof. intros Hwf Htool. exact (Hwf name tool Htool). Qed.

Lemma Invoke_disabled (reg : Registry) (name : string) (tool : Tool)
    (args : gmap string any) :
  wellFormed reg -> catalog reg !! name = Some tool ->
  Enabled tool = false ->
  Invoke name args reg = (failure Disabled name, reg).
Proof.
  intros Hwf Htool Hoff.
  destruct (wellFormed_lookup reg name tool Hwf Htool) as [Hname _].
  pose proof (splitServerToolName_qualified_found (ToolServer tool)
                (ToolName tool)) as Hfound.
  rewrite <- Hname in Hfound. unfold Invoke.
  destruct (api.splitServerToolName name) as [[server localName] found].
  cbn [snd] in Hfound. subst found. cbn [negb].
  now rewrite Htool, Hoff.
Qed.

Lemma Get_absent (reg : Registry) (name : string) :
  catalog reg !! name = None -> Get name reg = (failure NotFound name, reg).
Proof. unfold Get. now intros ->. Qed.

Lemma Get_present (reg : Registry) (name : string) (tool : Tool) :
  catalog reg !! name = Some tool -> Get name reg = (Ok tool, reg).
Proof. unfold Get. now intros ->. Qed.

(** The constructors of the model accept complete definitions only. *)
Lemma newServer_complete (input : RegisterServerInput) (def : McpServer) :
  api.newServer input = Ok def -> completeDefinition def = true.
Proof.
  unfold api.newServer.
  destruct (api.ValidateTransport (InputTransport input)) as [t|]; [|done].
  destruct (decide (t = TransportStreamableHTTP)); cbn;
    match goal with
    | |- context [completeDefinition ?d] =>
        destruct (completeDefinition d) eqn:Hc
    end; cbn; intros Hdef; inversion Hdef; now subst.
Qed.

Lemma Register_discovery_failure (def : McpServer) (reg : Registry)
    (e : ServiceError) :
  completeDefinition def = true ->
  servers reg !! Name def = None ->
  discover (connect reg def) = Err e ->
  Register def reg = (Some e, called (ListToolsOf (Name def)) reg).
Proof.
  intros Hc Hfresh Hdisc. unfold Register. rewrite Hc, Hfresh. cbn [negb].
  cbn [connect called]. now rewrite Hdisc.
Qed.

(** A failed operation of the service leaves the registry, the catalog
    and the surface as they were. *)
Lemma Register_failure_atomic (def : McpServer) (reg reg' : Registry)
    (e : ServiceError) :
  Register def reg = (Some e, reg') ->
  servers reg' = servers reg /\ catalog reg' = catalog reg /\
  surface reg' = surface reg.
Proof.
  unfold Register. destruct (negb (completeDefinition def)).
  - intros Hr. now inversion Hr.
  - destruct (servers reg !! Name def).
    + intros Hr. now inversion Hr.
    + destruct (discover _); intros Hr; inversion Hr. now subst.
Qed.

Lemma unregistered_owns_nothing (reg : Registry) (server : string) :
  wellFormed reg -> servers reg !! server = None ->
  forall name tool, catalog reg !! name = Some tool ->
                    ToolServer tool <> server.
Proof.
  intros Hwf Hfresh name tool Htool Heq.
  destruct (wellFormed_lookup reg name tool Hwf Htool) as [_ [def Hdef]].
  rewrite Heq in Hdef. congruence.
Qed.

End ServiceFacts.

(** C1.  For every qualified tool name that is present in the Catalog but
    whose enabled flag is false, [Invoke] on that name returns a
    disabled-tool error and leaves the service as it was: the record of
    the calls on the Transport Clients is unchanged, no upstream call was
    made.  The invoke handler, which is the administrative path, answers
    with that error. *)
Theorem disabled_tool_is_never_called `{UnicodeLower}
    (s : api.Server) (c : api.Context (gmap string any))
    (w : api.World mcp.Registry) (body : gmap string any)
    (name : string) (tool : Tool)
    (Hs : Spec.configured s = true)
    (Hwf : mcp.wellFormed (api.service w))
    (Htool : mcp.catalog (api.service w) !! name = Some tool)
    (Hoff : Enabled tool = false)
    (Hbody : api.RequestBody c = Ok body)
    (Hname : body !! "name" = Some (AnyString name)) :
  exists e,
    mcp.kind e = mcp.Disabled /\
    (forall args,
       mcp.Invoke name args (api.service w) = (Err e, api.service w) /\
       mcp.upstream (mcp.Invoke name args (api.service w)).2
       = mcp.upstream (api.service w)) /\
    Spec.responds s (api.invokeToolHandler s c) w
      {| api.Status := 500;
         api.Payload := api.ErrorBody ("failed to invoke tool: "
                                       +:+ Error e) |}
      (api.service w) [api.CallInvokeTool name (delete "name" body)]
      (Spec.typedErrors (Some e)).
Proof.
  exists {| mcp.kind := mcp.Disabled; mcp.detail := name |}.
  split; [reflexivity|].
  split.
  { intros args.
    now rewrite (Invoke_disabled _ name tool args Hwf Htool Hoff). }
  pose proof (invokeToolHandler_invoked s c w body name Hs Hbody Hname)
    as Hrun.
  cbn [api.InvokeTool mcp.service] in Hrun.
  now rewrite (Invoke_disabled _ name tool _ Hwf Htool Hoff) in Hrun.
Qed.

Lemma disabled_tool_is_never_called_witness :
  exists e,
    mcp.kind e = mcp.Disabled /\
    (forall args,
       mcp.Invoke "calc::add" args Spec.calcOffRegistry
       = (Err e, Spec.calcOffRegistry) /\
       mcp.upstream (mcp.Invoke "calc::add" args Spec.calcOffRegistry).2
       = mcp.upstream Spec.calcOffRegistry) /\
    Spec.responds Spec.sampleServer
      (@api.invokeToolHandler _ _ _ Spec.asciiLower _ _ Spec.sampleServer
         (Spec.invokeRequest
            {["name" := AnyString "calc::add"; "a" := AnyFloat64 2]}))
      (Spec.worldOf Spec.calcOffRegistry)
      {| api.Status := 500;
         api.Payload := api.ErrorBody ("failed to invoke tool: "
                                       +:+ Error e) |}
      Spec.calcOffRegistry
      [api.CallInvokeTool "calc::add"
         (delete "name"
            ({["name" := AnyString "calc::add"; "a" := AnyFloat64 2]}
               : gmap string any))]
      (Spec.typedErrors (H := Spec.asciiLower) (Some e)).
Proof.
  apply (@disabled_tool_is_never_called Spec.asciiLower Spec.sampleServer
           (Spec.invokeRequest
              {["name" := AnyString "calc::add"; "a" := AnyFloat64 2]})
           (Spec.worldOf Spec.calcOffRegistry)
           {["name" := AnyString "calc::add"; "a" := AnyFloat64 2]}
           "calc::add"
           {| ToolServer := "calc"; ToolName := "add";
              InputSchema := AnyNil; Enabled := false |});
    try reflexivity.
  apply (bool_decide_unpack _). vm_compute. reflexivity.
Defined.

(** An enabled tool, on the contrary, reaches its Transport Client: the
    call is recorded and the upstream result is returned verbatim. *)
Lemma Invoke_enabled (reg : mcp.Registry) (name : string) (tool : Tool)
    (args : gmap string any) :
  mcp.wellFormed reg -> mcp.catalog reg !! name = Some tool ->
  Enabled tool = true ->
  exists server localName,
    mcp.servers reg !! ToolServer tool = Some server /\
    mcp.Invoke name args reg =
      (mcp.CallTool (mcp.connect reg server) localName args,
       mcp.called (mcp.CallToolOf (Name server) localName args) reg).
Proof.
  intros Hwf Htool Hon.
  destruct (wellFormed_lookup reg name tool Hwf Htool) as [Hname [server Hs]].
  pose proof (splitServerToolName_qualified_found (ToolServer tool)
                (ToolName tool)) as Hfound.
  rewrite <- Hname in Hfound. unfold mcp.Invoke.
  destruct (api.splitServerToolName name) as [[sn localName] found].
  cbn [snd] in Hfound. subst found. cbn [negb].
  rewrite Htool, Hon, Hs. cbn [negb]. now exists server, localName.
Qed.

(** * The handlers of [mcp_servers.go] *)

(** C2.  For every registration request on which tool discovery fails,
    [Register] returns the error and commits no state: the server
    definition is not persisted, no tool of that server appears in the
    Catalog, and the surface is as it was; the handler answers with the
    error and, with metrics, counts a registration error. *)
Theorem failed_discovery_registers_nothing `{UnicodeLower}
    (s : api.Server) (c : api.Context RegisterServerInput)
    (w : api.World mcp.Registry) (input : RegisterServerInput)
    (def : McpServer) (e : mcp.ServiceError)
    (Hs : Spec.configured s = true)
    (Hwf : mcp.wellFormed (api.service w))
    (Hbody : api.RequestBody c = Ok input)
    (Hnew : api.newServer input = Ok def)
    (Hfresh : mcp.servers (api.service w) !! Name def = None)
    (Hdisc : mcp.discover (mcp.connect (api.service w) def) = Err e) :
  exists reg,
    mcp.Register def (api.service w) = (Some e, reg) /\
    mcp.servers reg = mcp.servers (api.service w) /\
    mcp.catalog reg = mcp.catalog (api.service w) /\
    mcp.surface reg = mcp.surface (api.service w) /\
    mcp.servers reg !! Name def = None /\
    (forall name tool, mcp.catalog reg !! name = Some tool ->
                       ToolServer tool <> Name def) /\
    Spec.responds s (api.registerServerHandler s c) w
      {| api.Status := 500; api.Payload := api.ErrorBody (Error e) |}
      reg [api.CallRegisterMcpServer def]
      (Spec.countsError s metrics.ErrorTypeRegistration).
Proof.
  pose proof (Register_discovery_failure def (api.service w) e
                (newServer_complete input def Hnew) Hfresh Hdisc) as Hreg.
  eexists. split; [exact Hreg|]. cbn [mcp.called mcp.servers mcp.catalog
                                       mcp.surface].
  repeat split; try assumption.
  - now apply unregistered_owns_nothing.
  - pose proof (registerServerHandler_built s c w input def Hs Hbody Hnew)
      as Hrun.
    cbn [api.RegisterMcpServer mcp.service] in Hrun.
    now rewrite Hreg in Hrun.
Qed.

Lemma failed_discovery_registers_nothing_witness :
  exists reg,
    mcp.Register
      {| Name := "files"; Description := "a tool server";
         Transport := TransportStdio;
         Config := StdioConfig "run-tool" [] ∅ |} Spec.calcRegistry
    = (Some {| mcp.kind := mcp.Connection;
               mcp.detail := "upstream unreachable" |}, reg) /\
    mcp.servers reg = mcp.servers Spec.calcRegistry /\
    mcp.catalog reg = mcp.catalog Spec.calcRegistry /\
    mcp.surface reg = mcp.surface Spec.calcRegistry /\
    mcp.servers reg !! "files" = None /\
    (forall name tool, mcp.catalog reg !! name = Some tool ->
                       ToolServer tool <> "files") /\
    Spec.responds Spec.sampleServer
      (@api.registerServerHandler _ _ _ _ _ _ Spec.sampleServer
         (Spec.registerRequest "files"))
      (Spec.worldOf Spec.calcRegistry)
      {| api.Status := 500;
         api.Payload :=
           api.ErrorBody "connection failed: upstream unreachable" |}
      reg
      [api.CallRegisterMcpServer
         {| Name := "files"; Description := "a tool server";
            Transport := TransportStdio;
            Config := StdioConfig "run-tool" [] ∅ |}]
      (Spec.countsError Spec.sampleServer metrics.ErrorTypeRegistration).
Proof.
  apply (@failed_discovery_registers_nothing Spec.asciiLower
           Spec.sampleServer (Spec.registerRequest "files")
           (Spec.worldOf Spec.calcRegistry)
           {| InputName := "files"; InputTransport := "subprocess";
              InputDescription := "a tool server"; InputURL := EmptyString;
              InputBearerToken := EmptyString; InputCommand := "run-tool";
              InputArgs := []; InputEnv := ∅ |});
    try reflexivity.
  apply (bool_decide_unpack _). vm_compute. reflexivity.
Defined.

(** C6.  For every get-tool request that names a tool (the [name]
    parameter is not empty) absent from the Catalog, the service returns a
    not-found error, and no error of another kind, which the handler
    answers with; a request that names a present tool is answered with that
    tool. *)
Theorem getToolHandler_answers_tool_or_not_found `{UnicodeLower}
    (s : api.Server) (c : api.Context unit) (w : api.World mcp.Registry)
    (Hs : Spec.configured s = true)
    (Hq : api.Query c "name" <> EmptyString) :
  (mcp.catalog (api.service w) !! api.Query c "name" = None ->
   exists e,
     mcp.Get (api.Query c "name") (api.service w) = (Err e, api.service w) /\
     mcp.kind e = mcp.NotFound /\
     Spec.responds s (api.getToolHandler s c) w
       {| api.Status := 500; api.Payload := api.ErrorBody (Error e) |}
       (api.service w) [api.CallGetTool (api.Query c "name")]
       (Spec.typedErrors (Some e))) /\
  (forall tool,
     mcp.catalog (api.service w) !! api.Query c "name" = Some tool ->
     mcp.Get (api.Query c "name") (api.service w)
     = (Ok tool, api.service w) /\
     Spec.responds s (api.getToolHandler s c) w
       {| api.Status := 200; api.Payload := api.ToolBody tool |}
       (api.service w) [api.CallGetTool (api.Query c "name")]
       Spec.anything).
Proof.
  pose proof (getToolHandler_named s c w Hs Hq) as Hrun.
  cbn [api.GetTool mcp.service] in Hrun. split.
  - intros Habsent. rewrite (Get_absent _ _ Habsent) in Hrun.
    eexists. split; [now apply Get_absent|]. split; [reflexivity|exact Hrun].
  - intros tool Hpresent. rewrite (Get_present _ _ _ Hpresent) in Hrun.
    split; [now apply Get_present|exact Hrun].
Qed.

Lemma getToolHandler_answers_tool_or_not_found_witness :
  exists e,
    mcp.Get "calc::sub" Spec.calcRegistry = (Err e, Spec.calcRegistry) /\
    mcp.kind e = mcp.NotFound /\
    Spec.responds Spec.sampleServer
      (@api.getToolHandler _ _ _ Spec.asciiLower _ _ Spec.sampleServer
         (Spec.queryRequest "name" "calc::sub"))
      (Spec.worldOf Spec.calcRegistry)
      {| api.Status := 500; api.Payload := api.ErrorBody (Error e) |}
      Spec.calcRegistry [api.CallGetTool "calc::sub"]
      (Spec.typedErrors (H := Spec.asciiLower) (Some e)).
Proof.
  refine (proj1 (@getToolHandler_answers_tool_or_not_found Spec.asciiLower
                   Spec.sampleServer (Spec.queryRequest "name" "calc::sub")
                   (Spec.worldOf Spec.calcRegistry) _ _) _);
    [reflexivity | discriminate | reflexivity].
Defined.

(** * Enabling and disabling *)

Section EnablementFacts.
Import mcp.

Lemma withEnabled_idempotent (enabled : bool) (t : Tool) :
  withEnabled enabled (withEnabled enabled t) = withEnabled enabled t.
Proof. reflexivity. Qed.

Lemma foldr_alter_lookup (f : Tool -> Tool) (names : list string)
    (cat : gmap string Tool) (q : string) :
  (forall t, f (f t) = f t) ->
  foldr (alter f) cat names !! q =
    if decide (q ∈ names) then f <$> cat !! q else cat !! q.
Proof.
  intros Hf. induction names as [|a names IH]; cbn [foldr].
  - rewrite decide_False; [done|]. apply not_elem_of_nil.
  - rewrite lookup_alter. destruct (decide (a = q)) as [->|Hne]; rewrite IH.
    + rewrite (decide_True (P := q ∈ q :: names))
        by (apply elem_of_cons; now left).
      destruct (decide (q ∈ names)); [|done].
      destruct (cat !! q); cbn; [now rewrite Hf|done].
    + destruct (decide (q ∈ names)) as [Hin|Hout].
      * rewrite decide_True; [done|]. apply elem_of_cons. now right.
      * rewrite decide_False; [done|].
        rewrite elem_of_cons. intros [->|?]; contradiction.
Qed.

Lemma resolve_in_catalog (entity : string) (reg : Registry) (q : string) :
  q ∈ resolve entity reg -> is_Some (catalog reg !! q).
Proof.
  unfold resolve. destruct (servers reg !! entity).
  - intros Hq. apply list_elem_of_fmap in Hq as ([q' t] & -> & Hqt).
    apply elem_of_map_to_list in Hqt.
    apply map_lookup_filter_Some in Hqt as [Hqt _]. now exists t.
  - destruct (catalog reg !! entity) as [t|] eqn:Ht.
    + intros Hq. apply list_elem_of_singleton in Hq as ->. now exists t.
    + intros Hq. now apply elem_of_nil in Hq.
Qed.

Lemma SetEnabled_unresolved (entity : string) (enabled : bool)
    (reg : Registry) :
  resolve entity reg = [] ->
  SetEnabled entity enabled reg = (failure Validation entity, reg).
Proof. unfold SetEnabled. now intros ->. Qed.

Lemma SetEnabled_resolved (entity : string) (enabled : bool)
    (reg : Registry) :
  resolve entity reg <> [] ->
  exists reg',
    SetEnabled entity enabled reg = (Ok (resolve entity reg), reg') /\
    servers reg' = servers reg /\
    upstream reg' = upstream reg /\
    (forall q, q ∈ resolve entity reg ->
               Enabled <$> catalog reg' !! q = Some enabled) /\
    (forall q, q ∉ resolve entity reg ->
               catalog reg' !! q = catalog reg !! q).
Proof.
  intros Hne. unfold SetEnabled.
  destruct (resolve entity reg) as [|q0 names] eqn:Hres; [done|].
  eexists. split; [reflexivity|]. cbn [synchronize servers catalog upstream].
  repeat split; intros q Hq;
    rewrite (foldr_alter_lookup _ _ _ _ (withEnabled_idempotent enabled)).
  - rewrite decide_True by exact Hq.
    destruct (resolve_in_catalog entity reg q) as [t Ht];
      [now rewrite Hres|].
    now rewrite Ht.
  - now rewrite decide_False by exact Hq.
Qed.

End EnablementFacts.

(** C5.  For every enable or disable request with a non-empty entity
    reference that resolves to at least one tool, the operation succeeds:
    the service sets the flag of exactly the tools the reference resolves
    to, and the response body holds exactly the list of their qualified
    names, as the service returned it; an empty entity reference yields a
    validation error (HTTP 400) without a call of the service, and a
    reference that resolves to no tool yields the validation error of the
    service, which the handler answers with (not with a success) and, with
    metrics, counts as a validation error. *)
Theorem enable_disable_answer_affected_tools `{UnicodeLower}
    (s : api.Server) (c : api.Context unit) (w : api.World mcp.Registry)
    (enabled : bool)
    (Hs : Spec.configured s = true) :
  let entity := api.Query c "entity" in
  let affected := mcp.resolve entity (api.service w) in
  let handler :=
    if enabled then api.enableToolsHandler s c
    else api.disableToolsHandler s c in
  let made :=
    if enabled then api.CallEnableTools entity
    else api.CallDisableTools entity in
  (entity = EmptyString ->
   Spec.responds s handler w
     {| api.Status := 400;
        api.Payload := api.ErrorBody "missing 'entity' query parameter" |}
     (api.service w) [] Spec.anything) /\
  (entity <> EmptyString -> affected <> [] ->
   exists reg,
     mcp.SetEnabled entity enabled (api.service w) = (Ok affected, reg) /\
     (forall q, q ∈ affected ->
                Enabled <$> mcp.catalog reg !! q = Some enabled) /\
     (forall q, q ∉ affected ->
                mcp.catalog reg !! q = mcp.catalog (api.service w) !! q) /\
     Spec.responds s handler w
       {| api.Status := 200;
          api.Payload := if enabled then api.EnabledBody affected
                         else api.DisabledBody affected |}
       reg [made] Spec.anything) /\
  (entity <> EmptyString -> affected = [] ->
   exists e,
     mcp.SetEnabled entity enabled (api.service w)
     = (Err e, api.service w) /\
     mcp.kind e = mcp.Validation /\
     Spec.responds s handler w
       {| api.Status := 500;
          api.Payload :=
            api.ErrorBody ((if enabled then "failed to enable tool(s): "
                            else "failed to disable tool(s): ")
                           +:+ Error e) |}
       (api.service w) [made]
       (Spec.countsError s metrics.ErrorTypeValidation)).
Proof.
  intros entity affected handler made. subst entity affected handler made.
  split; [|split].
  - intros Hq. destruct enabled;
      [now apply enableToolsHandler_unnamed
      |now apply disableToolsHandler_unnamed].
  - intros Hq Hres.
    destruct (SetEnabled_resolved _ enabled _ Hres)
      as (reg & Hset & _ & _ & Hon & Hrest).
    exists reg. repeat split; try assumption.
    destruct enabled.
    + pose proof (enableToolsHandler_named s c w Hs Hq) as Hrun.
      cbn [api.EnableTools mcp.service] in Hrun. now rewrite Hset in Hrun.
    + pose proof (disableToolsHandler_named s c w Hs Hq) as Hrun.
      cbn [api.DisableTools mcp.service] in Hrun. now rewrite Hset in Hrun.
  - intros Hq Hres.
    pose proof (SetEnabled_unresolved _ enabled _ Hres) as Hset.
    eexists. split; [exact Hset|]. split; [reflexivity|].
    destruct enabled.
    + pose proof (enableToolsHandler_named s c w Hs Hq) as Hrun.
      cbn [api.EnableTools mcp.service] in Hrun. now rewrite Hset in Hrun.
    + pose proof (disableToolsHandler_named s c w Hs Hq) as Hrun.
      cbn [api.DisableTools mcp.service] in Hrun. now rewrite Hset in Hrun.
Qed.

Lemma enable_disable_answer_affected_tools_witness :
  mcp.resolve "calc" Spec.calcRegistry = ["calc::add"] /\
  exists reg,
    mcp.SetEnabled "calc" false Spec.calcRegistry
    = (Ok (mcp.resolve "calc" Spec.calcRegistry), reg) /\
    (forall q, q ∈ mcp.resolve "calc" Spec.calcRegistry ->
               Enabled <$> mcp.catalog reg !! q = Some false) /\
    (forall q, q ∉ mcp.resolve "calc" Spec.calcRegistry ->
               mcp.catalog reg !! q = mcp.catalog Spec.calcRegistry !! q) /\
    Spec.responds Spec.sampleServer
      (@api.disableToolsHandler _ _ _ Spec.asciiLower _ _ Spec.sampleServer
         (Spec.queryRequest "entity" "calc"))
      (Spec.worldOf Spec.calcRegistry)
      {| api.Status := 200;
         api.Payload :=
           api.DisabledBody (mcp.resolve "calc" Spec.calcRegistry) |}
      reg [api.CallDisableTools "calc"] Spec.anything.
Proof.
  split; [vm_compute; reflexivity|].
  refine (proj1 (proj2 (@enable_disable_answer_affected_tools
                          Spec.asciiLower Spec.sampleServer
                          (Spec.queryRequest "entity" "calc")
                          (Spec.worldOf Spec.calcRegistry) false _)) _ _);
    [reflexivity | discriminate | vm_compute; discriminate].
Defined.

(** * The invariant of the Catalog *)

Section InvariantFacts.
Import mcp.

Lemma wellFormed_empty (dial : McpServer -> TransportClient) :
  wellFormed {| servers := ∅; catalog := ∅; surface := ∅;
                connect := dial; upstream := [] |}.
Proof. apply map_Forall_empty. Qed.

Lemma populate_lookup (server : string) (listing : list ToolListing)
    (cat : gmap string Tool) (q : string) (t : Tool) :
  populate server listing cat !! q = Some t ->
  (exists l, l ∈ listing /\ q = qualifiedName server (ListedName l) /\
             t = discovered server l) \/
  cat !! q = Some t.
Proof.
  induction listing as [|l listing IH]; cbn [populate foldr]; [now right|].
  rewrite lookup_insert_Some. intros [[<- <-]|[_ Hq]].
  - left. exists l. split; [apply elem_of_cons; now left|done].
  - destruct (IH Hq) as [(l' & Hl' & ? & ?)|?]; [left|now right].
    exists l'. split; [apply elem_of_cons; now right|done].
Qed.

Lemma wellFormed_Register (def : McpServer) (reg : Registry) :
  wellFormed reg -> wellFormed (Register def reg).2.
Proof.
  intros Hwf. unfold Register.
  destruct (negb (completeDefinition def)); [exact Hwf|].
  destruct (servers reg !! Name def); [exact Hwf|].
  destruct (discover _) as [listing|e]; [|exact Hwf].
  intros q t Hq. cbn [snd synchronize catalog servers called] in *.
  apply populate_lookup in Hq as [(l & _ & -> & ->)|Hq].
  - split; [reflexivity|]. cbn [discovered ToolServer].
    rewrite lookup_insert_eq. now eexists.
  - destruct (Hwf q t Hq) as [Hname Hserver]. split; [exact Hname|].
    rewrite lookup_insert_is_Some.
    destruct (decide (Name def = ToolServer t)); auto.
Qed.

Lemma wellFormed_SetEnabled (entity : string) (enabled : bool)
    (reg : Registry) :
  wellFormed reg -> wellFormed (SetEnabled entity enabled reg).2.
Proof.
  intros Hwf. unfold SetEnabled.
  destruct (resolve entity reg) as [|q0 names]; [exact Hwf|].
  intros q t Hq. cbn [snd synchronize catalog servers] in *.
  rewrite (foldr_alter_lookup _ _ _ _ (withEnabled_idempotent enabled)) in Hq.
  destruct (decide (q ∈ q0 :: names)); [|exact (Hwf q t Hq)].
  destruct (catalog reg !! q) as [t0|] eqn:Ht0; [|discriminate Hq].
  cbn in Hq. inversion Hq; subst t. exact (Hwf q t0 Ht0).
Qed.

Lemma wellFormed_Invoke (name : string) (args : gmap string any)
    (reg : Registry) :
  wellFormed reg -> wellFormed (Invoke name args reg).2.
Proof.
  intros Hwf. unfold Invoke.
  destruct (api.splitServerToolName name) as [[server localName] found].
  destruct (negb found); [exact Hwf|].
  destruct (catalog reg !! name) as [tool|]; [|exact Hwf].
  destruct (negb (Enabled tool)); [exact Hwf|].
  destruct (servers reg !! ToolServer tool); exact Hwf.
Qed.

(** After a mutation the surface advertises the enabled tools of the
    Catalog. *)
Lemma Register_synchronizes (def : McpServer) (reg reg' : Registry) :
  Register def reg = (None, reg') -> surface reg' = enabledTools (catalog reg').
Proof.
  unfold Register. destruct (negb (completeDefinition def)); [discriminate|].
  destruct (servers reg !! Name def); [discriminate|].
  destruct (discover _); [|discriminate]. intros Hr. now inversion Hr.
Qed.

End InvariantFacts.

(** * The version of the command line *)

Section VersionFacts.
Import GoStrings GoStringsMore.

Lemma normalizeVersion_cases (v : string) :
  (v = EmptyString /\ cmd.normalizeVersion v = EmptyString) \/
  (exists c rest, v = String c rest /\ isDigit c = true /\
     cmd.normalizeVersion v = String "v" v) \/
  (exists c rest, v = String c rest /\ isDigit c = false /\
     cmd.normalizeVersion v = v).
Proof.
  destruct v as [|c rest]; [now left|right].
  unfold cmd.normalizeVersion. destruct (isDigit c) eqn:Hd.
  - left. now exists c, rest.
  - right. now exists c, rest.
Qed.

Lemma normalizeVersion_fixed (v : string) :
  cmd.normalizeVersion (cmd.normalizeVersion v) = cmd.normalizeVersion v.
Proof.
  destruct (normalizeVersion_cases v)
    as [[-> ->]|[(c & rest & -> & Hd & ->)|(c & rest & -> & Hd & ->)]];
    [reflexivity|reflexivity|].
  unfold cmd.normalizeVersion. now rewrite Hd.
Qed.

Lemma normalizeVersion_head (v : string) (c : ascii) (rest : string) :
  cmd.normalizeVersion v = String c rest -> isDigit c = false.
Proof.
  destruct (normalizeVersion_cases v)
    as [[-> ->]|[(d & r & -> & Hd & ->)|(d & r & -> & Hd & ->)]].
  - discriminate.
  - now intros [= <- _].
  - now intros [= <- _].
Qed.

Lemma normalizeVersion_empty (v : string) :
  cmd.normalizeVersion v = EmptyString <-> v = EmptyString.
Proof.
  destruct (normalizeVersion_cases v)
    as [[-> ->]|[(d & r & -> & Hd & ->)|(d & r & -> & Hd & ->)]];
    split; (reflexivity || discriminate).
Qed.

End VersionFacts.

(** [normalizeVersion] gives a version in normal form: the result is
    the version itself or the version after the letter v, it is empty
    only for the empty version, it never starts with a digit, and
    normalising it again changes nothing. *)
Theorem normalizeVersion_is_a_normal_form (v : string) :
  let n := cmd.normalizeVersion v in
  (n = v \/ n = String "v" v) /\
  (n = EmptyString <-> v = EmptyString) /\
  (forall c rest, n = String c rest -> GoStringsMore.isDigit c = false) /\
  cmd.normalizeVersion n = n.
Proof.
  cbn zeta. repeat split.
  - destruct (normalizeVersion_cases v)
      as [[-> ->]|[(d & r & -> & Hd & ->)|(d & r & -> & Hd & ->)]]; auto.
  - apply normalizeVersion_empty.
  - apply normalizeVersion_empty.
  - intros c rest. apply normalizeVersion_head.
  - apply normalizeVersion_fixed.
Qed.

Section GetVersionFacts.
Import GoStrings GoStringsMore.

Lemma GetVersion_cases (Version : string) (buildInfo : option cmd.BuildInfo) :
  (Version <> EmptyString /\ Version <> "dev" /\
   cmd.GetVersion Version buildInfo = cmd.normalizeVersion Version) \/
  ((Version = EmptyString \/ Version = "dev") /\
   (cmd.GetVersion Version buildInfo = "dev" \/
    exists info, buildInfo = Some info /\
      cmd.MainVersion info <> EmptyString /\
      cmd.GetVersion Version buildInfo =
        cmd.normalizeVersion (cmd.MainVersion info))).
Proof.
  assert (forall V : string,
    let r := cmd.GetVersion V buildInfo in
    bool_decide (V <> EmptyString) && bool_decide (V <> "dev") = false ->
    r = "dev" \/
    exists info, buildInfo = Some info /\
      cmd.MainVersion info <> EmptyString /\
      r = cmd.normalizeVersion (cmd.MainVersion info)) as Hinfo.
  { intros V r Hv. subst r. unfold cmd.GetVersion. rewrite Hv.
    destruct buildInfo as [info|]; [|now left].
    destruct (bool_decide (cmd.MainVersion info <> EmptyString)) eqn:Hi;
      cbn [andb]; [|now left].
    apply bool_decide_eq_true in Hi.
    destruct (bool_decide (cmd.MainVersion info <> "(devel)"));
      [|now left].
    right. exists info. auto. }
  destruct (bool_decide (Version <> EmptyString)) eqn:H1;
    [destruct (bool_decide (Version <> "dev")) eqn:H2|].
  - left. unfold cmd.GetVersion. rewrite H1, H2.
    apply bool_decide_eq_true in H1, H2. auto.
  - right. split; [|apply Hinfo; now rewrite H1, H2].
    apply bool_decide_eq_false in H2.
    right. destruct (decide (Version = "dev")); tauto.
  - right. split; [|apply Hinfo; now rewrite H1].
    apply bool_decide_eq_false in H1.
    left. destruct (decide (Version = EmptyString)); tauto.
Qed.

End GetVersionFacts.

(** [GetVersion] never returns the empty string or a string that starts
    with a digit, and what it returns is in normal form.  A [Version]
    set at build time to anything but [dev] decides the result alone:
    the build information is not looked at. *)
Theorem GetVersion_is_named_and_normal
    (Version : string) (buildInfo : option cmd.BuildInfo) :
  let r := cmd.GetVersion Version buildInfo in
  r <> EmptyString /\
  (forall c rest, r = String c rest -> GoStringsMore.isDigit c = false) /\
  cmd.normalizeVersion r = r /\
  (Version <> EmptyString -> Version <> "dev" ->
   forall other,
     cmd.GetVersion Version other = cmd.normalizeVersion Version).
Proof.
  cbn zeta.
  destruct (GetVersion_cases Version buildInfo)
    as [(H1 & H2 & ->)|[_ [->|(info & _ & Hi & ->)]]].
  - repeat split; auto using normalizeVersion_fixed.
    + now rewrite normalizeVersion_empty.
    + intros c rest. apply normalizeVersion_head.
    + intros _ _ other.
      destruct (GetVersion_cases Version other) as [(_ & _ & ->)|[[?|?] _]];
        congruence.
  - repeat split; [discriminate|now intros c rest [= <- _]|].
    intros H1 H2 other.
    destruct (GetVersion_cases Version other) as [(_ & _ & ->)|[[?|?] _]];
      congruence.
  - repeat split; auto using normalizeVersion_fixed.
    + now rewrite normalizeVersion_empty.
    + intros c rest. apply normalizeVersion_head.
    + intros H1 H2 other.
      destruct (GetVersion_cases Version other) as [(_ & _ & ->)|[[?|?] _]];
        congruence.
Qed.

(** * The configuration of metrics *)

Section ConfigFacts.

Lemma LoadConfigFromEnv_ext (env env' : gmap string string) :
  otel.Getenv env "SERVER_MODE" = otel.Getenv env' "SERVER_MODE" ->
  otel.Getenv env "OTEL_ENABLED" = otel.Getenv env' "OTEL_ENABLED" ->
  otel.Getenv env "METRICS_PATH" = otel.Getenv env' "METRICS_PATH" ->
  otel.LoadConfigFromEnv env = otel.LoadConfigFromEnv env'.
Proof. unfold otel.LoadConfigFromEnv. now intros -> -> ->. Qed.

Lemma Getenv_empty_value (env : gmap string string) (k k' : string) :
  otel.Getenv (<[k := EmptyString]> env) k' = otel.Getenv (delete k env) k'.
Proof.
  unfold otel.Getenv. destruct (decide (k = k')) as [->|Hk].
  - now rewrite lookup_insert_eq, lookup_delete_eq.
  - now rewrite lookup_insert_ne, lookup_delete_ne.
Qed.

End ConfigFacts.

(** Whether [LoadConfigFromEnv] enables metrics: [OTEL_ENABLED] decides
    when it is [true], [1], [false] or [0]; any other value, set or not,
    leaves the decision to [SERVER_MODE], which enables metrics exactly
    when it is [production]. *)
Theorem LoadConfigFromEnv_enables (env : gmap string string) :
  otel.Enabled (otel.LoadConfigFromEnv env) =
    let enabled := otel.Getenv env "OTEL_ENABLED" in
    if bool_decide (enabled = "true") || bool_decide (enabled = "1")
    then true
    else if bool_decide (enabled = "false") || bool_decide (enabled = "0")
    then false
    else bool_decide (otel.Getenv env "SERVER_MODE" = "production").
Proof.
  unfold otel.LoadConfigFromEnv. cbn zeta.
  generalize (otel.Getenv env "OTEL_ENABLED") as enabled.
  generalize (otel.Getenv env "SERVER_MODE") as serverMode.
  generalize (otel.Getenv env "METRICS_PATH") as metricsPath.
  intros metricsPath serverMode enabled.
  repeat case_bool_decide; subst; cbn; congruence.
Qed.

(** What [LoadConfigFromEnv] leaves of the defaults: the server mode is
    [SERVER_MODE], or [development] when that is unset or empty; the
    path is [METRICS_PATH], or [/metrics]; neither is ever empty; and a
    variable that is set to the empty string counts as one that is not
    set. *)
Theorem LoadConfigFromEnv_keeps_defaults (env : gmap string string) :
  let config := otel.LoadConfigFromEnv env in
  otel.ServerMode config =
    (if decide (otel.Getenv env "SERVER_MODE" = EmptyString)
     then otel.ServerMode otel.DefaultConfig
     else otel.Getenv env "SERVER_MODE") /\
  otel.MetricsPath config =
    (if decide (otel.Getenv env "METRICS_PATH" = EmptyString)
     then otel.MetricsPath otel.DefaultConfig
     else otel.Getenv env "METRICS_PATH") /\
  otel.ServerMode config <> EmptyString /\
  otel.MetricsPath config <> EmptyString /\
  (forall k, otel.LoadConfigFromEnv (<[k := EmptyString]> env) =
             otel.LoadConfigFromEnv (delete k env)).
Proof.
  cbn zeta. split; [|split; [|split; [|split]]].
  5: { intros k. apply LoadConfigFromEnv_ext; apply Getenv_empty_value. }
  all: unfold otel.LoadConfigFromEnv; cbn zeta;
    generalize (otel.Getenv env "OTEL_ENABLED") as enabled;
    generalize (otel.Getenv env "SERVER_MODE") as serverMode;
    generalize (otel.Getenv env "METRICS_PATH") as metricsPath;
    intros metricsPath serverMode enabled;
    repeat case_bool_decide; repeat case_decide; subst; cbn;
    congruence.
Qed.

(** * The instruments *)

Section InstrumentFacts.
Import metrics.

Lemma created_Ok {A} (r : result (option Instrument) errorString)
    (message : string) (k : option Instrument -> result A errorString)
    (a : A) :
  otel.created r message k = Ok a -> exists i, r = Ok i /\ k i = Ok a.
Proof. destruct r as [i|e]; [|discriminate]. intros Hk. now exists i. Qed.

Lemma created_Err {A} (r : result (option Instrument) errorString)
    (message : string) (k : option Instrument -> result A errorString)
    (e : errorString) :
  otel.created r message k = Err e ->
  (exists e', r = Err e' /\ e = otel.wrap message e') \/
  (exists i, r = Ok i /\ k i = Err e).
Proof.
  destruct r as [i|e']; cbn.
  - intros Hk. right. now exists i.
  - intros [= <-]. left. now exists e'.
Qed.

Lemma honest_notNil (meter : otel.Meter) (name : string)
    (i : option Instrument) :
  Terms.honest meter ->
  otel.Int64Counter meter name = Ok i \/
  otel.Float64Histogram meter name = Ok i \/
  otel.Int64UpDownCounter meter name = Ok i ->
  api.notNil i = true.
Proof.
  intros Hm Hi. destruct i as [i|]; [reflexivity|].
  destruct (Hm name) as (H1 & H2 & H3). tauto.
Qed.

(** The bundle that [NewMCPMetrics] returns holds, field by field, what
    the meter gave. *)
Lemma NewMCPMetrics_Ok (meter : otel.Meter) (m : MCPMetrics) :
  otel.NewMCPMetrics (Some meter) = Ok m ->
  otel.Int64Counter meter "mcpjungle_tool_invocations_total"
    = Ok (ToolInvocations m) /\
  otel.Float64Histogram meter "mcpjungle_tool_latency_seconds"
    = Ok (ToolLatency m) /\
  otel.Int64Counter meter "mcpjungle_tool_errors_total"
    = Ok (ToolErrors m) /\
  otel.Int64Counter meter "mcpjungle_client_requests_total"
    = Ok (RequestsTotal m) /\
  otel.Float64Histogram meter "mcpjungle_request_duration_seconds"
    = Ok (RequestLatency m) /\
  otel.Int64Counter meter "mcpjungle_request_errors_total"
    = Ok (RequestErrors m) /\
  otel.Int64UpDownCounter meter "mcpjungle_connected_sessions"
    = Ok (Sessions m) /\
  otel.Int64Counter meter "mcpjungle_server_registrations_total"
    = Ok (ServerRegistrations m) /\
  otel.Int64Counter meter "mcpjungle_server_deregistrations_total"
    = Ok (ServerDeregistrations m) /\
  otel.Int64Counter meter "mcpjungle_server_transport_total"
    = Ok (ServerTransport m) /\
  otel.Int64UpDownCounter meter "mcpjungle_tool_availability"
    = Ok (ToolAvailability m) /\
  otel.Int64Counter meter "mcpjungle_tool_discovery_total"
    = Ok (ToolDiscovery m) /\
  otel.Int64Counter meter "mcpjungle_errors_by_type_total"
    = Ok (ErrorsByType m).
Proof.
  unfold otel.NewMCPMetrics. intros Hm.
  repeat (apply created_Ok in Hm; destruct Hm as (? & ? & Hm)).
  injection Hm as <-. cbn. repeat split; assumption.
Qed.

Lemma NewMCPMetrics_instruments (meter : otel.Meter) (m : MCPMetrics) :
  Terms.honest meter ->
  otel.NewMCPMetrics (Some meter) = Ok m -> Spec.instrumented m = true.
Proof.
  intros Hh Hm. apply NewMCPMetrics_Ok in Hm.
  destruct Hm as (H1 & H2 & H3 & H4 & H5 & H6 & H7 & H8 & H9 & H10 & H11
                  & H12 & H13).
  unfold Spec.instrumented.
  repeat (apply andb_true_intro; split);
    eapply honest_notNil; eauto.
Qed.

End InstrumentFacts.

Section ConstructorFacts.
Import GoStrings metrics.

Lemma HasPrefix_append (a b p : string) :
  HasPrefix a p = true -> HasPrefix (a +:+ b) p = true.
Proof.
  rewrite !HasPrefix_spec. intros [t ->]. exists (t +:+ b).
  apply append_assoc.
Qed.

Lemma NewMCPMetrics_Err (meter : otel.Meter) (e : errorString) :
  otel.NewMCPMetrics (Some meter) = Err e ->
  forallb Terms.isOk (Terms.requested meter) = false /\
  HasPrefix (Error e) "failed to create " = true.
Proof.
  unfold otel.NewMCPMetrics. intros Hm.
  repeat (apply created_Err in Hm;
          destruct Hm as [(e' & Hr & ->)|(? & ? & Hm)];
          [split;
           [unfold Terms.requested; cbn; rewrite Hr; cbn;
            now rewrite ?andb_false_r
           |now apply HasPrefix_append]|]).
  discriminate.
Qed.

End ConstructorFacts.

(** The bundle that [NewMCPMetrics] returns has every instrument
    present, when the meter returns no nil instrument without an
    error. *)
Theorem NewMCPMetrics_bundle_is_instrumented
    (meter : otel.Meter) (m : metrics.MCPMetrics)
    (Hmeter : Terms.honest meter)
    (Hm : otel.NewMCPMetrics (Some meter) = Ok m) :
  Spec.instrumented m = true /\
  Spec.configured {| api.s_metrics := Some m |} = true.
Proof.
  split; now apply NewMCPMetrics_instruments with meter.
Qed.

Lemma NewMCPMetrics_bundle_is_instrumented_witness :
  Spec.instrumented Spec.sampleMetrics = true /\
  Spec.configured {| api.s_metrics := Some Spec.sampleMetrics |} = true.
Proof.
  apply (NewMCPMetrics_bundle_is_instrumented Terms.sampleMeter).
  - intros name. repeat split; discriminate.
  - reflexivity.
Defined.

(** [NewMCPMetrics] returns a bundle or an error, never both halves: a
    bundle exactly when there is a meter and each of the thirteen
    instruments was created; otherwise an error that says that the
    meter is nil or which instrument failed. *)
Theorem NewMCPMetrics_all_or_nothing (meter : option otel.Meter) :
  match otel.NewMCPMetrics meter with
  | Ok m =>
      exists mt, meter = Some mt /\
        forallb Terms.isOk (Terms.requested mt) = true
  | Err e =>
      (meter = None /\ Error e = "meter cannot be nil") \/
      (exists mt, meter = Some mt /\
         forallb Terms.isOk (Terms.requested mt) = false /\
         GoStrings.HasPrefix (Error e) "failed to create " = true)
  end.
Proof.
  destruct meter as [mt|]; [|now left].
  destruct (otel.NewMCPMetrics (Some mt)) as [m|e] eqn:Hm.
  - exists mt. split; [reflexivity|].
    apply NewMCPMetrics_Ok in Hm.
    destruct Hm as (H1 & H2 & H3 & H4 & H5 & H6 & H7 & H8 & H9 & H10 & H11
                    & H12 & H13).
    unfold Terms.requested. cbn.
    now rewrite H1, H2, H3, H4, H5, H6, H7, H8, H9, H10, H11, H12, H13.
  - right. exists mt. split; [reflexivity|].
    now apply NewMCPMetrics_Err.
Qed.

(** * From the environment to the metrics of the server *)

Section InitFacts.

Lemma InitOTel_cases `{otel.OTel} (cfg : otel.Config) :
  match otel.InitOTel (Some cfg) with
  | Returned (Ok p) =>
      otel.p_Config p = Some cfg /\
      otel.IsEnabled p = otel.Enabled cfg /\
      (is_Some (otel.p_Meter p) <-> otel.Enabled cfg = true) /\
      (is_Some (otel.p_MeterProvider p) <-> otel.Enabled cfg = true) /\
      (is_Some (otel.p_Handler p) <-> otel.Enabled cfg = true)
  | Returned (Err e) =>
      otel.Enabled cfg = true /\
      GoStrings.HasPrefix (Error e) "failed to create " = true
  | Panicked => False
  end.
Proof.
  unfold otel.InitOTel. destruct (otel.Enabled cfg) eqn:He; cbn [negb].
  - destruct (otel.resourceNew _ _) as [res|e].
    + destruct otel.prometheusNew as [exporter|e].
      * unfold otel.IsEnabled. cbn. rewrite He.
        repeat split; eauto.
      * split; [reflexivity|]. now apply HasPrefix_append.
    + split; [reflexivity|]. now apply HasPrefix_append.
  - unfold otel.IsEnabled. cbn. rewrite He.
    repeat split; try discriminate; intros [? [=]].
Qed.

End InitFacts.

(** [InitOTel] on a configuration: it does not panic; when metrics are
    disabled it cannot fail; the providers it returns keep the
    configuration, [IsEnabled] answers what the configuration says, and
    the meter, the meter provider and the handler are there exactly when
    metrics are enabled. *)
Theorem InitOTel_providers_follow_config `{otel.OTel} (cfg : otel.Config) :
  match otel.InitOTel (Some cfg) with
  | Returned (Ok p) =>
      otel.p_Config p = Some cfg /\
      otel.IsEnabled p = otel.Enabled cfg /\
      (is_Some (otel.p_Meter p) <-> otel.Enabled cfg = true) /\
      (is_Some (otel.p_MeterProvider p) <-> otel.Enabled cfg = true) /\
      (is_Some (otel.p_Handler p) <-> otel.Enabled cfg = true)
  | Returned (Err e) =>
      otel.Enabled cfg = true /\
      GoStrings.HasPrefix (Error e) "failed to create " = true
  | Panicked => False
  end.
Proof. apply InitOTel_cases. Qed.

Section ServerFacts.
Context `{apiRest.Gin}.

(** [setupRouter] panics or returns an engine. *)
Lemma setupRouter_cases (p : option otel.Providers) (s : api.Server) :
  apiRest.setupRouter p s = Panicked \/
  exists r, apiRest.setupRouter p s = Returned (Ok r).
Proof.
  unfold apiRest.setupRouter.
  destruct (apiRest.GET "/health" _ _) as [r|]; [|now left].
  destruct p as [p|]; [destruct (otel.IsEnabled p)|];
    try destruct (apiRest.GET "/metrics" _ _) as [r'|]; try (now left);
    destruct (apiRest.apiRoutes s _) as [r''|]; try (now left);
    right; eexists; reflexivity.
Qed.

Lemma NewServer_cases (opts : apiRest.ServerOptions) :
  (exists e, apiRest.NewServer (Some opts) = Returned (Err e) /\
     exists meter,
       apiRest.OtelProviders opts ≫= otel.p_Meter = Some meter /\
       exists e', otel.NewMCPMetrics (Some meter) = Err e' /\
         e = otel.wrap "failed to create MCP metrics" e') \/
  (exists s,
     (apiRest.OtelProviders opts ≫= otel.p_Meter = None /\
      s = {| api.s_metrics := None |} \/
      exists meter m,
        apiRest.OtelProviders opts ≫= otel.p_Meter = Some meter /\
        otel.NewMCPMetrics (Some meter) = Ok m /\
        s = {| api.s_metrics := Some m |}) /\
     (apiRest.setupRouter (apiRest.OtelProviders opts) s = Panicked /\
      apiRest.NewServer (Some opts) = Panicked \/
      exists r,
        apiRest.setupRouter (apiRest.OtelProviders opts) s
        = Returned (Ok r) /\
        apiRest.NewServer (Some opts) = Returned (Ok s))).
Proof.
  unfold apiRest.NewServer.
  destruct (apiRest.OtelProviders opts ≫= otel.p_Meter) as [meter|].
  - destruct (otel.NewMCPMetrics (Some meter)) as [m|e] eqn:Hm.
    + right. exists {| api.s_metrics := Some m |}.
      split; [right; now exists meter, m|].
      destruct (setupRouter_cases (apiRest.OtelProviders opts)
                  {| api.s_metrics := Some m |}) as [->|[r ->]]; eauto.
    + left. eexists. split; [reflexivity|]. exists meter.
      split; [reflexivity|]. now exists e.
  - right. exists {| api.s_metrics := None |}. split; [now left|].
    destruct (setupRouter_cases (apiRest.OtelProviders opts)
                {| api.s_metrics := None |}) as [->|[r ->]]; eauto.
Qed.

End ServerFacts.

Section NewServerFacts.

Lemma NewServer_configured `{apiRest.Gin}
    (opts : apiRest.ServerOptions)
    (Hmeter : forall meter,
       apiRest.OtelProviders opts ≫= otel.p_Meter = Some meter ->
       Terms.honest meter) :
  match apiRest.NewServer (Some opts) with
  | Returned (Ok s) =>
      Spec.configured s = true /\
      (api.s_metrics s = None <->
       apiRest.OtelProviders opts ≫= otel.p_Meter = None) /\
      exists r,
        apiRest.setupRouter (apiRest.OtelProviders opts) s
        = Returned (Ok r)
  | Returned (Err e) =>
      apiRest.OtelProviders opts ≫= otel.p_Meter <> None /\
      GoStrings.HasPrefix (Error e) "failed to create MCP metrics: " = true
  | Panicked =>
      exists s,
        apiRest.setupRouter (apiRest.OtelProviders opts) s = Panicked
  end.
Proof.
  destruct (NewServer_cases opts)
    as [(e & -> & meter & Hp & e' & He & ->)
       |(s & Hs & [[Hr ->]|(r & Hr & ->)])].
  - split; [now rewrite Hp|].
    change (Error (otel.wrap "failed to create MCP metrics" e'))
      with ("failed to create MCP metrics" +:+ ": " +:+ Error e').
    rewrite <- append_assoc. now apply HasPrefix_append.
  - now exists s.
  - destruct Hs as [[Hn ->]|(meter & m & Hp & Hm & ->)].
    + split; [reflexivity|]. split; [now split|]. now exists r.
    + split.
      { now apply (NewMCPMetrics_instruments meter), Hm; apply Hmeter. }
      split; [|now exists r]. rewrite Hp. cbn. split; discriminate.
Qed.

End NewServerFacts.

(** The metrics of a server that [NewServer] returns are configured in
    the sense that the statements on the handlers assume: there are
    none, exactly when the options bring no meter, or every instrument
    is present; and [setupRouter] has returned a router for this
    server.  [NewServer] fails only with a meter, when the bundle of
    metrics cannot be created: [setupRouter] returns no error.  On
    options that are not nil it panics only when [setupRouter] does,
    on a route that gin refuses. *)
Theorem NewServer_metrics_are_configured `{apiRest.Gin}
    (opts : apiRest.ServerOptions)
    (Hmeter : forall meter,
       apiRest.OtelProviders opts ≫= otel.p_Meter = Some meter ->
       Terms.honest meter) :
  match apiRest.NewServer (Some opts) with
  | Returned (Ok s) =>
      Spec.configured s = true /\
      (api.s_metrics s = None <->
       apiRest.OtelProviders opts ≫= otel.p_Meter = None) /\
      exists r,
        apiRest.setupRouter (apiRest.OtelProviders opts) s
        = Returned (Ok r)
  | Returned (Err e) =>
      apiRest.OtelProviders opts ≫= otel.p_Meter <> None /\
      GoStrings.HasPrefix (Error e) "failed to create MCP metrics: " = true
  | Panicked =>
      exists s,
        apiRest.setupRouter (apiRest.OtelProviders opts) s = Panicked
  end.
Proof. now apply NewServer_configured. Qed.

Lemma NewServer_metrics_are_configured_witness :
  let opts :=
    {| apiRest.OtelProviders :=
         Some (@otel.Build_Providers Terms.sampleOTel
                 (Some otel.DefaultConfig) None
                 (Some Terms.sampleMeter) None) |} in
  match @apiRest.NewServer Terms.sampleOTel Terms.sampleGin (Some opts) with
  | Returned (Ok s) =>
      Spec.configured s = true /\
      (api.s_metrics s = None <-> Some Terms.sampleMeter = None) /\
      exists r,
        @apiRest.setupRouter Terms.sampleOTel Terms.sampleGin
          (apiRest.OtelProviders opts) s
        = Returned (Ok r)
  | Returned (Err e) =>
      Some Terms.sampleMeter <> None /\
      GoStrings.HasPrefix (Error e) "failed to create MCP metrics: " = true
  | Panicked =>
      exists s,
        @apiRest.setupRouter Terms.sampleOTel Terms.sampleGin
          (apiRest.OtelProviders opts) s = Panicked
  end.
Proof.
  intros opts.
  apply (@NewServer_metrics_are_configured Terms.sampleOTel Terms.sampleGin
           opts).
  intros meter [= <-] name. repeat split; discriminate.
Defined.

(** From the environment to the handlers: when [InitOTel] on the
    configuration read from the environment and [NewServer] on its
    providers both succeed, the server has metrics exactly when the
    environment enables them, and its metrics are configured. *)
Theorem server_metrics_follow_environment `{apiRest.Gin}
    (env : gmap string string) (p : otel.Providers) (s : api.Server)
    (Hsdk : Terms.honestSDK)
    (Hp : otel.InitOTel (Some (otel.LoadConfigFromEnv env))
          = Returned (Ok p))
    (Hs : apiRest.NewServer (Some {| apiRest.OtelProviders := Some p |})
          = Returned (Ok s)) :
  Spec.configured s = true /\
  (api.s_metrics s <> None <->
   otel.Enabled (otel.LoadConfigFromEnv env) = true).
Proof.
  pose proof (NewServer_configured
                {| apiRest.OtelProviders := Some p |}) as Hn.
  rewrite Hs in Hn.
  pose proof (InitOTel_cases (otel.LoadConfigFromEnv env)) as Hi.
  rewrite Hp in Hi. destruct Hi as (_ & _ & Hmeter & _).
  enough (forall meter, otel.p_Meter p = Some meter -> Terms.honest meter)
    as Hh.
  { destruct (Hn Hh) as (Hc & Hnone & _). split; [exact Hc|].
    rewrite Hnone, <- Hmeter. cbn.
    destruct (otel.p_Meter p); split; try done; eauto. }
  intros meter Hm. revert Hp. unfold otel.InitOTel.
  destruct (negb _).
  { intros [= <-]. discriminate. }
  destruct (otel.resourceNew _ _) as [res|]; [|discriminate].
  destruct otel.prometheusNew as [exporter|]; [|discriminate].
  intros [= <-]. cbn in Hm. injection Hm as <-. apply Hsdk.
Qed.

Lemma server_metrics_follow_environment_witness :
  let env : gmap string string := {["SERVER_MODE" := "production"]} in
  Spec.configured Spec.sampleServer = true /\
  (api.s_metrics Spec.sampleServer <> None <->
   otel.Enabled (otel.LoadConfigFromEnv env) = true).
Proof.
  intros env.
  apply (@server_metrics_follow_environment Terms.sampleOTel
           Terms.sampleGin env
           (@otel.Build_Providers Terms.sampleOTel
              (Some (otel.LoadConfigFromEnv env))
              (Some (@otel.NewMeterProvider Terms.sampleOTel tt tt))
              (Some Terms.sampleMeter)
              (Some (@otel.promhttpHandler Terms.sampleOTel)))).
  - intros exporter res name n. repeat split; discriminate.
  - reflexivity.
  - reflexivity.
Defined.

(** * The order of the sub-commands *)

Section CompareFacts.
Import GoStringsMore.

Lemma Ascii_compare_refl (c : ascii) : Ascii.compare c c = Eq.
Proof. unfold Ascii.compare. apply N.compare_refl. Qed.

Lemma Ascii_compare_lt_trans (a b c : ascii) :
  Ascii.compare a b = Lt -> Ascii.compare b c = Lt ->
  Ascii.compare a c = Lt.
Proof.
  unfold Ascii.compare. rewrite !N.compare_lt_iff. lia.
Qed.

Lemma compare_refl (s : string) : String.compare s s = Eq.
Proof.
  induction s as [|c s IH]; [reflexivity|].
  cbn. now rewrite Ascii_compare_refl.
Qed.

Lemma compare_lt_trans (s t u : string) :
  String.compare s t = Lt -> String.compare t u = Lt ->
  String.compare s u = Lt.
Proof.
  revert t u. induction s as [|a s IH]; intros [|b t] [|c u]; cbn;
    try congruence.
  destruct (Ascii.compare a b) eqn:Hab; try discriminate;
    destruct (Ascii.compare b c) eqn:Hbc; try discriminate.
  - apply Ascii.compare_eq_iff in Hab, Hbc. subst.
    rewrite Ascii_compare_refl. apply IH.
  - apply Ascii.compare_eq_iff in Hab. subst. now rewrite Hbc.
  - apply Ascii.compare_eq_iff in Hbc. subst. now rewrite Hab.
  - now rewrite (Ascii_compare_lt_trans a b c).
Qed.

Lemma lt_irrefl (s : string) : lt s s = false.
Proof. unfold lt, String.ltb. now rewrite compare_refl. Qed.

Lemma lt_trans (s t u : string) :
  lt s t = true -> lt t u = true -> lt s u = true.
Proof.
  unfold lt, String.ltb.
  destruct (String.compare s t) eqn:Hst; try discriminate.
  destruct (String.compare t u) eqn:Htu; try discriminate.
  now rewrite (compare_lt_trans s t u).
Qed.

(** [lt s t = false] says that [t] is at most [s]. *)
Lemma lt_false (s t : string) :
  lt s t = false <-> t = s \/ lt t s = true.
Proof.
  unfold lt, String.ltb. rewrite (String.compare_antisym s t).
  destruct (String.compare t s) eqn:Hts; cbn.
  - apply String.compare_eq_iff in Hts. tauto.
  - tauto.
  - split; [discriminate|]. intros [->|?]; [|discriminate].
    now rewrite compare_refl in Hts.
Qed.

Lemma lt_negative_trans (s t u : string) :
  lt s t = false -> lt t u = false -> lt s u = false.
Proof.
  rewrite !lt_false. intros [->|Hts] [->|Hut]; auto.
  right. now apply lt_trans with t.
Qed.

End CompareFacts.

Section LessFacts.
Import GoStringsMore.

(** [less] compares the keys of the commands: the order of an ordered
    command, the name of an unordered one, ordered ones first. *)
Lemma less_unfold (a b : cmd.Command) :
  cmd.less a b =
    if decide (cmd.getOrderValue a = -1) then
      if decide (cmd.getOrderValue b = -1)
      then lt (cmd.Name a) (cmd.Name b) else false
    else
      if decide (cmd.getOrderValue b = -1) then true
      else cmd.getOrderValue a <? cmd.getOrderValue b.
Proof.
  unfold cmd.less, cmd.unorderedCommand.
  repeat case_bool_decide; repeat case_decide; try reflexivity;
    contradiction.
Qed.

Lemma less_irrefl (a : cmd.Command) : cmd.less a a = false.
Proof.
  rewrite less_unfold. case_decide; [apply lt_irrefl|apply Z.ltb_irrefl].
Qed.

Lemma less_trans (a b c : cmd.Command) :
  cmd.less a b = true -> cmd.less b c = true -> cmd.less a c = true.
Proof.
  rewrite !less_unfold. repeat case_decide; try congruence.
  - apply lt_trans.
  - rewrite !Z.ltb_lt. lia.
Qed.

Lemma less_negative_trans (a b c : cmd.Command) :
  cmd.less a b = false -> cmd.less b c = false -> cmd.less a c = false.
Proof.
  rewrite !less_unfold. repeat case_decide; try congruence.
  - apply lt_negative_trans.
  - rewrite !Z.ltb_ge. lia.
Qed.

Lemma less_transitiveOrdering : Terms.transitiveOrdering cmd.less.
Proof.
  split; [exact less_irrefl|].
  split; [exact less_trans|exact less_negative_trans].
Qed.

End LessFacts.

(** The function [less] of [sortCommandsByOrder] is a transitive
    ordering, as [sort.Slice] asks: it sorts no command before itself,
    it is transitive, and so is its complement.  An ordered command
    sorts before every unordered one, and a command whose order
    annotation is no integer, or the integer -1, is an unordered one. *)
Theorem less_is_a_transitive_ordering :
  Terms.transitiveOrdering cmd.less /\
  (forall a b,
     cmd.getOrderValue a <> cmd.unorderedCommand ->
     cmd.getOrderValue b = cmd.unorderedCommand ->
     cmd.less a b = true /\ cmd.less b a = false) /\
  (forall c annotations orderStr,
     cmd.Annotations c = Some annotations ->
     annotations !! "order" = Some orderStr ->
     strconv.Atoi orderStr = None \/ strconv.Atoi orderStr = Some (-1) ->
     cmd.getOrderValue c = cmd.unorderedCommand).
Proof.
  split; [exact less_transitiveOrdering|]. split.
  - intros a b Ha Hb. rewrite !less_unfold.
    unfold cmd.unorderedCommand in *. now repeat case_decide.
  - intros c annotations orderStr Hc Ho Hi. unfold cmd.getOrderValue.
    rewrite Hc, Ho. now destruct Hi as [->| ->].
Qed.

Section SortFacts.
Import GoStringsMore.

Lemma StronglySorted_lookup {A} (R : relation A) (l : list A)
    (i j : nat) (a b : A) :
  StronglySorted R l -> (i < j)%nat ->
  l !! i = Some a -> l !! j = Some b -> R a b.
Proof.
  intros Hl Hij Ha Hb. rewrite <- (list.take_drop j l) in Hl.
  apply (StronglySorted_app_1_elem_of R _ _ a b Hl).
  - apply list_elem_of_lookup. exists i. now rewrite lookup_take_lt.
  - apply list_elem_of_lookup. exists 0%nat.
    now rewrite lookup_drop, Nat.add_0_r.
Qed.

(** A merge sort keeps to what [sort.Slice] documents. *)
Lemma mergeSort_sortsSlices : @Terms.sortsSlices Terms.mergeSort.
Proof.
  intros A less x (Hirr & Htr & Hneg). split.
  - apply merge_sort_Permutation.
  - apply Sorted_merge_sort. intros a b.
    destruct (less b a) eqn:Hba; [|now left]. right.
    destruct (less a b) eqn:Hab; [|reflexivity].
    now rewrite <- (Hirr a), (Htr a b a Hab Hba).
Qed.

Lemma sortCommandsByOrder_sorted `{SortSlice} (commands : list cmd.Command) :
  Terms.sortsSlices ->
  cmd.sortCommandsByOrder commands ≡ₚ commands /\
  StronglySorted (fun a b => cmd.less b a = false)
    (cmd.sortCommandsByOrder commands).
Proof.
  intros Hsort.
  destruct (Hsort _ cmd.less commands less_transitiveOrdering) as [Hp Hs].
  split; [exact Hp|]. apply Sorted_StronglySorted; [|exact Hs].
  intros a b c Hab Hbc. now apply less_negative_trans with b.
Qed.

End SortFacts.

(** [sortCommandsByOrder] keeps the commands, and lays them out as its
    comment says, when [sort.Slice] does what its package documents:
    the ordered commands come first, by ascending order, and the
    unordered ones after them, by ascending name. *)
Theorem sortCommandsByOrder_layout `{SortSlice}
    (commands : list cmd.Command) (Hsort : Terms.sortsSlices) :
  let sorted := cmd.sortCommandsByOrder commands in
  sorted ≡ₚ commands /\
  forall (i j : nat) (a b : cmd.Command),
    (i < j)%nat -> sorted !! i = Some a -> sorted !! j = Some b ->
    (cmd.getOrderValue a = cmd.unorderedCommand ->
     cmd.getOrderValue b = cmd.unorderedCommand /\
     GoStringsMore.lt (cmd.Name b) (cmd.Name a) = false) /\
    (cmd.getOrderValue b <> cmd.unorderedCommand ->
     cmd.getOrderValue a <> cmd.unorderedCommand /\
     cmd.getOrderValue a <= cmd.getOrderValue b).
Proof.
  cbn zeta. destruct (sortCommandsByOrder_sorted commands Hsort) as [Hp Hs].
  split; [exact Hp|]. intros i j a b Hij Ha Hb.
  pose proof (StronglySorted_lookup _ _ i j a b Hs Hij Ha Hb) as Hba.
  cbn beta in Hba. rewrite less_unfold in Hba.
  unfold cmd.unorderedCommand.
  repeat case_decide; try discriminate; split; try tauto.
  apply Z.ltb_ge in Hba. intros _. split; [assumption|lia].
Qed.

Lemma sortCommandsByOrder_layout_witness :
  let sorted := @cmd.sortCommandsByOrder Terms.mergeSort Terms.sampleCommands
  in
  sorted ≡ₚ Terms.sampleCommands /\
  forall (i j : nat) (a b : cmd.Command),
    (i < j)%nat -> sorted !! i = Some a -> sorted !! j = Some b ->
    (cmd.getOrderValue a = cmd.unorderedCommand ->
     cmd.getOrderValue b = cmd.unorderedCommand /\
     GoStringsMore.lt (cmd.Name b) (cmd.Name a) = false) /\
    (cmd.getOrderValue b <> cmd.unorderedCommand ->
     cmd.getOrderValue a <> cmd.unorderedCommand /\
     cmd.getOrderValue a <= cmd.getOrderValue b).
Proof.
  exact (@sortCommandsByOrder_layout Terms.mergeSort Terms.sampleCommands
           mergeSort_sortsSlices).
Defined.

(** The sample commands, sorted: by order, then by name. *)
Example sortCommandsByOrder_sample :
  cmd.Name <$> @cmd.sortCommandsByOrder Terms.mergeSort Terms.sampleCommands
    = ["start"; "version"; "login"; "update"].
Proof. vm_compute. reflexivity. Qed.

(** * The groups of the sub-commands *)

Section GroupFacts.

Lemma inGroup_known (g : string) (c : cmd.Command) :
  Terms.misplaced c = false -> Terms.inGroup g c = true ->
  Terms.knownGroup g = true.
Proof.
  unfold Terms.misplaced, Terms.inGroup.
  destruct (Terms.functional c); [|discriminate]. cbn [andb].
  intros Hm Hg. apply bool_decide_eq_true in Hg. subst g.
  apply orb_false_elim in Hm as [_ Hk]. now apply negb_false_iff in Hk.
Qed.

(** One turn of the loop of [groupCommands]. *)
Lemma collect_cons (c : cmd.Command) (commands : list cmd.Command)
    (groups : gmap string (list cmd.Command)) :
  cmd.collect (c :: commands) groups =
    if Terms.functional c then
      if Terms.misplaced c then Err (ErrorString (Terms.complaint c))
      else cmd.collect commands
             (<[Terms.groupOf c :=
                  default [] (groups !! Terms.groupOf c) ++ [c]]> groups)
    else cmd.collect commands groups.
Proof.
  cbn [cmd.collect].
  unfold Terms.misplaced, Terms.functional, Terms.complaint, Terms.groupOf,
    Terms.knownGroup.
  destruct (cmd.IsAvailableCommand c), (cmd.IsAdditionalHelpTopicCommand c);
    cbn [negb orb andb]; try reflexivity.
  destruct (cmd.Annotations c) as [annotations|]; [|reflexivity].
  rewrite (bool_decide_eq_false_2 (Some annotations = None))
    by discriminate.
  cbn [orb].
  repeat case_bool_decide; cbn; try reflexivity; contradiction.
Qed.

Lemma collect_Ok (commands : list cmd.Command)
    (groups groups' : gmap string (list cmd.Command)) :
  cmd.collect commands groups = Ok groups' ->
  (forall g, Terms.knownGroup g = true -> is_Some (groups !! g)) ->
  Forall (fun c => Terms.misplaced c = false) commands /\
  forall g,
    groups' !! g =
      (fun l => l ++ List.filter (Terms.inGroup g) commands) <$> groups !! g.
Proof.
  revert groups. induction commands as [|c commands IH]; intros groups.
  { intros [= <-] _. split; [constructor|]. intros g. cbn.
    destruct (groups !! g); cbn; [now rewrite app_nil_r|reflexivity]. }
  rewrite collect_cons. intros Hc Hk.
  destruct (Terms.functional c) eqn:Hf.
  - destruct (Terms.misplaced c) eqn:Hm; [discriminate|].
    assert (Terms.knownGroup (Terms.groupOf c) = true) as Hg.
    { apply (inGroup_known _ c Hm). unfold Terms.inGroup.
      now rewrite Hf, bool_decide_eq_true_2. }
    apply IH in Hc as [Hall Hlook].
    2: { intros g Hkg. apply lookup_insert_is_Some'. right. now apply Hk. }
    split; [now constructor|]. intros g. rewrite Hlook.
    cbn [List.filter]. unfold Terms.inGroup at 2. rewrite Hf. cbn [andb].
    case_bool_decide as Heq.
    + subst g. rewrite lookup_insert_eq.
      destruct (Hk _ Hg) as [l ->]. cbn. now rewrite <- app_assoc.
    + now rewrite lookup_insert_ne.
  - apply IH in Hc as [Hall Hlook]; [|exact Hk].
    split.
    + constructor; [|exact Hall]. unfold Terms.misplaced. now rewrite Hf.
    + intros g. rewrite Hlook. cbn [List.filter]. unfold Terms.inGroup at 2.
      now rewrite Hf.
Qed.

Lemma collect_Err (commands : list cmd.Command)
    (groups : gmap string (list cmd.Command)) (e : errorString) :
  cmd.collect commands groups = Err e ->
  exists before c after,
    commands = before ++ c :: after /\
    Forall (fun c => Terms.misplaced c = false) before /\
    Terms.misplaced c = true /\ Error e = Terms.complaint c.
Proof.
  revert groups. induction commands as [|c commands IH]; intros groups;
    [discriminate|].
  rewrite collect_cons. destruct (Terms.functional c) eqn:Hf.
  - destruct (Terms.misplaced c) eqn:Hm.
    + intros [= <-]. now exists [], c, commands.
    + intros (before & c' & after & -> & Hb & Hc)%IH.
      exists (c :: before), c', after. split; [reflexivity|].
      split; [now constructor|exact Hc].
  - intros (before & c' & after & -> & Hb & Hc)%IH.
    exists (c :: before), c', after. split; [reflexivity|].
    split; [|exact Hc]. constructor; [|exact Hb].
    unfold Terms.misplaced. now rewrite Hf.
Qed.

End GroupFacts.

(** [groupCommands] places every functional sub-command in the group
    that its annotations name, or returns an error about the first one
    it cannot place (no annotations, or a group that is neither [basic]
    nor [advanced]); the sub-commands it skips never cause an error.  On
    success the map has the two groups as its keys, and each group holds
    the functional sub-commands annotated with it, each once. *)
Theorem groupCommands_partitions `{SortSlice}
    (commands : list cmd.Command) (Hsort : Terms.sortsSlices) :
  match cmd.groupCommands commands with
  | Ok groups =>
      Forall (fun c => Terms.misplaced c = false) commands /\
      forall g,
        match groups !! g with
        | Some l =>
            Terms.knownGroup g = true /\
            l ≡ₚ List.filter (Terms.inGroup g) commands
        | None => Terms.knownGroup g = false
        end
  | Err e =>
      exists before c after,
        commands = before ++ c :: after /\
        Forall (fun c => Terms.misplaced c = false) before /\
        Terms.misplaced c = true /\ Error e = Terms.complaint c
  end.
Proof.
  unfold cmd.groupCommands.
  destruct (cmd.collect commands _) as [groups|e] eqn:Hc.
  - apply collect_Ok in Hc as [Hall Hlook].
    2: { intros g [->%bool_decide_eq_true| ->%bool_decide_eq_true]%orb_true_iff;
         vm_compute; eauto. }
    split; [exact Hall|]. intros g. rewrite lookup_fmap, (Hlook g).
    unfold Terms.knownGroup.
    destruct (decide (g = cmd.subCommandGroupBasic)) as [->|Hb].
    { rewrite lookup_insert_eq. cbn [fmap option_fmap option_map app].
      split; [reflexivity|]. now apply sortCommandsByOrder_sorted. }
    destruct (decide (g = cmd.subCommandGroupAdvanced)) as [->|Ha].
    { rewrite lookup_insert_ne, lookup_insert_eq by discriminate.
      cbn [fmap option_fmap option_map app].
      split; [reflexivity|]. now apply sortCommandsByOrder_sorted. }
    rewrite !lookup_insert_ne, lookup_empty by congruence.
    cbn [fmap option_fmap option_map].
    now rewrite !bool_decide_eq_false_2.
  - now apply collect_Err in Hc.
Qed.

Lemma groupCommands_partitions_witness :
  match @cmd.groupCommands Terms.mergeSort Terms.sampleCommands with
  | Ok groups =>
      Forall (fun c => Terms.misplaced c = false) Terms.sampleCommands /\
      forall g,
        match groups !! g with
        | Some l =>
            Terms.knownGroup g = true /\
            l ≡ₚ List.filter (Terms.inGroup g) Terms.sampleCommands
        | None => Terms.knownGroup g = false
        end
  | Err e =>
      exists before c after,
        Terms.sampleCommands = before ++ c :: after /\
        Forall (fun c => Terms.misplaced c = false) before /\
        Terms.misplaced c = true /\ Error e = Terms.complaint c
  end.
Proof.
  exact (@groupCommands_partitions Terms.mergeSort Terms.sampleCommands
           mergeSort_sortsSlices).
Defined.

(** * The paths of the OpenAPI document *)

Section ReplaceFacts.
Import GoStrings GoStringsMore Terms.

Lemma append_empty_r (s : string) : s +:+ EmptyString = s.
Proof.
  induction s as [|c s IH]; [reflexivity|]. now rewrite append_cons, IH.
Qed.

Lemma wordsOf_afterWords (s : string) : wordsOf s +:+ afterWords s = s.
Proof.
  induction s as [|c s IH]; [reflexivity|]. cbn.
  destruct (docs.isWord c); [|reflexivity]. now rewrite append_cons, IH.
Qed.

Lemma headWord_afterWords (s : string) : headWord (afterWords s) = false.
Proof.
  induction s as [|c s IH]; [reflexivity|]. cbn.
  destruct (docs.isWord c) eqn:Hc; [exact IH|]. cbn. exact Hc.
Qed.

Lemma allWord_wordsOf (s : string) : allWord (wordsOf s) = true.
Proof.
  induction s as [|c s IH]; [reflexivity|]. cbn.
  destruct (docs.isWord c) eqn:Hc; [|reflexivity]. cbn. now rewrite Hc.
Qed.

Lemma wordsOf_append (w s : string) :
  allWord w = true -> headWord s = false ->
  wordsOf (w +:+ s) = w /\ afterWords (w +:+ s) = s.
Proof.
  intros Hw Hs. induction w as [|c w IH].
  - rewrite append_empty_l. destruct s as [|d s]; [now split|].
    cbn in *. now rewrite Hs.
  - cbn in Hw. apply andb_true_iff in Hw as [Hc Hw].
    rewrite append_cons. cbn. rewrite Hc.
    destruct (IH Hw) as [-> ->]. now split.
Qed.

Lemma length_afterWords (s : string) :
  (String.length (afterWords s) <= String.length s)%nat.
Proof.
  induction s as [|c s IH]; [reflexivity|]. cbn.
  destruct (docs.isWord c); cbn; lia.
Qed.

(** A match in progress ends where the word bytes end. *)
Lemma ReplaceAllStringFunc_Some (repl : string -> string) (m src : string) :
  docs.ReplaceAllStringFunc repl (Some m) src =
    repl (m +:+ wordsOf src) +:+
    docs.ReplaceAllStringFunc repl None (afterWords src).
Proof.
  revert m. induction src as [|c src IH]; intros m.
  - cbn. now rewrite !append_empty_r.
  - cbn [docs.ReplaceAllStringFunc wordsOf afterWords].
    destruct (docs.isWord c).
    + rewrite IH, append_assoc. reflexivity.
    + now rewrite append_empty_r.
Qed.

Lemma TrimPrefix_byte (c : ascii) (w : string) :
  TrimPrefix (String c w) (String c EmptyString) = w.
Proof. unfold TrimPrefix. cbn. now rewrite decide_True. Qed.

Lemma TrimPrefix_absent (s p : string) :
  HasPrefix s p = false -> TrimPrefix s p = s.
Proof. unfold TrimPrefix. now intros ->. Qed.

Lemma braces_param (c : ascii) (w : string) :
  c = ":"%char \/ c = "*"%char -> headWord w = true ->
  braces (String c w) = "{" +:+ w +:+ "}".
Proof.
  intros Hc Hw. unfold braces.
  assert (HasPrefix w "*" = false) as Hstar.
  { destruct w as [|d w]; [discriminate|]. cbn in *.
    case_decide; [subst; discriminate|reflexivity]. }
  destruct Hc as [-> | ->].
  - now rewrite TrimPrefix_byte, (TrimPrefix_absent w).
  - rewrite (TrimPrefix_absent (String "*" w) ":") by reflexivity.
    now rewrite TrimPrefix_byte.
Qed.

Lemma ginPathToOpenAPIPath_unfold (p : string) :
  docs.ginPathToOpenAPIPath p = docs.ReplaceAllStringFunc braces None p.
Proof. reflexivity. Qed.

(** One step of [ginPathToOpenAPIPath]: a parameter is put in braces,
    any other byte is kept. *)
Lemma ginPathToOpenAPIPath_cons (c : ascii) (p : string) :
  docs.ginPathToOpenAPIPath (String c p) =
    if docs.startsParam c p
    then "{" +:+ wordsOf p +:+ "}" +:+
         docs.ginPathToOpenAPIPath (afterWords p)
    else String c (docs.ginPathToOpenAPIPath p).
Proof.
  rewrite !ginPathToOpenAPIPath_unfold. cbn [docs.ReplaceAllStringFunc].
  destruct (docs.startsParam c p) eqn:Hs; [|reflexivity].
  rewrite ReplaceAllStringFunc_Some, append_cons, append_empty_l.
  unfold docs.startsParam in Hs. apply andb_true_iff in Hs as [Hc Hw].
  rewrite braces_param.
  - now rewrite !append_assoc.
  - apply orb_true_iff in Hc as [Hc|Hc]; apply bool_decide_eq_true in Hc;
      auto.
  - destruct p as [|d p]; [discriminate|]. cbn. now rewrite Hw.
Qed.

Lemma headWord_ginPath (p : string) :
  headWord p = false -> headWord (docs.ginPathToOpenAPIPath p) = false.
Proof.
  destruct p as [|c p]; [reflexivity|]. rewrite ginPathToOpenAPIPath_cons.
  destruct (docs.startsParam c p); [reflexivity|]. now cbn.
Qed.

Lemma startsParam_headWord (c : ascii) (s t : string) :
  headWord s = headWord t -> docs.startsParam c s = docs.startsParam c t.
Proof.
  unfold docs.startsParam. intros Hst. f_equal.
  now destruct s, t.
Qed.

Lemma hasParam_absent (s : string) :
  hasParam s = false -> docs.ginPathToOpenAPIPath s = s.
Proof.
  induction s as [|c s IH]; [reflexivity|]. cbn [hasParam].
  intros [Hc Hs]%orb_false_elim.
  now rewrite ginPathToOpenAPIPath_cons, Hc, IH.
Qed.

Lemma hasParam_append (x y : string) :
  hasByte ":" x = false -> hasByte "*" x = false ->
  hasParam (x +:+ y) = hasParam y.
Proof.
  induction x as [|c x IH]; [now rewrite append_empty_l|].
  cbn [hasByte]. intros [Hc Hx]%orb_false_elim [Hd Hy]%orb_false_elim.
  rewrite append_cons. cbn [hasParam]. rewrite (IH Hx Hy).
  unfold docs.startsParam. now rewrite Hc, Hd.
Qed.

Lemma allWord_hasByte (w : string) (c : ascii) :
  allWord w = true -> docs.isWord c = false -> hasByte c w = false.
Proof.
  intros Hw Hc. induction w as [|d w IH]; [reflexivity|].
  cbn in *. apply andb_true_iff in Hw as [Hd Hw]. rewrite (IH Hw).
  case_bool_decide; [subst; congruence|reflexivity].
Qed.

Lemma hasByte_append (c : ascii) (s t : string) :
  hasByte c (s +:+ t) = hasByte c s || hasByte c t.
Proof.
  induction s as [|d s IH]; [now rewrite append_empty_l|].
  rewrite append_cons. cbn. now rewrite IH, orb_assoc.
Qed.

Lemma hasParam_ginPath (n : nat) (p : string) :
  (String.length p <= n)%nat ->
  hasParam (docs.ginPathToOpenAPIPath p) = false.
Proof.
  revert p. induction n as [|n IH]; intros [|c p] Hn; try reflexivity.
  { cbn in Hn. lia. }
  cbn in Hn. rewrite ginPathToOpenAPIPath_cons.
  destruct (docs.startsParam c p) eqn:Hs.
  - rewrite <- !append_assoc, hasParam_append.
    + apply IH. pose proof (length_afterWords p). lia.
    + rewrite !hasByte_append, (allWord_hasByte (wordsOf p));
        auto using allWord_wordsOf.
    + rewrite !hasByte_append, (allWord_hasByte (wordsOf p));
        auto using allWord_wordsOf.
  - cbn [hasParam]. rewrite IH by lia. rewrite orb_false_r.
    rewrite <- Hs. unfold docs.startsParam in *.
    destruct (bool_decide (c = ":"%char) || bool_decide (c = "*"%char));
      [|reflexivity].
    cbn [andb] in *. change (headWord p = false) in Hs.
    change (headWord (docs.ginPathToOpenAPIPath p) = headWord p).
    now rewrite Hs, headWord_ginPath.
Qed.

(** A path is converted piece by piece, where the second piece does
    not start with a word byte. *)
Lemma ReplaceAllStringFunc_append (repl : string -> string)
    (m : option string) (a b : string) :
  headWord b = false ->
  docs.ReplaceAllStringFunc repl m (a +:+ b) =
    docs.ReplaceAllStringFunc repl m a +:+
    docs.ReplaceAllStringFunc repl None b.
Proof.
  intros Hb. revert m. induction a as [|c a IH]; intros m.
  - rewrite append_empty_l. destruct m as [m|]; [|reflexivity].
    destruct b as [|d b]; cbn [docs.ReplaceAllStringFunc].
    + now rewrite append_empty_r.
    + cbn in Hb. now rewrite Hb.
  - rewrite append_cons. cbn [docs.ReplaceAllStringFunc]. cbn zeta.
    assert (docs.startsParam c (a +:+ b) = docs.startsParam c a) as ->.
    { apply startsParam_headWord. destruct a as [|d a].
      - now rewrite append_empty_l.
      - now rewrite append_cons. }
    destruct m as [m|]; [destruct (docs.isWord c)|];
      try destruct (docs.startsParam c a);
      rewrite ?IH, ?append_cons, ?append_assoc; reflexivity.
Qed.

End ReplaceFacts.

(** [ginPathToOpenAPIPath] puts every parameter in braces and keeps the
    rest: in a path made of [a], a colon or a star, a name of word
    bytes and a rest [b] that does not go on with a word byte, the
    parameter becomes the name in braces, and [a] and [b] are converted
    on their own. *)
Theorem ginPathToOpenAPIPath_puts_parameters_in_braces
    (a name b : string)
    (Hname : name <> EmptyString)
    (Hword : Terms.allWord name = true)
    (Hrest : Terms.headWord b = false) :
  docs.ginPathToOpenAPIPath (a +:+ ":" +:+ name +:+ b) =
    docs.ginPathToOpenAPIPath a +:+ "{" +:+ name +:+ "}" +:+
    docs.ginPathToOpenAPIPath b /\
  docs.ginPathToOpenAPIPath (a +:+ "*" +:+ name +:+ b) =
    docs.ginPathToOpenAPIPath a +:+ "{" +:+ name +:+ "}" +:+
    docs.ginPathToOpenAPIPath b.
Proof.
  assert (forall c, c = ":"%char \/ c = "*"%char ->
    docs.ginPathToOpenAPIPath (a +:+ String c (name +:+ b)) =
      docs.ginPathToOpenAPIPath a +:+ "{" +:+ name +:+ "}" +:+
      docs.ginPathToOpenAPIPath b) as Hc.
  { intros c Hc. rewrite ginPathToOpenAPIPath_unfold.
    rewrite ReplaceAllStringFunc_append by (now destruct Hc as [-> | ->]).
    rewrite <- !ginPathToOpenAPIPath_unfold. f_equal.
    rewrite ginPathToOpenAPIPath_cons.
    destruct (wordsOf_append name b Hword Hrest) as [-> ->].
    assert (docs.startsParam c (name +:+ b) = true) as ->; [|reflexivity].
    unfold docs.startsParam. apply andb_true_iff. split.
    - destruct Hc as [-> | ->]; reflexivity.
    - destruct name as [|d name]; [contradiction|].
      rewrite append_cons. cbn in Hword.
      now apply andb_true_iff in Hword as [-> _]. }
  split; apply Hc; auto.
Qed.

Lemma ginPathToOpenAPIPath_puts_parameters_in_braces_witness :
  docs.ginPathToOpenAPIPath ("/api/v0/servers/" +:+ ":" +:+ "name" +:+ "/x") =
    docs.ginPathToOpenAPIPath "/api/v0/servers/" +:+ "{" +:+ "name" +:+ "}"
    +:+ docs.ginPathToOpenAPIPath "/x" /\
  docs.ginPathToOpenAPIPath ("/api/v0/servers/" +:+ "*" +:+ "name" +:+ "/x") =
    docs.ginPathToOpenAPIPath "/api/v0/servers/" +:+ "{" +:+ "name" +:+ "}"
    +:+ docs.ginPathToOpenAPIPath "/x".
Proof.
  apply (ginPathToOpenAPIPath_puts_parameters_in_braces
           "/api/v0/servers/" "name" "/x").
  - discriminate.
  - reflexivity.
  - reflexivity.
Defined.

(** [ginPathToOpenAPIPath] leaves no parameter of Gin in the path: a
    second conversion changes nothing, and the paths that the
    conversion leaves as they are are the ones without a parameter. *)
Theorem ginPathToOpenAPIPath_leaves_no_parameter (p : string) :
  Terms.hasParam (docs.ginPathToOpenAPIPath p) = false /\
  docs.ginPathToOpenAPIPath (docs.ginPathToOpenAPIPath p) =
    docs.ginPathToOpenAPIPath p /\
  (docs.ginPathToOpenAPIPath p = p <-> Terms.hasParam p = false).
Proof.
  pose proof (hasParam_ginPath (String.length p) p (le_n _)) as Hp.
  split; [exact Hp|]. split; [now apply hasParam_absent|].
  split; [now intros <-|apply hasParam_absent].
Qed.

(** The cases of [TestGinPathToOpenAPIPath]. *)
Example ginPathToOpenAPIPath_tests :
  docs.ginPathToOpenAPIPath "/api/v0/servers/:name"
    = "/api/v0/servers/{name}" /\
  docs.ginPathToOpenAPIPath "/docs/*any" = "/docs/{any}" /\
  docs.ginPathToOpenAPIPath "/health" = "/health" /\
  docs.ginPathToOpenAPIPath "/api/v1/tools/:server/:tool"
    = "/api/v1/tools/{server}/{tool}".
Proof. repeat split; vm_compute; reflexivity. Qed.

(** * The tags and the summaries of the OpenAPI document *)

Section SplitByteFacts.
Import GoStrings GoStringsMore Terms.

Lemma Index_byte (c : ascii) (s : string) :
  (hasByte c s = false /\ Index s (String c EmptyString) = -1) \/
  (exists b a, s = b +:+ String c a /\ hasByte c b = false /\
     Index s (String c EmptyString) = len b).
Proof.
  induction s as [|d s IH]; [now left|].
  rewrite Index_unfold. cbn [HasPrefix hasByte].
  destruct (decide (d = c)) as [->|Hd].
  - right. exists EmptyString, s. now rewrite append_empty_l.
  - rewrite bool_decide_eq_false_2 by done. cbn [orb].
    destruct IH as [[Hs ->]|(b & a & -> & Hb & ->)]; [now left|].
    right. exists (String d b), a. rewrite append_cons. cbn [hasByte].
    rewrite bool_decide_eq_false_2 by done. cbn zeta.
    pose proof (len_nonneg b). rewrite len_cons.
    destruct (len b <? 0) eqn:Hl; [apply Z.ltb_lt in Hl; lia|].
    now repeat split.
Qed.

Lemma Cut_byte_absent (c : ascii) (s : string) :
  hasByte c s = false ->
  Cut s (String c EmptyString) = (s, EmptyString, false).
Proof.
  intros Hs. unfold Cut.
  destruct (Index_byte c s) as [[_ ->]|(b & a & -> & _ & _)]; [reflexivity|].
  rewrite hasByte_append in Hs. cbn in Hs.
  rewrite bool_decide_eq_true_2, orb_true_r in Hs by done. discriminate.
Qed.

Lemma Cut_byte_found (c : ascii) (b a : string) :
  hasByte c b = false ->
  Cut (b +:+ String c a) (String c EmptyString) = (b, a, true).
Proof.
  intros Hb. unfold Cut.
  destruct (Index_byte c (b +:+ String c a))
    as [[Hs _]|(b' & a' & Heq & Hb' & ->)].
  { rewrite hasByte_append in Hs. cbn in Hs.
    rewrite bool_decide_eq_true_2, orb_true_r in Hs by done. discriminate. }
  assert (b' = b /\ a' = a) as [-> ->].
  { clear -Heq Hb Hb'. revert b' Heq Hb'.
    induction b as [|d b IH]; intros [|d' b'].
    - rewrite !append_empty_l. now intros [= ->].
    - rewrite append_empty_l, append_cons. intros [= <- _]. cbn.
      now rewrite bool_decide_eq_true_2.
    - rewrite append_empty_l, append_cons. intros [= -> _]. cbn in Hb.
      now rewrite bool_decide_eq_true_2 in Hb.
    - rewrite !append_cons. intros [= -> Heq]. cbn in *.
      apply orb_false_elim in Hb as [_ Hb].
      intros [_ Hb']%orb_false_elim.
      now destruct (IH Hb b' Heq Hb') as [-> ->]. }
  pose proof (len_nonneg b) as Hl.
  destruct (0 <=? len b) eqn:H0; [|apply Z.leb_gt in H0; lia].
  assert (Z.to_nat (len b + len (String c EmptyString))
          = String.length (b +:+ String c EmptyString)) as ->.
  { unfold len. rewrite length_append. cbn. lia. }
  assert (Z.to_nat (len b) = String.length b) as ->.
  { unfold len. apply Nat2Z.id. }
  rewrite take_append.
  change (String c a) with (String c EmptyString +:+ a).
  now rewrite <- append_assoc, drop_append.
Qed.

Lemma splitByte_absent (c : ascii) (s : string) :
  hasByte c s = false -> splitByte c s = [s].
Proof.
  induction s as [|d s IH]; [reflexivity|]. cbn.
  intros [Hd Hs]%orb_false_elim. apply bool_decide_eq_false in Hd.
  now rewrite decide_False, IH.
Qed.

Lemma splitByte_found (c : ascii) (b a : string) :
  hasByte c b = false -> splitByte c (b +:+ String c a) = b :: splitByte c a.
Proof.
  induction b as [|d b IH].
  - intros _. rewrite append_empty_l. cbn. now rewrite decide_True.
  - cbn [hasByte]. intros [Hd Hb]%orb_false_elim.
    apply bool_decide_eq_false in Hd. rewrite append_cons. cbn.
    now rewrite decide_False, IH.
Qed.

(** [strings.Split] at one byte, by recursion on the string. *)
Lemma Split_byte (c : ascii) (s : string) :
  Split s (String c EmptyString) = splitByte c s.
Proof.
  unfold Split. generalize (le_n (String.length s)).
  generalize (String.length s) at 2 3 as n. intros n. revert s.
  induction n as [|n IH]; intros s Hn.
  - destruct s; [reflexivity|cbn in Hn; lia].
  - cbn [genSplit].
    destruct (Index_byte c s) as [[Hs _]|(b & a & -> & Hb & _)].
    + now rewrite Cut_byte_absent, splitByte_absent.
    + rewrite Cut_byte_found, splitByte_found by assumption.
      rewrite IH; [reflexivity|].
      rewrite length_append in Hn. cbn in Hn. lia.
Qed.

Lemma splitByte_segments (c : ascii) (s : string) :
  splitByte c s <> [] /\
  Forall (fun seg => hasByte c seg = false) (splitByte c s).
Proof.
  induction s as [|d s [Hne Hall]]; cbn.
  - split; [discriminate|]. now repeat constructor.
  - destruct (decide (d = c)) as [->|Hd].
    + split; [discriminate|]. now constructor.
    + destruct (splitByte c s) as [|seg segs]; [contradiction|].
      split; [discriminate|]. inversion Hall; subst.
      constructor; [|assumption]. cbn.
      now rewrite bool_decide_eq_false_2.
Qed.

End SplitByteFacts.

(** [deriveTags] returns exactly one tag, whatever the path: never the
    nil slice of its first branch, and never more.  The tag is a
    segment of the path, so it holds no slash. *)
Theorem deriveTags_gives_one_tag (path : string) :
  exists tag,
    docs.deriveTags path = [tag] /\ Terms.hasByte "/" tag = false.
Proof.
  unfold docs.deriveTags. rewrite Split_byte.
  destruct (splitByte_segments "/" (GoStringsMore.Trim path "/"))
    as [Hne Hall].
  destruct (Terms.splitByte _ _) as [|seg0 [|seg1 [|seg2 segs]]];
    [contradiction| | |].
  - exists seg0. split; [reflexivity|]. now inversion Hall.
  - exists seg0. split; [reflexivity|]. now inversion Hall.
  - inversion Hall as [|? ? H0 Hall1]; subst.
    inversion Hall1 as [|? ? H1 Hall2]; subst.
    inversion Hall2 as [|? ? H2 _]; subst.
    destruct (_ && _); eauto.
Qed.

Section TrimFacts.
Import GoStrings GoStringsMore Terms.

Lemma trimRightByte_cons (b c : ascii) (s : string) :
  trimRightByte s c <> EmptyString ->
  trimRightByte (String b s) c = String b (trimRightByte s c).
Proof. cbn. now destruct (trimRightByte s c). Qed.

Lemma trimRightByte_append (s x : string) (c : ascii) :
  trimRightByte x c <> EmptyString ->
  trimRightByte (s +:+ x) c = s +:+ trimRightByte x c.
Proof.
  intros Hx. induction s as [|b s IH]; [now rewrite !append_empty_l|].
  rewrite !append_cons, trimRightByte_cons; [now rewrite IH|].
  rewrite IH. destruct s; [now rewrite append_empty_l|discriminate].
Qed.

(** Trimming on the right stops at a segment that is not empty. *)
Lemma trimRightByte_segment (t u : string) (c : ascii) :
  hasByte c t = false -> t <> EmptyString ->
  trimRightByte (t +:+ u) c = t +:+ trimRightByte u c.
Proof.
  induction t as [|b t IH]; [contradiction|]. cbn [hasByte].
  intros [Hb Ht]%orb_false_elim _. apply bool_decide_eq_false in Hb.
  rewrite !append_cons. destruct t as [|b' t].
  - rewrite !append_empty_l. cbn.
    destruct (trimRightByte u c); [now rewrite decide_False|reflexivity].
  - rewrite trimRightByte_cons; [now rewrite IH|].
    rewrite IH by done. now rewrite append_cons.
Qed.

(** What is left of a rest that is empty or starts with the byte. *)
Lemma trimRightByte_rest (rest : string) (c : ascii) :
  rest = EmptyString \/ HasPrefix rest (String c EmptyString) = true ->
  trimRightByte rest c = EmptyString \/
  exists r, trimRightByte rest c = String c r.
Proof.
  intros [->|Hr]; [now left|]. destruct rest as [|b rest]; [now left|].
  cbn in Hr. destruct (decide (b = c)) as [->|]; [|discriminate]. cbn.
  destruct (trimRightByte rest c) as [|d t]; [left|right; eexists];
    try reflexivity.
  now rewrite decide_True.
Qed.

Lemma splitByte_segment_rest (seg rest : string) (c : ascii) :
  hasByte c seg = false ->
  rest = EmptyString \/ (exists r, rest = String c r) ->
  exists segs, splitByte c (seg +:+ rest) = seg :: segs.
Proof.
  intros Hseg [->|[r ->]].
  - exists []. rewrite append_empty_r. now apply splitByte_absent.
  - eexists. now apply splitByte_found.
Qed.

End TrimFacts.

(** [deriveTags] names the resource of a route: the segment after the
    version for a path under [/api/v...], and the first segment for a
    path that does not start with the segment [api]. *)
Theorem deriveTags_names_the_resource (ver seg rest : string)
    (Hver : Terms.hasByte "/" ver = false)
    (Hseg : Terms.hasByte "/" seg = false)
    (Hname : seg <> EmptyString)
    (Hrest : rest = EmptyString \/ GoStrings.HasPrefix rest "/" = true) :
  docs.deriveTags ("/api/v" +:+ ver +:+ "/" +:+ seg +:+ rest) = [seg] /\
  (seg <> "api" -> docs.deriveTags ("/" +:+ seg +:+ rest) = [seg]).
Proof.
  unfold docs.deriveTags. rewrite !Split_byte.
  pose proof (trimRightByte_rest rest "/" Hrest) as Hr.
  pose proof (trimRightByte_segment seg rest "/" Hseg Hname) as Ht.
  assert (GoStringsMore.trimRightByte (seg +:+ rest) "/" <> EmptyString)
    as Hne.
  { rewrite Ht. destruct seg; [contradiction|discriminate]. }
  destruct (splitByte_segment_rest seg
              (GoStringsMore.trimRightByte rest "/") "/" Hseg)
    as [segs Hsegs].
  { destruct Hr as [->|[r ->]]; eauto. }
  split.
  - unfold GoStringsMore.Trim.
    rewrite <- (append_assoc ver "/" (seg +:+ rest)).
    rewrite <- (append_assoc "/api/v" (ver +:+ "/") (seg +:+ rest)).
    rewrite trimRightByte_append, Ht by assumption.
    rewrite !append_assoc.
    change ("/api/v" +:+ ver +:+ "/" +:+
            seg +:+ GoStringsMore.trimRightByte rest "/")
      with (String "/" (String "a" ("pi" +:+ String "/"
              (("v" +:+ ver) +:+ String "/"
                 (seg +:+ GoStringsMore.trimRightByte rest "/"))))).
    cbn [GoStringsMore.trimLeftByte].
    rewrite decide_True, decide_False by done.
    change (String "a" ("pi" +:+ ?x)) with ("api" +:+ x).
    rewrite splitByte_found by reflexivity.
    rewrite splitByte_found.
    2: { rewrite hasByte_append, Hver. reflexivity. }
    rewrite Hsegs. reflexivity.
  - intros Hapi. unfold GoStringsMore.Trim.
    change ("/" +:+ seg +:+ rest) with (String "/" (seg +:+ rest)).
    rewrite trimRightByte_cons, Ht by assumption.
    cbn [GoStringsMore.trimLeftByte]. rewrite decide_True by reflexivity.
    assert (GoStringsMore.trimLeftByte
              (seg +:+ GoStringsMore.trimRightByte rest "/") "/"
            = seg +:+ GoStringsMore.trimRightByte rest "/") as ->.
    { destruct seg as [|d seg]; [contradiction|]. rewrite append_cons.
      cbn in *. apply orb_false_elim in Hseg as [Hd _].
      apply bool_decide_eq_false in Hd. now rewrite decide_False. }
    rewrite Hsegs. destruct segs as [|seg1 [|seg2 segs]]; try reflexivity.
    now rewrite bool_decide_eq_false_2.
Qed.

Lemma deriveTags_names_the_resource_witness :
  docs.deriveTags ("/api/v" +:+ "0" +:+ "/" +:+ "servers" +:+ "/{name}")
    = ["servers"] /\
  ("servers" <> "api" ->
   docs.deriveTags ("/" +:+ "servers" +:+ "/{name}") = ["servers"]).
Proof.
  apply (deriveTags_names_the_resource "0" "servers" "/{name}").
  - reflexivity.
  - reflexivity.
  - discriminate.
  - now right.
Defined.

(** The cases of [TestDeriveTags]. *)
Example deriveTags_tests :
  docs.deriveTags "/api/v0/servers" = ["servers"] /\
  docs.deriveTags "/servers" = ["servers"] /\
  docs.deriveTags "/api/v1/clients/123" = ["clients"] /\
  docs.deriveTags "/health" = ["health"] /\
  docs.deriveTags "/" = [EmptyString].
Proof. repeat split; vm_compute; reflexivity. Qed.

Section SummaryFacts.
Import GoStrings GoStringsMore Terms.

Lemma LastIndex_byte (c : ascii) (s : string) :
  (hasByte c s = false /\ LastIndex s (String c EmptyString) = -1) \/
  (exists a b, s = a +:+ String c b /\ hasByte c b = false /\
     LastIndex s (String c EmptyString) = len a).
Proof.
  induction s as [|d s IH]; [now left|].
  cbn [LastIndex hasByte HasPrefix].
  destruct IH as [[Hs ->]|(a & b & -> & Hb & ->)].
  - cbn. destruct (decide (d = c)) as [->|Hd].
    + right. exists EmptyString, s. rewrite append_empty_l.
      now destruct s.
    + left. now rewrite bool_decide_eq_false_2, Hs.
  - right. exists (String d a), b. rewrite append_cons, len_cons.
    pose proof (len_nonneg a).
    destruct (0 <=? len a) eqn:H0; [|apply Z.leb_gt in H0; lia].
    now repeat split.
Qed.

Lemma drop_prefix (a : string) (c : ascii) (b : string) :
  drop (Z.to_nat (len a + 1)) (a +:+ String c b) = b.
Proof.
  replace (Z.to_nat (len a + 1))
    with (String.length (a +:+ String c EmptyString)).
  2: { rewrite length_append. unfold len. cbn. lia. }
  change (String c b) with (String c EmptyString +:+ b).
  now rewrite <- append_assoc, drop_append.
Qed.

(** The part of the handler that [deriveSummary] keeps. *)
Lemma deriveSummary_part `{UnicodeLower} `{UnicodeTitle}
    (rt : docs.RouteInfo) :
  exists h,
    docs.deriveSummary rt
      = Returned (Title (ToLower (docs.Method rt)) +:+ " " +:+ h) /\
    ((hasByte "." (docs.Handler rt) = false /\ h = docs.Handler rt) \/
     (exists a, docs.Handler rt = a +:+ "." /\ h = docs.Handler rt) \/
     (exists a, docs.Handler rt = a +:+ "." +:+ h /\ h <> EmptyString /\
        hasByte "." h = false)).
Proof.
  unfold docs.deriveSummary. cbn zeta.
  destruct (LastIndex_byte "." (docs.Handler rt))
    as [[Hs ->]|(a & b & Hh & Hb & ->)].
  - exists (docs.Handler rt). cbn. auto.
  - pose proof (len_nonneg a) as Hla.
    destruct (0 <=? len a) eqn:Hle; [|apply Z.leb_gt in Hle; lia].
    cbn [andb]. rewrite Hh.
    assert (len (a +:+ String "." b) = len a + 1 + len b) as Hl.
    { unfold len. rewrite length_append. cbn. lia. }
    destruct b as [|d b].
    + exists (a +:+ "."). rewrite Hl. change (len EmptyString) with 0.
      destruct (len a + 1 <? _) eqn:Hlt; [apply Z.ltb_lt in Hlt; lia|].
      split; [reflexivity|]. right. left. now exists a.
    + exists (String d b). rewrite Hl.
      pose proof (len_nonneg b). rewrite len_cons.
      destruct (len a + 1 <? _) eqn:Hlt; [|apply Z.ltb_ge in Hlt; lia].
      unfold slice_from. rewrite Hl, len_cons.
      destruct (_ && _) eqn:Hr.
      2: { apply andb_false_iff in Hr as [Hr|Hr];
           [apply Z.leb_gt in Hr|apply Z.leb_gt in Hr]; lia. }
      rewrite drop_prefix. split; [reflexivity|].
      right. right. exists a. now repeat split.
Qed.

End SummaryFacts.

(** [deriveSummary] does not panic, and the summary is the method in
    title case, a space, and the last part of the handler: what follows
    the last dot, or the whole handler when it holds no dot or ends with
    one. *)
Theorem deriveSummary_keeps_last_part `{UnicodeLower} `{UnicodeTitle}
    (rt : docs.RouteInfo) :
  exists h,
    docs.deriveSummary rt
      = Returned (GoStringsMore.Title (GoStrings.ToLower (docs.Method rt))
                  +:+ " " +:+ h) /\
    ((Terms.hasByte "." (docs.Handler rt) = false /\ h = docs.Handler rt) \/
     (exists a, docs.Handler rt = a +:+ "." /\ h = docs.Handler rt) \/
     (exists a, docs.Handler rt = a +:+ "." +:+ h /\ h <> EmptyString /\
        Terms.hasByte "." h = false)).
Proof. apply deriveSummary_part. Qed.

Section TitleFacts.
Import GoStrings GoStringsMore Terms.

Lemma letter_lowerByte (c : ascii) :
  isLower c || isUpper c = true ->
  isSeparator (lowerByte c) = false /\
  isLower (lowerByte c) || isUpper (lowerByte c) = true /\
  (Z.of_N (N_of_ascii (lowerByte c)) <? 128) = true /\
  (Z.of_N (N_of_ascii c) <? 128) = true.
Proof.
  destruct c as [[] [] [] [] [] [] [] []]; vm_compute;
    (discriminate || (intros _; repeat split)).
Qed.

Lemma allLetters_isASCII (s : string) :
  allLetters s = true ->
  isASCII s = true /\ isASCII (mapBytes lowerByte s) = true.
Proof.
  induction s as [|c s IH]; [now split|]. cbn.
  intros [Hc Hs]%andb_true_iff.
  destruct (letter_lowerByte c Hc) as (_ & _ & -> & ->).
  destruct (IH Hs) as [-> ->]. now split.
Qed.

Lemma titleBytes_letters (prev : ascii) (s : string) :
  isSeparator prev = false -> allLetters s = true ->
  titleBytes prev (mapBytes lowerByte s) = mapBytes lowerByte s.
Proof.
  revert prev. induction s as [|c s IH]; intros prev Hp; [reflexivity|].
  cbn. intros [Hc Hs]%andb_true_iff. rewrite Hp.
  destruct (letter_lowerByte c Hc) as (Hsep & _). now rewrite IH.
Qed.

Lemma Title_ToLower_letters `{UnicodeLower} `{UnicodeTitle} (s : string) :
  allLetters s = true -> Title (ToLower s) = capitalised s.
Proof.
  intros Hs. unfold Title, ToLower.
  destruct (allLetters_isASCII s Hs) as [-> ->].
  destruct s as [|c s]; [reflexivity|]. cbn in *.
  apply andb_true_iff in Hs as [Hc Hs].
  destruct (letter_lowerByte c Hc) as (Hsep & _).
  now rewrite titleBytes_letters.
Qed.

End TitleFacts.

(** [deriveSummary] writes a method of ASCII letters with its first
    letter in upper case and the others in lower case, whatever the
    Unicode tables say. *)
Theorem deriveSummary_capitalises_method `{UnicodeLower} `{UnicodeTitle}
    (rt : docs.RouteInfo)
    (Hmethod : Terms.allLetters (docs.Method rt) = true) :
  exists h,
    docs.deriveSummary rt
      = Returned (Terms.capitalised (docs.Method rt) +:+ " " +:+ h) /\
    GoStrings.HasSuffix (docs.Handler rt) h = true.
Proof.
  destruct (deriveSummary_part rt) as (h & -> & Hh). exists h.
  rewrite Title_ToLower_letters by assumption. split; [reflexivity|].
  apply HasSuffix_spec.
  destruct Hh as [[_ ->]|[(a & _ & ->)|(a & -> & _)]].
  - now exists EmptyString.
  - now exists EmptyString.
  - exists (a +:+ "."). now rewrite append_assoc.
Qed.

Lemma deriveSummary_capitalises_method_witness :
  exists h,
    @docs.deriveSummary Spec.asciiLower Terms.asciiTitle
      {| docs.Method := "GET"; docs.Path := "/x";
         docs.Handler := "pkg.Func" |}
      = Returned (Terms.capitalised "GET" +:+ " " +:+ h) /\
    GoStrings.HasSuffix "pkg.Func" h = true.
Proof.
  apply (@deriveSummary_capitalises_method Spec.asciiLower Terms.asciiTitle
           {| docs.Method := "GET"; docs.Path := "/x";
              docs.Handler := "pkg.Func" |}).
  reflexivity.
Defined.

(** The cases of [TestDeriveSummary]. *)
Example deriveSummary_tests :
  @docs.deriveSummary Spec.asciiLower Terms.asciiTitle
    {| docs.Method := "GET"; docs.Path := EmptyString;
       docs.Handler := "pkg.Func" |} = Returned "Get Func" /\
  @docs.deriveSummary Spec.asciiLower Terms.asciiTitle
    {| docs.Method := "POST"; docs.Path := EmptyString;
       docs.Handler := "github.com/x/y.z/handler.func1" |}
    = Returned "Post func1" /\
  @docs.deriveSummary Spec.asciiLower Terms.asciiTitle
    {| docs.Method := "DELETE"; docs.Path := EmptyString;
       docs.Handler := "JustName" |} = Returned "Delete JustName".
Proof. repeat split; vm_compute; reflexivity. Qed.

(** * More on the metrics recorder *)

Section BoundFacts.
Import GoStrings metrics.

Lemma take_all (n : nat) (s : string) :
  (String.length s <= n)%nat -> take n s = s.
Proof.
  revert n. induction s as [|c s IH]; intros [|n] Hn; try reflexivity.
  - cbn in Hn. lia.
  - cbn in *. rewrite IH; [reflexivity|lia].
Qed.

Lemma len_take (n : Z) (s : string) :
  0 <= n -> len (take (Z.to_nat n) s) = Z.min (len s) n.
Proof. intros Hn. unfold len. rewrite length_take. lia. Qed.

Lemma len_empty (s : string) : len s = 0 -> s = EmptyString.
Proof. destruct s; [reflexivity|]. unfold len. cbn. lia. Qed.

End BoundFacts.

(** [boundString] with any bound and fallback: the fallback, as it is,
    for the empty string; otherwise the first [maxLen] bytes of the
    string, which are all of it when it is short enough, and a panic
    when the bound is negative.  What it returns for a string that is
    not empty it returns again when applied to the result, unless that
    is empty, which a bound of zero makes it. *)
Theorem boundString_caps_or_panics (s fallback : string) (maxLen : Z) :
  match metrics.boundString s maxLen fallback with
  | Returned r =>
      ((s = EmptyString /\ r = fallback) \/
       (s <> EmptyString /\ 0 <= maxLen /\
        r = GoStrings.take (Z.to_nat maxLen) s /\
        GoStrings.len r = Z.min (GoStrings.len s) maxLen)) /\
      (s <> EmptyString -> r <> EmptyString ->
       metrics.boundString r maxLen fallback = Returned r)
  | Panicked => s <> EmptyString /\ maxLen < 0
  end.
Proof.
  unfold metrics.boundString at 1.
  destruct (decide (s = EmptyString)) as [->|Hs]; [split; [auto|done]|].
  pose proof (len_nonneg s) as Hl.
  destruct (GoStrings.len s >? maxLen) eqn:Hgt.
  - apply Z.gtb_lt in Hgt. unfold GoStrings.slice_to.
    destruct (0 <=? maxLen) eqn:H0; cbn [andb].
    + apply Z.leb_le in H0.
      destruct (maxLen <=? GoStrings.len s) eqn:Hle;
        [|apply Z.leb_gt in Hle; lia].
      pose proof (len_take maxLen s H0) as Ht.
      split; [right; repeat split; assumption|].
      intros _ Hr. unfold metrics.boundString.
      rewrite decide_False by assumption. rewrite Ht.
      destruct (Z.min _ _ >? maxLen) eqn:Hm; [|reflexivity].
      apply Z.gtb_lt in Hm. lia.
    + apply Z.leb_gt in H0. now split.
  - assert (GoStrings.len s <= maxLen) as Hle.
    { destruct (Z.gtb_spec (GoStrings.len s) maxLen); [discriminate|lia]. }
    split.
    + right. repeat split; [assumption|lia| |lia].
      symmetry. apply take_all. unfold GoStrings.len in Hle. lia.
    + intros _ _. unfold metrics.boundString.
      now rewrite decide_False, Hgt by assumption.
Qed.

Section OutcomeFacts.
Import GoStrings metrics Spec.
Context `{UnicodeLower} `{error E}.

Lemma instrumented_fields (m : MCPMetrics) :
  instrumented m = true ->
  exists i1 i2 i3 i4 i5 i6 i7 i8 i9 i10 i11 i12 i13,
    m = {| ToolInvocations := Some i1; ToolLatency := Some i2;
           ToolErrors := Some i3; RequestsTotal := Some i4;
           RequestLatency := Some i5; RequestErrors := Some i6;
           Sessions := Some i7; ServerRegistrations := Some i8;
           ServerDeregistrations := Some i9; ServerTransport := Some i10;
           ToolAvailability := Some i11; ToolDiscovery := Some i12;
           ErrorsByType := Some i13 |}.
Proof.
  intros Hm. instruments m Hm. repeat eexists.
Qed.

End OutcomeFacts.

(** What [RecordRequest] and [RecordTool] hand to the SDK, with every
    instrument present: a count and a latency, and an error count
    exactly when the status is [error], whether there is an error value
    or not; all of them with the same attributes, among which is the
    type of the error exactly when there is an error value, whatever the
    status. *)
Theorem RecordRequest_and_RecordTool_hand_over_outcome
    `{UnicodeLower} `{error E} (m : metrics.MCPMetrics)
    (method server tool : string) (status : metrics.MetricStatus)
    (started : metrics.Time) (err : option E)
    (Hm : Spec.instrumented m = true) :
  (exists total latency errors label,
     metrics.RequestsTotal m = Some total /\
     metrics.RequestLatency m = Some latency /\
     metrics.RequestErrors m = Some errors /\
     metrics.boundString method 64 "unknown" = Returned label /\
     forall sdk,
       metrics.RecordRequest (Some m) method status started err sdk =
         Returned (tt, sdk ++
           Terms.outcomeRecorded total latency errors status started
             ([metrics.attribute_String metrics.LabelMCPMethod label;
               metrics.attribute_String metrics.LabelStatus status] ++
              Terms.errorAttribute err))) /\
  (exists total latency errors serverLabel toolLabel,
     metrics.ToolInvocations m = Some total /\
     metrics.ToolLatency m = Some latency /\
     metrics.ToolErrors m = Some errors /\
     metrics.boundString server 64 "unknown" = Returned serverLabel /\
     metrics.boundString tool 64 "unknown" = Returned toolLabel /\
     forall sdk,
       metrics.RecordTool (Some m) server tool status started err sdk =
         Returned (tt, sdk ++
           Terms.outcomeRecorded total latency errors status started
             ([metrics.attribute_String metrics.LabelMCPServerName
                 serverLabel;
               metrics.attribute_String metrics.LabelToolName toolLabel;
               metrics.attribute_String metrics.LabelStatus status] ++
              Terms.errorAttribute err))).
Proof.
  destruct (instrumented_fields m Hm)
    as (i1 & i2 & i3 & i4 & i5 & i6 & i7 & i8 & i9 & i10 & i11 & i12 & i13
        & ->).
  destruct (boundString_64 method) as (mv & Hmv & _).
  destruct (boundString_64 server) as (sv & Hsv & _).
  destruct (boundString_64 tool) as (tv & Htv & _).
  split.
  - exists i4, i5, i6, mv. repeat split; try assumption. intros sdk.
    unfold metrics.RecordRequest, Terms.outcomeRecorded, Terms.errorAttribute.
    run_recorder. rewrite Hmv. run_recorder.
    destruct (bool_decide (status = metrics.StatusError)); run_recorder;
      rewrite <- ?app_assoc; destruct err; reflexivity.
  - exists i1, i2, i3, sv, tv. repeat split; try assumption. intros sdk.
    unfold metrics.RecordTool, Terms.outcomeRecorded, Terms.errorAttribute.
    run_recorder. rewrite Hsv. run_recorder. rewrite Htv. run_recorder.
    destruct (bool_decide (status = metrics.StatusError)); run_recorder;
      rewrite <- ?app_assoc; destruct err; reflexivity.
Qed.

Lemma RecordRequest_and_RecordTool_hand_over_outcome_witness :
  exists total latency errors label,
    metrics.RequestsTotal Spec.sampleMetrics = Some total /\
    metrics.RequestLatency Spec.sampleMetrics = Some latency /\
    metrics.RequestErrors Spec.sampleMetrics = Some errors /\
    metrics.boundString "get_tool" 64 "unknown" = Returned label /\
    forall sdk,
      @metrics.RecordRequest Spec.asciiLower errorString _
        (Some Spec.sampleMetrics) "get_tool" metrics.StatusError 0
        (Some (ErrorString "tool not found")) sdk =
        Returned (tt, sdk ++
          Terms.outcomeRecorded total latency errors metrics.StatusError 0
            ([metrics.attribute_String metrics.LabelMCPMethod label;
              metrics.attribute_String metrics.LabelStatus
                metrics.StatusError] ++
             @Terms.errorAttribute Spec.asciiLower errorString _
               (Some (ErrorString "tool not found")))).
Proof.
  refine (proj1 (@RecordRequest_and_RecordTool_hand_over_outcome
                   Spec.asciiLower errorString _ Spec.sampleMetrics
                   "get_tool" "calc" "add" metrics.StatusError 0
                   (Some (ErrorString "tool not found")) _)).
  reflexivity.
Defined.

Section AvailabilityFacts.
Import GoStrings metrics Spec.

Lemma increments_app (a b : list Measurement) :
  Terms.increments (a ++ b) = Terms.increments a + Terms.increments b.
Proof.
  induction a as [|ms a IH]; [reflexivity|]. cbn.
  destruct (value ms); rewrite IH; lia.
Qed.

Lemma RecordToolAvailability_run (m : MCPMetrics) (tool : string)
    (available : bool) :
  instrumented m = true ->
  exists name label,
    ToolAvailability m = Some name /\
    boundString tool 64 "unknown" = Returned label /\
    forall sdk,
      RecordToolAvailability (Some m) tool available sdk =
        Returned (tt, sdk ++
          [{| instrument := name;
              value := Int64 (if available then 1 else 0);
              attributes := [attribute_String LabelToolName label] |}]).
Proof.
  intros Hm. instruments m Hm.
  destruct (boundString_64 tool) as (tv & Htv & _).
  eexists _, tv. repeat split; [assumption|]. intros sdk.
  unfold RecordToolAvailability. run_recorder. rewrite Htv. run_recorder.
  reflexivity.
Qed.

End AvailabilityFacts.

(** [RecordToolAvailability] never takes anything off its up/down
    counter: each call adds 1 for an available tool and 0 for an
    unavailable one, so after any sequence of calls the increments sum
    up to the number of calls that said available. *)
Theorem RecordToolAvailability_never_decrements
    (m : metrics.MCPMetrics) (events : list (string * bool))
    (Hm : Spec.instrumented m = true) :
  Spec.records
    (fun new =>
       length new = length events /\
       Forall (fun ms => metrics.instrument ms
                         = default EmptyString (metrics.ToolAvailability m) /\
                         (metrics.value ms = metrics.Int64 0 \/
                          metrics.value ms = metrics.Int64 1)) new /\
       Terms.increments new
       = Z.of_nat (length (List.filter snd events)))
    (forRange events (fun e =>
       metrics.RecordToolAvailability (Some m) e.1 e.2)).
Proof.
  induction events as [|[tool available] events IH]; intros sdk.
  - exists []. rewrite app_nil_r. repeat split. constructor.
  - destruct (RecordToolAvailability_run m tool available Hm)
      as (name & label & Hname & _ & Hrun).
    destruct (IH (sdk ++
      [{| metrics.instrument := name;
          metrics.value := metrics.Int64 (if available then 1 else 0);
          metrics.attributes :=
            [metrics.attribute_String metrics.LabelToolName label] |}]))
      as (new & Hrest & Hlen & Hall & Hsum).
    eexists (_ :: new). split.
    { cbn [forRange]. unfold bind. cbn [fst snd]. rewrite Hrun, Hrest.
      now rewrite <- app_assoc. }
    split; [cbn; now rewrite Hlen|]. split.
    + constructor; [|exact Hall]. cbn. rewrite Hname.
      split; [reflexivity|]. destruct available; auto.
    + cbn. rewrite Hsum. destruct available; cbn; lia.
Qed.

Lemma RecordToolAvailability_never_decrements_witness :
  Spec.records
    (fun new =>
       length new = 3%nat /\
       Forall (fun ms => metrics.instrument ms
                         = "mcpjungle_tool_availability" /\
                         (metrics.value ms = metrics.Int64 0 \/
                          metrics.value ms = metrics.Int64 1)) new /\
       Terms.increments new = 2)
    (forRange [("calc::add", true); ("calc::add", false);
               ("calc::add", true)]
       (fun e => metrics.RecordToolAvailability (Some Spec.sampleMetrics)
                   e.1 e.2)).
Proof.
  apply (RecordToolAvailability_never_decrements Spec.sampleMetrics
           [("calc::add", true); ("calc::add", false); ("calc::add", true)]).
  reflexivity.
Defined.

(** * More on the handlers *)

Section CutFacts.
Import GoStrings.



End CutFacts.


(** [registerServerHandler] turns a request down before it reaches the
    service: when the body cannot be bound, the transport is not valid
    or the constructor of the server refuses the input, it answers 400
    with the message, makes no service call, leaves the service as it
    was and, with metrics, counts a validation error. *)
Theorem registerServerHandler_rejects_before_calling
    {Svc R E : Type} `{UnicodeLower} `{error E}
    `{api.MCPService Svc R E} `{api.ServerModel}
    (s : api.Server) (c : api.Context RegisterServerInput)
    (w : api.World Svc) (msg : string)
    (Hs : Spec.configured s = true)
    (Hreject :
       (exists err, api.RequestBody c = Err err /\ msg = Error err) \/
       (exists input, api.RequestBody c = Ok input /\
          api.newServer input = Err msg)) :
  Spec.responds s (api.registerServerHandler s c) w
    {| api.Status := api.StatusBadRequest; api.Payload := api.ErrorBody msg |}
    (api.service w) [] (Spec.countsError s metrics.ErrorTypeValidation).
Proof.
  unfold api.registerServerHandler, api.badRequest.
  destruct Hreject as [(err & -> & ->)|(input & -> & ->)]; answer.
Qed.

Lemma registerServerHandler_rejects_before_calling_witness :
  Spec.responds Spec.sampleServer
    (@api.registerServerHandler mcp.Registry any mcp.ServiceError _ _ _
       Spec.sampleServer
       {| api.RequestBody :=
            Ok {| InputName := "files"; InputTransport := "carrier-pigeon";
                  InputDescription := EmptyString; InputURL := EmptyString;
                  InputBearerToken := EmptyString;
                  InputCommand := "run-tool"; InputArgs := [];
                  InputEnv := ∅ |};
          api.QueryParams := ∅ |})
    (Spec.worldOf Spec.calcRegistry)
    {| api.Status := api.StatusBadRequest;
       api.Payload := api.ErrorBody "unsupported transport" |}
    Spec.calcRegistry []
    (Spec.countsError Spec.sampleServer metrics.ErrorTypeValidation).
Proof.
  apply (@registerServerHandler_rejects_before_calling mcp.Registry any
           mcp.ServiceError Spec.asciiLower _ _ _ Spec.sampleServer).
  - reflexivity.
  - right. eexists. split; reflexivity.
Defined.

(** ** The handlers that list and deregister *)

Section RestFacts.
Import metrics Spec.
Context {Svc E : Type} `{UnicodeLower} `{error E}.

(** The world after the SDK was handed the measurements [new]. *)
Lemma rest_record (P : list Measurement -> Prop) (r : M SDK unit)
    (w : apiRest.World Svc) :
  records P r ->
  exists new,
    apiRest.record r w =
      Returned (tt, {| apiRest.service := apiRest.service w;
                       apiRest.telemetry := apiRest.telemetry w ++ new;
                       apiRest.clock := apiRest.clock w;
                       apiRest.calls := apiRest.calls w |}) /\
    P new.
Proof.
  intros Hr. destruct (Hr (apiRest.telemetry w)) as (new & Hrun & HP).
  exists new. split; [|exact HP]. unfold apiRest.record. now rewrite Hrun.
Qed.

Lemma rest_block_request (s : api.Server) (method : string)
    (status : MetricStatus) (started : Time) (err : option E)
    (w : apiRest.World Svc) :
  configured s = true ->
  exists new,
    when (api.notNil (api.s_metrics s))
      (apiRest.record
         (RecordRequest (api.s_metrics s) method status started err)) w =
      Returned (tt, {| apiRest.service := apiRest.service w;
                       apiRest.telemetry := apiRest.telemetry w ++ new;
                       apiRest.clock := apiRest.clock w;
                       apiRest.calls := apiRest.calls w |}) /\
    (new = [] <-> api.s_metrics s = None) /\ typedErrors err new.
Proof.
  intros Hs. destruct (api.s_metrics s) as [m|] eqn:Hm; cbn [api.notNil when].
  - destruct (rest_record _ _ w
                (RecordRequest_records m method status started err
                   (configured_instrumented s m Hs Hm)))
      as (new & Hrun & Hne & Ht).
    exists new. repeat split; try done.
  - exists []. rewrite app_nil_r. destruct w. repeat split. constructor.
Qed.

End RestFacts.

(** [listToolsHandler] asks the service once: for all tools when the
    [server] parameter is missing or empty, for the tools of that server
    otherwise.  It answers 200 with the tools, or 500 with the message
    of the error of the service, never 400; with metrics it records the
    request, and the type of the error. *)
Theorem listToolsHandler_lists_all_or_one_server
    {Svc E : Type} `{UnicodeLower} `{error E} `{apiRest.MCPService Svc E}
    (s : api.Server) (c : apiRest.Context) (w : apiRest.World Svc)
    (Hs : Spec.configured s = true) :
  let server := apiRest.Query c "server" in
  let '(r, svc, made) :=
    if decide (server = EmptyString)
    then (apiRest.ListTools (apiRest.service w), [apiRest.CallListTools])
    else (apiRest.ListToolsByServer server (apiRest.service w),
          [apiRest.CallListToolsByServer server]) in
  exists new,
    (new = [] <-> api.s_metrics s = None) /\
    match r with
    | Ok tools =>
        Terms.answers (apiRest.listToolsHandler s c) w
          {| apiRest.Status := api.StatusOK;
             apiRest.Payload := Some (apiRest.ToolsBody tools) |}
          svc made new
    | Err err =>
        Terms.answers (apiRest.listToolsHandler s c) w
          {| apiRest.Status := api.StatusInternalServerError;
             apiRest.Payload := Some (apiRest.ErrorBody (Error err)) |}
          svc made new /\
        Spec.typedErrors (Some err) new
    end.
Proof.
  cbn zeta. unfold apiRest.listToolsHandler, Terms.answers.
  unfold mbind, M_bind, bind, apiRest.timeNow, apiRest.JSON, ret.
  destruct (decide (apiRest.Query c "server" = EmptyString)) as [Hq|Hq].
  - destruct (apiRest.ListTools (apiRest.service w)) as [[tools|err] svc]
      eqn:Hop; unfold apiRest.call; rewrite Hop.
    + destruct (rest_block_request s "list_tools" metrics.StatusSuccess
                  (apiRest.clock w) api.noError
                  {| apiRest.service := svc;
                     apiRest.telemetry := apiRest.telemetry w;
                     apiRest.clock := apiRest.clock w;
                     apiRest.calls :=
                       apiRest.calls w ++ [apiRest.CallListTools] |} Hs)
        as (new & Hrun & Hnil & _).
      exists new. split; [exact Hnil|]. now rewrite Hrun.
    + destruct (rest_block_request s "list_tools" metrics.StatusError
                  (apiRest.clock w) (Some err)
                  {| apiRest.service := svc;
                     apiRest.telemetry := apiRest.telemetry w;
                     apiRest.clock := apiRest.clock w;
                     apiRest.calls :=
                       apiRest.calls w ++ [apiRest.CallListTools] |} Hs)
        as (new & Hrun & Hnil & Ht).
      exists new. split; [exact Hnil|]. now rewrite Hrun.
  - destruct (apiRest.ListToolsByServer _ (apiRest.service w))
      as [[tools|err] svc] eqn:Hop; unfold apiRest.call; rewrite Hop.
    + destruct (rest_block_request s "list_tools" metrics.StatusSuccess
                  (apiRest.clock w) api.noError
                  {| apiRest.service := svc;
                     apiRest.telemetry := apiRest.telemetry w;
                     apiRest.clock := apiRest.clock w;
                     apiRest.calls :=
                       apiRest.calls w ++
                       [apiRest.CallListToolsByServer
                          (apiRest.Query c "server")] |} Hs)
        as (new & Hrun & Hnil & _).
      exists new. split; [exact Hnil|]. now rewrite Hrun.
    + destruct (rest_block_request s "list_tools" metrics.StatusError
                  (apiRest.clock w) (Some err)
                  {| apiRest.service := svc;
                     apiRest.telemetry := apiRest.telemetry w;
                     apiRest.clock := apiRest.clock w;
                     apiRest.calls :=
                       apiRest.calls w ++
                       [apiRest.CallListToolsByServer
                          (apiRest.Query c "server")] |} Hs)
        as (new & Hrun & Hnil & Ht).
      exists new. split; [exact Hnil|]. now rewrite Hrun.
Qed.

Section DeregisterFacts.
Import metrics Spec.

Lemma deregistration_run (m : MCPMetrics) (name : string) :
  instrumented m = true ->
  exists dereg transport label,
    ServerDeregistrations m = Some dereg /\
    ServerTransport m = Some transport /\
    boundString name 64 "unknown" = Returned label /\
    forall sdk,
      (RecordServerDeregistration (Some m) name;;
       RecordServerTransport (Some m) name EventTypeDeregistered) sdk =
        Returned (tt, sdk ++
          [{| instrument := dereg; value := Int64 1;
              attributes := [attribute_String LabelMCPServerName label] |};
           {| instrument := transport; value := Int64 1;
              attributes :=
                [attribute_String LabelMCPServerName label;
                 attribute_String LabelEventType EventTypeDeregistered] |}]).
Proof.
  intros Hm. instruments m Hm.
  destruct (boundString_64 name) as (label & Hlabel & _).
  eexists _, _, label. repeat split; [assumption|]. intros sdk.
  unfold RecordServerDeregistration, RecordServerTransport.
  run_recorder. rewrite Hlabel. run_recorder.
  now rewrite <- app_assoc.
Qed.

Lemma rest_record_seq {Svc} (a b : M SDK unit) (w : apiRest.World Svc) :
  (apiRest.record a;; apiRest.record b) w = apiRest.record (a;; b) w.
Proof.
  unfold mbind, M_bind, bind, apiRest.record.
  destruct (a (apiRest.telemetry w)) as [[[] sdk]|]; [|reflexivity].
  cbn [apiRest.telemetry apiRest.service apiRest.clock apiRest.calls].
  now destruct (b sdk) as [[[] sdk']|].
Qed.

Lemma rest_call {Svc A B} (what : apiRest.ServiceCall)
    (op : Svc -> A * Svc) (rest : A -> M (apiRest.World Svc) B)
    (w : apiRest.World Svc) (a : A) (svc : Svc) :
  op (apiRest.service w) = (a, svc) ->
  (r ← apiRest.call what op; rest r) w =
    rest a {| apiRest.service := svc;
              apiRest.telemetry := apiRest.telemetry w;
              apiRest.clock := apiRest.clock w;
              apiRest.calls := apiRest.calls w ++ [what] |}.
Proof.
  intros Hop. unfold mbind, M_bind, bind, apiRest.call. now rewrite Hop.
Qed.

End DeregisterFacts.

(** [deregisterServerHandler] hands the [name] of the path to the
    service as it is, empty or not, in one call.  When the service
    returns no error it answers 204 without a body and, with metrics,
    counts one deregistration and one transport event [deregistered],
    both under the bounded name of the server; when the service returns
    an error it answers 500 with its message and counts a registration
    error. *)
Theorem deregisterServerHandler_answers_no_content
    {Svc E : Type} `{error E} `{apiRest.MCPService Svc E}
    (s : api.Server) (c : apiRest.Context) (w : apiRest.World Svc)
    (Hs : Spec.configured s = true) :
  let name := apiRest.Param c "name" in
  match apiRest.DeregisterMcpServer name (apiRest.service w) with
  | (None, svc) =>
      exists new,
        Terms.answers (apiRest.deregisterServerHandler s c) w
          {| apiRest.Status := apiRest.StatusNoContent;
             apiRest.Payload := None |}
          svc [apiRest.CallDeregisterMcpServer name] new /\
        match api.s_metrics s with
        | None => new = []
        | Some m =>
            exists dereg transport label,
              metrics.ServerDeregistrations m = Some dereg /\
              metrics.ServerTransport m = Some transport /\
              metrics.boundString name 64 "unknown" = Returned label /\
              new =
                [{| metrics.instrument := dereg;
                    metrics.value := metrics.Int64 1;
                    metrics.attributes :=
                      [metrics.attribute_String metrics.LabelMCPServerName
                         label] |};
                 {| metrics.instrument := transport;
                    metrics.value := metrics.Int64 1;
                    metrics.attributes :=
                      [metrics.attribute_String metrics.LabelMCPServerName
                         label;
                       metrics.attribute_String metrics.LabelEventType
                         metrics.EventTypeDeregistered] |}]
        end
  | (Some err, svc) =>
      exists new,
        Terms.answers (apiRest.deregisterServerHandler s c) w
          {| apiRest.Status := api.StatusInternalServerError;
             apiRest.Payload := Some (apiRest.ErrorBody (Error err)) |}
          svc [apiRest.CallDeregisterMcpServer name] new /\
        (new = [] <-> api.s_metrics s = None) /\
        Spec.countsError s metrics.ErrorTypeRegistration new
  end.
Proof.
  cbn zeta. unfold apiRest.deregisterServerHandler, Terms.answers.
  destruct (apiRest.DeregisterMcpServer _ (apiRest.service w))
    as [[err|] svc] eqn:Hop; rewrite (rest_call _ _ _ _ _ _ Hop).
  - destruct (api.s_metrics s) as [m|] eqn:Hm; cbn [api.notNil when].
    + pose proof (configured_instrumented s m Hs Hm) as Hi.
      destruct (RecordEnhancedError_records m metrics.ErrorTypeRegistration
                  Hi (apiRest.telemetry w)) as (new & Hrun & ms & -> & Hms).
      exists [ms]. split; [|split; [split; discriminate|]].
      * unfold mbind, M_bind, bind, apiRest.record, apiRest.JSON, ret.
        cbn [apiRest.telemetry]. now rewrite Hrun.
      * intros _. constructor. rewrite Hm. exact Hms.
    + exists []. split; [|split; [done|intros Hne; contradiction]].
      unfold mbind, M_bind, bind, apiRest.JSON, ret. cbn.
      now rewrite app_nil_r.
  - destruct (api.s_metrics s) as [m|] eqn:Hm; cbn [api.notNil when].
    + pose proof (configured_instrumented s m Hs Hm) as Hi.
      destruct (deregistration_run m (apiRest.Param c "name") Hi)
        as (dereg & transport & label & Hd & Ht & Hl & Hrun).
      eexists. split; [|exists dereg, transport, label; eauto].
      unfold mbind at 1. unfold M_bind at 1. unfold bind at 1.
      rewrite rest_record_seq. unfold apiRest.record.
      cbn [apiRest.telemetry apiRest.service apiRest.clock apiRest.calls].
      now rewrite Hrun.
    + exists []. split; [|reflexivity].
      unfold mbind, M_bind, bind, ret. cbn. now rewrite app_nil_r.
Qed.

Lemma deregisterServerHandler_answers_no_content_witness :
  let name := apiRest.Param (Terms.restRequest ∅ {["name" := "remote"]}) "name"
  in
  match
    @apiRest.DeregisterMcpServer _ _ Terms.sampleService name
      (apiRest.service (Terms.restWorld [Terms.remote]))
  with
  | (None, svc) =>
      exists new,
        Terms.answers
          (@apiRest.deregisterServerHandler _ _ _ Terms.sampleService
             Spec.sampleServer (Terms.restRequest ∅ {["name" := "remote"]}))
          (Terms.restWorld [Terms.remote])
          {| apiRest.Status := apiRest.StatusNoContent;
             apiRest.Payload := None |}
          svc [apiRest.CallDeregisterMcpServer name] new /\
        match api.s_metrics Spec.sampleServer with
        | None => new = []
        | Some m =>
            exists dereg transport label,
              metrics.ServerDeregistrations m = Some dereg /\
              metrics.ServerTransport m = Some transport /\
              metrics.boundString name 64 "unknown" = Returned label /\
              new =
                [{| metrics.instrument := dereg;
                    metrics.value := metrics.Int64 1;
                    metrics.attributes :=
                      [metrics.attribute_String metrics.LabelMCPServerName
                         label] |};
                 {| metrics.instrument := transport;
                    metrics.value := metrics.Int64 1;
                    metrics.attributes :=
                      [metrics.attribute_String metrics.LabelMCPServerName
                         label;
                       metrics.attribute_String metrics.LabelEventType
                         metrics.EventTypeDeregistered] |}]
        end
  | (Some err, svc) =>
      exists new,
        Terms.answers
          (@apiRest.deregisterServerHandler _ _ _ Terms.sampleService
             Spec.sampleServer (Terms.restRequest ∅ {["name" := "remote"]}))
          (Terms.restWorld [Terms.remote])
          {| apiRest.Status := api.StatusInternalServerError;
             apiRest.Payload := Some (apiRest.ErrorBody (Error err)) |}
          svc [apiRest.CallDeregisterMcpServer name] new /\
        (new = [] <-> api.s_metrics Spec.sampleServer = None) /\
        Spec.countsError Spec.sampleServer metrics.ErrorTypeRegistration new
  end.
Proof.
  apply (@deregisterServerHandler_answers_no_content _ _ _
           Terms.sampleService Spec.sampleServer
           (Terms.restRequest ∅ {["name" := "remote"]})
           (Terms.restWorld [Terms.remote])).
  reflexivity.
Defined.

Section ViewFacts.
Context `{apiRest.ServerRecord}.

Lemma view_Ok (record : McpServer) (v : types.McpServer) :
  apiRest.view record = Ok v ->
  types.Name v = Name record /\
  types.Description v = Description record /\
  types.Transport v = apiRest.transportString (Transport record) /\
  (if decide (Transport record = TransportStreamableHTTP)
   then types.Command v = EmptyString /\ types.Args v = [] /\
        types.Env v = ∅ /\
        exists conf, apiRest.GetStreamableHTTPConfig record = Ok conf /\
          types.URL v = apiRest.ConfigURL conf
   else types.URL v = EmptyString /\
        exists conf, apiRest.GetStdioConfig record = Ok conf /\
          types.Command v = apiRest.ConfigCommand conf /\
          types.Args v = apiRest.ConfigArgs conf /\
          types.Env v = apiRest.ConfigEnv conf).
Proof.
  unfold apiRest.view.
  destruct (decide (Transport record = TransportStreamableHTTP)).
  - destruct (apiRest.GetStreamableHTTPConfig record) as [conf|];
      [|discriminate].
    intros [= <-]. cbn. repeat split. now exists conf.
  - destruct (apiRest.GetStdioConfig record) as [conf|]; [|discriminate].
    intros [= <-]. cbn. repeat split. now exists conf.
Qed.

Lemma views_Ok (records : list McpServer) (servers : list types.McpServer) :
  apiRest.views records = Ok servers ->
  Forall2 (fun record v => apiRest.view record = Ok v) records servers.
Proof.
  revert servers. induction records as [|record records IH]; intros servers.
  - intros [= <-]. constructor.
  - cbn. destruct (apiRest.view record) as [v|] eqn:Hv; [|discriminate].
    destruct (apiRest.views records) as [vs|]; [|discriminate].
    intros [= <-]. constructor; [exact Hv|now apply IH].
Qed.

Lemma views_Err (records : list McpServer) (msg : string) :
  apiRest.views records = Err msg ->
  exists before record after,
    records = before ++ record :: after /\
    Forall (fun r => exists v, apiRest.view r = Ok v) before /\
    apiRest.view record = Err msg.
Proof.
  induction records as [|record records IH]; [discriminate|]. cbn.
  destruct (apiRest.view record) as [v|msg'] eqn:Hv.
  - destruct (apiRest.views records) as [vs|msg'']; [discriminate|].
    intros [= ->]. destruct (IH eq_refl) as (before & r & after & -> & Hb & Hr).
    exists (record :: before), r, after. split; [reflexivity|].
    split; [|exact Hr]. constructor; [now exists v|exact Hb].
  - intros [= ->]. exists [], record, records. now repeat split.
Qed.

Lemma view_Err (record : McpServer) (msg : string) :
  apiRest.view record = Err msg ->
  if decide (Transport record = TransportStreamableHTTP)
  then exists err, apiRest.GetStreamableHTTPConfig record = Err err /\
         msg = "Error getting streamable HTTP config for server " +:+
               Name record +:+ ": " +:+ Error err
  else exists err, apiRest.GetStdioConfig record = Err err /\
         msg = "Error getting stdio config for server " +:+
               Name record +:+ ": " +:+ Error err.
Proof.
  unfold apiRest.view.
  destruct (decide (Transport record = TransportStreamableHTTP)).
  - destruct (apiRest.GetStreamableHTTPConfig record) as [conf|err];
      [discriminate|].
    intros [= <-]. now exists err.
  - destruct (apiRest.GetStdioConfig record) as [conf|err];
      [discriminate|].
    intros [= <-]. now exists err.
Qed.

End ViewFacts.

(** [listServersHandler] asks the service once and records no metric,
    with or without metrics.  It answers 200 with one view per record,
    in the order of the records, each with the name, the description
    and the transport of its record and with the fields of that
    transport only, copied from the configuration of the record: the
    URL of a streamable HTTP server, the command, arguments and
    environment of any other.  It answers 500 with the message of the
    service, or with a message that names the first record whose
    configuration cannot be read and gives the error of reading it. *)
Theorem listServersHandler_views_each_record
    {Svc E : Type} `{error E} `{apiRest.MCPService Svc E}
    `{apiRest.ServerRecord}
    (s : api.Server) (c : apiRest.Context) (w : apiRest.World Svc) :
  match apiRest.ListMcpServers (apiRest.service w) with
  | (r, svc) =>
      exists resp,
        Terms.answers (apiRest.listServersHandler s c) w resp svc
          [apiRest.CallListMcpServers] [] /\
        match r with
        | Err err =>
            resp = {| apiRest.Status := api.StatusInternalServerError;
                      apiRest.Payload :=
                        Some (apiRest.ErrorBody (Error err)) |}
        | Ok records =>
            (exists servers,
               resp = {| apiRest.Status := api.StatusOK;
                         apiRest.Payload :=
                           Some (apiRest.ServersBody servers) |} /\
               Forall2
                 (fun record v =>
                    types.Name v = Name record /\
                    types.Description v = Description record /\
                    types.Transport v
                    = apiRest.transportString (Transport record) /\
                    if decide (Transport record = TransportStreamableHTTP)
                    then types.Command v = EmptyString /\
                         types.Args v = [] /\ types.Env v = ∅ /\
                         exists conf,
                           apiRest.GetStreamableHTTPConfig record
                           = Ok conf /\
                           types.URL v = apiRest.ConfigURL conf
                    else types.URL v = EmptyString /\
                         exists conf,
                           apiRest.GetStdioConfig record = Ok conf /\
                           types.Command v = apiRest.ConfigCommand conf /\
                           types.Args v = apiRest.ConfigArgs conf /\
                           types.Env v = apiRest.ConfigEnv conf)
                 records servers) \/
            (exists before record after msg,
               records = before ++ record :: after /\
               Forall (fun r => exists v, apiRest.view r = Ok v) before /\
               apiRest.view record = Err msg /\
               (if decide (Transport record = TransportStreamableHTTP)
                then exists err,
                       apiRest.GetStreamableHTTPConfig record = Err err /\
                       msg = "Error getting streamable HTTP config for server "
                             +:+ Name record +:+ ": " +:+ Error err
                else exists err,
                       apiRest.GetStdioConfig record = Err err /\
                       msg = "Error getting stdio config for server "
                             +:+ Name record +:+ ": " +:+ Error err) /\
               resp = {| apiRest.Status := api.StatusInternalServerError;
                         apiRest.Payload :=
                           Some (apiRest.ErrorBody msg) |})
        end
  end.
Proof.
  unfold apiRest.listServersHandler, Terms.answers.
  destruct (apiRest.ListMcpServers (apiRest.service w)) as [r svc] eqn:Hop.
  rewrite (rest_call _ _ _ _ _ _ Hop). rewrite app_nil_r.
  destruct r as [records|err]; [|eexists; split; reflexivity].
  destruct (apiRest.views records) as [servers|msg] eqn:Hv.
  - eexists. split; [reflexivity|]. left. exists servers.
    split; [reflexivity|]. apply views_Ok in Hv.
    eapply Forall2_impl; [exact Hv|]. cbn beta.
    intros record v Hview. now apply view_Ok.
  - eexists. split; [reflexivity|]. right.
    destruct (views_Err records msg Hv) as (before & r & after & -> & Hb & Hr).
    exists before, r, after, msg.
    split; [reflexivity|]. split; [exact Hb|]. split; [exact Hr|].
    split; [now apply view_Err|reflexivity].
Qed.

(** [listServersHandler] gives no bearer token away: whatever the
    tokens in the configurations of the records are replaced with, the
    handler returns the same answer and leaves the same state. *)
Theorem listServersHandler_hides_bearer_tokens
    {Svc E : Type} `{error E} `{apiRest.MCPService Svc E}
    (model : apiRest.ServerRecord) (f : string -> string)
    (s : api.Server) (c : apiRest.Context) (w : apiRest.World Svc) :
  @apiRest.listServersHandler Svc E _ _ (Terms.withTokens f model) s c w =
  @apiRest.listServersHandler Svc E _ _ model s c w.
Proof.
  assert (forall record,
            @apiRest.view (Terms.withTokens f model) record
            = @apiRest.view model record) as Hview.
  { intros record. unfold apiRest.view. cbn.
    destruct (decide _); [|reflexivity].
    now destruct (@apiRest.GetStreamableHTTPConfig model record). }
  assert (forall records,
            @apiRest.views (Terms.withTokens f model) records
            = @apiRest.views model records) as Hviews.
  { induction records as [|record records IH]; [reflexivity|].
    cbn. now rewrite Hview, IH. }
  unfold apiRest.listServersHandler.
  destruct (apiRest.ListMcpServers (apiRest.service w)) as [r svc] eqn:Hop.
  rewrite !(rest_call _ _ _ _ _ _ Hop).
  destruct r as [records|err]; [|reflexivity]. now rewrite Hviews.
Qed.

(** The sample server is listed with its URL and without its token. *)
Example listServersHandler_sample :
  Terms.answers
    (@apiRest.listServersHandler _ _ _ Terms.sampleService
       Terms.sampleRecord Spec.sampleServer (Terms.restRequest ∅ ∅))
    (Terms.restWorld [Terms.remote])
    {| apiRest.Status := 200;
       apiRest.Payload :=
         Some (apiRest.ServersBody
                 [{| types.Name := "remote";
                     types.Transport := "streaming-http";
                     types.Description := "a remote server";
                     types.URL := "https://example.test/mcp";
                     types.Command := EmptyString;
                     types.Args := [];
                     types.Env := ∅ |}]) |}
    [Terms.remote] [apiRest.CallListMcpServers] [].
Proof. reflexivity. Qed.

Lemma listToolsHandler_lists_all_or_one_server_witness :
  let c := Terms.restRequest {["server" := "remote"]} ∅ in
  let w := Terms.restWorld [Terms.remote] in
  let server := apiRest.Query c "server" in
  let '(r, svc, made) :=
    if decide (server = EmptyString)
    then (@apiRest.ListTools _ _ Terms.sampleService (apiRest.service w),
          [apiRest.CallListTools])
    else (@apiRest.ListToolsByServer _ _ Terms.sampleService server
            (apiRest.service w),
          [apiRest.CallListToolsByServer server]) in
  exists new,
    (new = [] <-> api.s_metrics Spec.sampleServer = None) /\
    match r with
    | Ok tools =>
        Terms.answers
          (@apiRest.listToolsHandler _ _ Spec.asciiLower _
             Terms.sampleService Spec.sampleServer c) w
          {| apiRest.Status := api.StatusOK;
             apiRest.Payload := Some (apiRest.ToolsBody tools) |}
          svc made new
    | Err err =>
        Terms.answers
          (@apiRest.listToolsHandler _ _ Spec.asciiLower _
             Terms.sampleService Spec.sampleServer c) w
          {| apiRest.Status := api.StatusInternalServerError;
             apiRest.Payload := Some (apiRest.ErrorBody (Error err)) |}
          svc made new /\
        Spec.typedErrors (H := Spec.asciiLower) (Some err) new
    end.
Proof.
  intros c w.
  apply (@listToolsHandler_lists_all_or_one_server _ _ Spec.asciiLower _
           Terms.sampleService Spec.sampleServer c w).
  reflexivity.
Defined.

(** [getToolHandler] for any service: without a [name] it answers 400
    and does not reach the service; with one it asks the service once,
    and answers 200 with the tool or 500 with the message of the error,
    whose type it records. *)
Theorem getToolHandler_asks_once_or_rejects
    {Svc R E : Type} `{UnicodeLower} `{error E} `{api.MCPService Svc R E}
    (s : api.Server) (c : api.Context unit) (w : api.World Svc)
    (Hs : Spec.configured s = true) :
  if decide (api.Query c "name" = EmptyString) then
    Spec.responds s (api.getToolHandler s c) w
      {| api.Status := api.StatusBadRequest;
         api.Payload := api.ErrorBody "missing 'name' query parameter" |}
      (api.service w) [] Spec.anything
  else
    match api.GetTool (api.Query c "name") (api.service w) with
    | (Ok tool, svc) =>
        Spec.responds s (api.getToolHandler s c) w
          {| api.Status := api.StatusOK; api.Payload := api.ToolBody tool |}
          svc [api.CallGetTool (api.Query c "name")] Spec.anything
    | (Err err, svc) =>
        Spec.responds s (api.getToolHandler s c) w
          {| api.Status := api.StatusInternalServerError;
             api.Payload := api.ErrorBody (Error err) |}
          svc [api.CallGetTool (api.Query c "name")]
          (Spec.typedErrors (Some err))
    end.
Proof.
  destruct (decide _) as [Hq|Hq].
  - now apply getToolHandler_unnamed.
  - now apply getToolHandler_named.
Qed.

Lemma getToolHandler_asks_once_or_rejects_witness :
  Spec.responds Spec.sampleServer
    (@api.getToolHandler mcp.Registry any mcp.ServiceError Spec.asciiLower
       _ _ Spec.sampleServer (Spec.queryRequest "tool" "calc::add"))
    (Spec.worldOf Spec.calcRegistry)
    {| api.Status := api.StatusBadRequest;
       api.Payload := api.ErrorBody "missing 'name' query parameter" |}
    Spec.calcRegistry [] Spec.anything.
Proof.
  exact (@getToolHandler_asks_once_or_rejects mcp.Registry any
           mcp.ServiceError Spec.asciiLower _ _ Spec.sampleServer
           (Spec.queryRequest "tool" "calc::add")
           (Spec.worldOf Spec.calcRegistry) eq_refl).
Defined.
